(** * FindFlow front end (website/main.js): a shallow embedding

    The script is one file of event handlers over a handful of global
    variables and the page's DOM.  The embedding follows that layout:

    - [JS]       strings as sequences of UTF-16 code units, the string
                 methods the handlers call, and a fragment of [RegExp];
    - [Catalog]  the smart-search filter over the constant [products];
    - [Suggest]  the autocomplete table and [getAutocompleteSuggestions];
    - [Flow]     the question/answer controller: the globals [step],
                 [category], [answers], [isRequestInProgress], the page
                 elements the handlers write, and the timers and fetches
                 they leave with the browser;
    - [Sample]   a few concrete pages and payloads;
    - [Titles]   [extractBrand] and [extractModel];
    - [SmartSearch] the suggestion line of the smart search;
    - [Prefs]    the theme and its switches;
    - [Search]   the search box with its autocomplete dropdown.

    Definitions come first; every statement about them follows. *)

From Stdlib Require Import List String Ascii NArith ZArith QArith Qround Bool Arith Lia.
Import ListNotations.

(* ================================================================= *)
(** ** JavaScript strings *)

Module JS.

Open Scope N_scope.

(** A JavaScript string is a sequence of UTF-16 code units. *)
Definition jsstring := list N.

Definition emit_code_point (cp : N) : jsstring :=
  if cp <? 65536 then [cp]
  else [55296 + (cp - 65536) / 1024; 56320 + (cp - 65536) mod 1024].

(** Source literals are written as they appear in main.js (the file is
    UTF-8) and decoded to code units. *)
Fixpoint utf8_decode (need : nat) (acc : N) (bs : list N) : jsstring :=
  match bs with
  | [] => []
  | b :: bs' =>
      match need with
      | O => if b <? 128 then b :: utf8_decode 0 0 bs'
             else if b <? 224 then utf8_decode 1 (b mod 32) bs'
             else if b <? 240 then utf8_decode 2 (b mod 16) bs'
             else utf8_decode 3 (b mod 8) bs'
      | S O => emit_code_point (acc * 64 + b mod 64) ++ utf8_decode 0 0 bs'
      | S n => utf8_decode n (acc * 64 + b mod 64) bs'
      end
  end.

Definition js (s : string) : jsstring :=
  utf8_decode 0 0 (map N_of_ascii (list_ascii_of_string s)).

(** [a === b] on strings. *)
Fixpoint str_eqb (a b : jsstring) : bool :=
  match a, b with
  | [], [] => true
  | x :: a', y :: b' => (x =? y) && str_eqb a' b'
  | _, _ => false
  end.

(** Truthiness of a string value: only the empty string is falsy. *)
Definition truthy_str (s : jsstring) : bool :=
  match s with [] => false | _ :: _ => true end.

(** *** [String.prototype.toLowerCase]

    The method reads the string as code points, replaces each by its
    lowercase mapping in the Unicode Character Database, and writes the
    result back as code units.  The mappings are those of version 14.0
    of the database.  All but two send one code point to one code point
    and are kept in [lowercase_rows]: U+0130 lowers to U+0069 U+0307,
    and U+03A3 lowers to U+03C2 in final position and to U+03C3
    elsewhere. *)

Definition is_lead (c : N) : bool := (55296 <=? c) && (c <=? 56319).
Definition is_trail (c : N) : bool := (56320 <=? c) && (c <=? 57343).

(** A lead surrogate followed by a trail surrogate is one code point;
    any other code unit, a lone surrogate included, stands for itself. *)
Fixpoint code_points (s : jsstring) : list N :=
  match s with
  | [] => []
  | c :: s' =>
      match s' with
      | d :: s'' =>
          if is_lead c && is_trail d
          then (65536 + (c - 55296) * 1024 + (d - 56320)) :: code_points s''
          else c :: code_points s'
      | [] => [c]
      end
  end.

(** A row [(first, last, step, target)] sends [first] to [target],
    [first + step] to [target + step], and so on up to [last]. *)
Definition lowercase_rows : list (N * N * N * N) := [
  (65, 90, 1, 97); (192, 214, 1, 224); (216, 222, 1, 248);
  (256, 302, 2, 257); (306, 310, 2, 307); (313, 327, 2, 314);
  (330, 374, 2, 331); (376, 376, 1, 255); (377, 381, 2, 378);
  (385, 385, 1, 595); (386, 388, 2, 387); (390, 390, 1, 596);
  (391, 391, 1, 392); (393, 394, 1, 598); (395, 395, 1, 396);
  (398, 398, 1, 477); (399, 399, 1, 601); (400, 400, 1, 603);
  (401, 401, 1, 402); (403, 403, 1, 608); (404, 404, 1, 611);
  (406, 406, 1, 617); (407, 407, 1, 616); (408, 408, 1, 409);
  (412, 412, 1, 623); (413, 413, 1, 626); (415, 415, 1, 629);
  (416, 420, 2, 417); (422, 422, 1, 640); (423, 423, 1, 424);
  (425, 425, 1, 643); (428, 428, 1, 429); (430, 430, 1, 648);
  (431, 431, 1, 432); (433, 434, 1, 650); (435, 437, 2, 436);
  (439, 439, 1, 658); (440, 440, 1, 441); (444, 444, 1, 445);
  (452, 452, 1, 454); (453, 453, 1, 454); (455, 455, 1, 457);
  (456, 456, 1, 457); (458, 458, 1, 460); (459, 475, 2, 460);
  (478, 494, 2, 479); (497, 497, 1, 499); (498, 500, 2, 499);
  (502, 502, 1, 405); (503, 503, 1, 447); (504, 542, 2, 505);
  (544, 544, 1, 414); (546, 562, 2, 547); (570, 570, 1, 11365);
  (571, 571, 1, 572); (573, 573, 1, 410); (574, 574, 1, 11366);
  (577, 577, 1, 578); (579, 579, 1, 384); (580, 580, 1, 649);
  (581, 581, 1, 652); (582, 590, 2, 583); (880, 882, 2, 881);
  (886, 886, 1, 887); (895, 895, 1, 1011); (902, 902, 1, 940);
  (904, 906, 1, 941); (908, 908, 1, 972); (910, 911, 1, 973);
  (913, 929, 1, 945); (931, 939, 1, 963); (975, 975, 1, 983);
  (984, 1006, 2, 985); (1012, 1012, 1, 952); (1015, 1015, 1, 1016);
  (1017, 1017, 1, 1010); (1018, 1018, 1, 1019); (1021, 1023, 1, 891);
  (1024, 1039, 1, 1104); (1040, 1071, 1, 1072); (1120, 1152, 2, 1121);
  (1162, 1214, 2, 1163); (1216, 1216, 1, 1231); (1217, 1229, 2, 1218);
  (1232, 1326, 2, 1233); (1329, 1366, 1, 1377); (4256, 4293, 1, 11520);
  (4295, 4295, 1, 11559); (4301, 4301, 1, 11565); (5024, 5103, 1, 43888);
  (5104, 5109, 1, 5112); (7312, 7354, 1, 4304); (7357, 7359, 1, 4349);
  (7680, 7828, 2, 7681); (7838, 7838, 1, 223); (7840, 7934, 2, 7841);
  (7944, 7951, 1, 7936); (7960, 7965, 1, 7952); (7976, 7983, 1, 7968);
  (7992, 7999, 1, 7984); (8008, 8013, 1, 8000); (8025, 8031, 2, 8017);
  (8040, 8047, 1, 8032); (8072, 8079, 1, 8064); (8088, 8095, 1, 8080);
  (8104, 8111, 1, 8096); (8120, 8121, 1, 8112); (8122, 8123, 1, 8048);
  (8124, 8124, 1, 8115); (8136, 8139, 1, 8050); (8140, 8140, 1, 8131);
  (8152, 8153, 1, 8144); (8154, 8155, 1, 8054); (8168, 8169, 1, 8160);
  (8170, 8171, 1, 8058); (8172, 8172, 1, 8165); (8184, 8185, 1, 8056);
  (8186, 8187, 1, 8060); (8188, 8188, 1, 8179); (8486, 8486, 1, 969);
  (8490, 8490, 1, 107); (8491, 8491, 1, 229); (8498, 8498, 1, 8526);
  (8544, 8559, 1, 8560); (8579, 8579, 1, 8580); (9398, 9423, 1, 9424);
  (11264, 11311, 1, 11312); (11360, 11360, 1, 11361);
  (11362, 11362, 1, 619); (11363, 11363, 1, 7549); (11364, 11364, 1, 637);
  (11367, 11371, 2, 11368); (11373, 11373, 1, 593); (11374, 11374, 1, 625);
  (11375, 11375, 1, 592); (11376, 11376, 1, 594); (11378, 11378, 1, 11379);
  (11381, 11381, 1, 11382); (11390, 11391, 1, 575);
  (11392, 11490, 2, 11393); (11499, 11501, 2, 11500);
  (11506, 11506, 1, 11507); (42560, 42604, 2, 42561);
  (42624, 42650, 2, 42625); (42786, 42798, 2, 42787);
  (42802, 42862, 2, 42803); (42873, 42875, 2, 42874);
  (42877, 42877, 1, 7545); (42878, 42886, 2, 42879);
  (42891, 42891, 1, 42892); (42893, 42893, 1, 613);
  (42896, 42898, 2, 42897); (42902, 42920, 2, 42903);
  (42922, 42922, 1, 614); (42923, 42923, 1, 604); (42924, 42924, 1, 609);
  (42925, 42925, 1, 620); (42926, 42926, 1, 618); (42928, 42928, 1, 670);
  (42929, 42929, 1, 647); (42930, 42930, 1, 669); (42931, 42931, 1, 43859);
  (42932, 42946, 2, 42933); (42948, 42948, 1, 42900);
  (42949, 42949, 1, 642); (42950, 42950, 1, 7566);
  (42951, 42953, 2, 42952); (42960, 42960, 1, 42961);
  (42966, 42968, 2, 42967); (42997, 42997, 1, 42998);
  (65313, 65338, 1, 65345); (66560, 66599, 1, 66600);
  (66736, 66771, 1, 66776); (66928, 66938, 1, 66967);
  (66940, 66954, 1, 66979); (66956, 66962, 1, 66995);
  (66964, 66965, 1, 67003); (68736, 68786, 1, 68800);
  (71840, 71871, 1, 71872); (93760, 93791, 1, 93792);
  (125184, 125217, 1, 125218)
].

Fixpoint simple_lowercase (rows : list (N * N * N * N)) (p : N) : N :=
  match rows with
  | [] => p
  | (first, last, step, target) :: rows' =>
      if (first <=? p) && (p <=? last) && ((p - first) mod step =? 0)
      then target + (p - first)
      else simple_lowercase rows' p
  end.

(** The code points with the properties Cased and Case_Ignorable, as
    ranges. *)
Definition cased_ranges : list (N * N) := [
  (65, 90); (97, 122); (170, 170); (181, 181); (186, 186); (192, 214);
  (216, 246); (248, 442); (444, 447); (452, 659); (661, 696); (704, 705);
  (736, 740); (837, 837); (880, 883); (886, 887); (890, 893); (895, 895);
  (902, 902); (904, 906); (908, 908); (910, 929); (931, 1013);
  (1015, 1153); (1162, 1327); (1329, 1366); (1376, 1416); (4256, 4293);
  (4295, 4295); (4301, 4301); (4304, 4346); (4349, 4351); (5024, 5109);
  (5112, 5117); (7296, 7304); (7312, 7354); (7357, 7359); (7424, 7615);
  (7680, 7957); (7960, 7965); (7968, 8005); (8008, 8013); (8016, 8023);
  (8025, 8025); (8027, 8027); (8029, 8029); (8031, 8061); (8064, 8116);
  (8118, 8124); (8126, 8126); (8130, 8132); (8134, 8140); (8144, 8147);
  (8150, 8155); (8160, 8172); (8178, 8180); (8182, 8188); (8305, 8305);
  (8319, 8319); (8336, 8348); (8450, 8450); (8455, 8455); (8458, 8467);
  (8469, 8469); (8473, 8477); (8484, 8484); (8486, 8486); (8488, 8488);
  (8490, 8493); (8495, 8500); (8505, 8505); (8508, 8511); (8517, 8521);
  (8526, 8526); (8544, 8575); (8579, 8580); (9398, 9449); (11264, 11492);
  (11499, 11502); (11506, 11507); (11520, 11557); (11559, 11559);
  (11565, 11565); (42560, 42605); (42624, 42653); (42786, 42887);
  (42891, 42894); (42896, 42954); (42960, 42961); (42963, 42963);
  (42965, 42969); (42997, 42998); (43000, 43002); (43824, 43866);
  (43868, 43880); (43888, 43967); (64256, 64262); (64275, 64279);
  (65313, 65338); (65345, 65370); (66560, 66639); (66736, 66771);
  (66776, 66811); (66928, 66938); (66940, 66954); (66956, 66962);
  (66964, 66965); (66967, 66977); (66979, 66993); (66995, 67001);
  (67003, 67004); (67456, 67456); (67459, 67461); (67463, 67504);
  (67506, 67514); (68736, 68786); (68800, 68850); (71840, 71903);
  (93760, 93823); (119808, 119892); (119894, 119964); (119966, 119967);
  (119970, 119970); (119973, 119974); (119977, 119980); (119982, 119993);
  (119995, 119995); (119997, 120003); (120005, 120069); (120071, 120074);
  (120077, 120084); (120086, 120092); (120094, 120121); (120123, 120126);
  (120128, 120132); (120134, 120134); (120138, 120144); (120146, 120485);
  (120488, 120512); (120514, 120538); (120540, 120570); (120572, 120596);
  (120598, 120628); (120630, 120654); (120656, 120686); (120688, 120712);
  (120714, 120744); (120746, 120770); (120772, 120779); (122624, 122633);
  (122635, 122654); (125184, 125251); (127280, 127305); (127312, 127337);
  (127344, 127369)
].

Definition case_ignorable_ranges : list (N * N) := [
  (39, 39); (46, 46); (58, 58); (94, 94); (96, 96); (168, 168); (173, 173);
  (175, 175); (180, 180); (183, 184); (688, 879); (884, 885); (890, 890);
  (900, 901); (903, 903); (1155, 1161); (1369, 1369); (1375, 1375);
  (1425, 1469); (1471, 1471); (1473, 1474); (1476, 1477); (1479, 1479);
  (1524, 1524); (1536, 1541); (1552, 1562); (1564, 1564); (1600, 1600);
  (1611, 1631); (1648, 1648); (1750, 1757); (1759, 1768); (1770, 1773);
  (1807, 1807); (1809, 1809); (1840, 1866); (1958, 1968); (2027, 2037);
  (2042, 2042); (2045, 2045); (2070, 2093); (2137, 2139); (2184, 2184);
  (2192, 2193); (2200, 2207); (2249, 2306); (2362, 2362); (2364, 2364);
  (2369, 2376); (2381, 2381); (2385, 2391); (2402, 2403); (2417, 2417);
  (2433, 2433); (2492, 2492); (2497, 2500); (2509, 2509); (2530, 2531);
  (2558, 2558); (2561, 2562); (2620, 2620); (2625, 2626); (2631, 2632);
  (2635, 2637); (2641, 2641); (2672, 2673); (2677, 2677); (2689, 2690);
  (2748, 2748); (2753, 2757); (2759, 2760); (2765, 2765); (2786, 2787);
  (2810, 2815); (2817, 2817); (2876, 2876); (2879, 2879); (2881, 2884);
  (2893, 2893); (2901, 2902); (2914, 2915); (2946, 2946); (3008, 3008);
  (3021, 3021); (3072, 3072); (3076, 3076); (3132, 3132); (3134, 3136);
  (3142, 3144); (3146, 3149); (3157, 3158); (3170, 3171); (3201, 3201);
  (3260, 3260); (3263, 3263); (3270, 3270); (3276, 3277); (3298, 3299);
  (3328, 3329); (3387, 3388); (3393, 3396); (3405, 3405); (3426, 3427);
  (3457, 3457); (3530, 3530); (3538, 3540); (3542, 3542); (3633, 3633);
  (3636, 3642); (3654, 3662); (3761, 3761); (3764, 3772); (3782, 3782);
  (3784, 3789); (3864, 3865); (3893, 3893); (3895, 3895); (3897, 3897);
  (3953, 3966); (3968, 3972); (3974, 3975); (3981, 3991); (3993, 4028);
  (4038, 4038); (4141, 4144); (4146, 4151); (4153, 4154); (4157, 4158);
  (4184, 4185); (4190, 4192); (4209, 4212); (4226, 4226); (4229, 4230);
  (4237, 4237); (4253, 4253); (4348, 4348); (4957, 4959); (5906, 5908);
  (5938, 5939); (5970, 5971); (6002, 6003); (6068, 6069); (6071, 6077);
  (6086, 6086); (6089, 6099); (6103, 6103); (6109, 6109); (6155, 6159);
  (6211, 6211); (6277, 6278); (6313, 6313); (6432, 6434); (6439, 6440);
  (6450, 6450); (6457, 6459); (6679, 6680); (6683, 6683); (6742, 6742);
  (6744, 6750); (6752, 6752); (6754, 6754); (6757, 6764); (6771, 6780);
  (6783, 6783); (6823, 6823); (6832, 6862); (6912, 6915); (6964, 6964);
  (6966, 6970); (6972, 6972); (6978, 6978); (7019, 7027); (7040, 7041);
  (7074, 7077); (7080, 7081); (7083, 7085); (7142, 7142); (7144, 7145);
  (7149, 7149); (7151, 7153); (7212, 7219); (7222, 7223); (7288, 7293);
  (7376, 7378); (7380, 7392); (7394, 7400); (7405, 7405); (7412, 7412);
  (7416, 7417); (7468, 7530); (7544, 7544); (7579, 7679); (8125, 8125);
  (8127, 8129); (8141, 8143); (8157, 8159); (8173, 8175); (8189, 8190);
  (8203, 8207); (8216, 8217); (8228, 8228); (8231, 8231); (8234, 8238);
  (8288, 8292); (8294, 8303); (8305, 8305); (8319, 8319); (8336, 8348);
  (8400, 8432); (11388, 11389); (11503, 11505); (11631, 11631);
  (11647, 11647); (11744, 11775); (11823, 11823); (12293, 12293);
  (12330, 12333); (12337, 12341); (12347, 12347); (12441, 12446);
  (12540, 12542); (40981, 40981); (42232, 42237); (42508, 42508);
  (42607, 42610); (42612, 42621); (42623, 42623); (42652, 42655);
  (42736, 42737); (42752, 42785); (42864, 42864); (42888, 42890);
  (42994, 42996); (43000, 43001); (43010, 43010); (43014, 43014);
  (43019, 43019); (43045, 43046); (43052, 43052); (43204, 43205);
  (43232, 43249); (43263, 43263); (43302, 43309); (43335, 43345);
  (43392, 43394); (43443, 43443); (43446, 43449); (43452, 43453);
  (43471, 43471); (43493, 43494); (43561, 43566); (43569, 43570);
  (43573, 43574); (43587, 43587); (43596, 43596); (43632, 43632);
  (43644, 43644); (43696, 43696); (43698, 43700); (43703, 43704);
  (43710, 43711); (43713, 43713); (43741, 43741); (43756, 43757);
  (43763, 43764); (43766, 43766); (43867, 43871); (43881, 43883);
  (44005, 44005); (44008, 44008); (44013, 44013); (64286, 64286);
  (64434, 64450); (65024, 65039); (65043, 65043); (65056, 65071);
  (65106, 65106); (65109, 65109); (65279, 65279); (65287, 65287);
  (65294, 65294); (65306, 65306); (65342, 65342); (65344, 65344);
  (65392, 65392); (65438, 65439); (65507, 65507); (65529, 65531);
  (66045, 66045); (66272, 66272); (66422, 66426); (67456, 67461);
  (67463, 67504); (67506, 67514); (68097, 68099); (68101, 68102);
  (68108, 68111); (68152, 68154); (68159, 68159); (68325, 68326);
  (68900, 68903); (69291, 69292); (69446, 69456); (69506, 69509);
  (69633, 69633); (69688, 69702); (69744, 69744); (69747, 69748);
  (69759, 69761); (69811, 69814); (69817, 69818); (69821, 69821);
  (69826, 69826); (69837, 69837); (69888, 69890); (69927, 69931);
  (69933, 69940); (70003, 70003); (70016, 70017); (70070, 70078);
  (70089, 70092); (70095, 70095); (70191, 70193); (70196, 70196);
  (70198, 70199); (70206, 70206); (70367, 70367); (70371, 70378);
  (70400, 70401); (70459, 70460); (70464, 70464); (70502, 70508);
  (70512, 70516); (70712, 70719); (70722, 70724); (70726, 70726);
  (70750, 70750); (70835, 70840); (70842, 70842); (70847, 70848);
  (70850, 70851); (71090, 71093); (71100, 71101); (71103, 71104);
  (71132, 71133); (71219, 71226); (71229, 71229); (71231, 71232);
  (71339, 71339); (71341, 71341); (71344, 71349); (71351, 71351);
  (71453, 71455); (71458, 71461); (71463, 71467); (71727, 71735);
  (71737, 71738); (71995, 71996); (71998, 71998); (72003, 72003);
  (72148, 72151); (72154, 72155); (72160, 72160); (72193, 72202);
  (72243, 72248); (72251, 72254); (72263, 72263); (72273, 72278);
  (72281, 72283); (72330, 72342); (72344, 72345); (72752, 72758);
  (72760, 72765); (72767, 72767); (72850, 72871); (72874, 72880);
  (72882, 72883); (72885, 72886); (73009, 73014); (73018, 73018);
  (73020, 73021); (73023, 73029); (73031, 73031); (73104, 73105);
  (73109, 73109); (73111, 73111); (73459, 73460); (78896, 78904);
  (92912, 92916); (92976, 92982); (92992, 92995); (94031, 94031);
  (94095, 94111); (94176, 94177); (94179, 94180); (110576, 110579);
  (110581, 110587); (110589, 110590); (113821, 113822); (113824, 113827);
  (118528, 118573); (118576, 118598); (119143, 119145); (119155, 119170);
  (119173, 119179); (119210, 119213); (119362, 119364); (121344, 121398);
  (121403, 121452); (121461, 121461); (121476, 121476); (121499, 121503);
  (121505, 121519); (122880, 122886); (122888, 122904); (122907, 122913);
  (122915, 122916); (122918, 122922); (123184, 123197); (123566, 123566);
  (123628, 123631); (125136, 125142); (125252, 125259); (127995, 127999);
  (917505, 917505); (917536, 917631); (917760, 917999)
].

Definition in_ranges (ranges : list (N * N)) (p : N) : bool :=
  existsb (fun r => (fst r <=? p) && (p <=? snd r)) ranges.

Definition Cased (p : N) : bool := in_ranges cased_ranges p.
Definition Case_Ignorable (p : N) : bool := in_ranges case_ignorable_ranges p.

(** Final position of U+03A3: a cased letter comes before it, with at
    most case-ignorable code points in between, and no cased letter
    comes after it in the same way.  [cased_follows] looks ahead;
    [after_cased] is carried along from the left. *)
Fixpoint cased_follows (ps : list N) : bool :=
  match ps with
  | [] => false
  | p :: ps' => if Case_Ignorable p then cased_follows ps' else Cased p
  end.

Fixpoint lowercase_points (after_cased : bool) (ps : list N) : list N :=
  match ps with
  | [] => []
  | p :: ps' =>
      (if p =? 931
       then [if after_cased && negb (cased_follows ps') then 962 else 963]
       else if p =? 304 then [105; 775]
       else [simple_lowercase lowercase_rows p])
      ++ lowercase_points (if Case_Ignorable p then after_cased else Cased p) ps'
  end.

Definition toLowerCase (s : jsstring) : jsstring :=
  flat_map emit_code_point (lowercase_points false (code_points s)).

(** [s.startsWith(t)] *)
Fixpoint startsWith (s t : jsstring) {struct t} : bool :=
  match t, s with
  | [], _ => true
  | y :: t', x :: s' => (x =? y) && startsWith s' t'
  | _ :: _, [] => false
  end.

(** [s.includes(t)]: [t] occurs at some position of [s]. *)
Fixpoint includes (s t : jsstring) : bool :=
  startsWith s t ||
  match s with
  | [] => false
  | _ :: s' => includes s' t
  end.

(** White space and line terminators, as [String.prototype.trim] strips
    them. *)
Definition is_space (c : N) : bool :=
  ((9 <=? c) && (c <=? 13)) || (c =? 32) || (c =? 160) || (c =? 5760)
  || ((8192 <=? c) && (c <=? 8202)) || (c =? 8232) || (c =? 8233)
  || (c =? 8239) || (c =? 8287) || (c =? 12288) || (c =? 65279).

Fixpoint trim_start (s : jsstring) : jsstring :=
  match s with
  | c :: s' => if is_space c then trim_start s' else s
  | [] => []
  end.

Definition trim (s : jsstring) : jsstring :=
  rev (trim_start (rev (trim_start s))).

(** *** Number literals

    A number literal denotes the double nearest to it, and a comparison
    of numbers compares these.  Doubles are kept as the rationals they
    are.  For a literal [q] at least 1 and below 2^1024, with
    [2^e <= q < 2^(e+1)], the doubles around [q] are the multiples of
    [2^(e-52)]; a tie goes to the even multiple. *)
Definition nearest_double (q : Q) : Q :=
  let e := Z.log2 (Qfloor q) in
  let scaled := (q * Qpower 2 (52 - e))%Q in
  let n := Qfloor scaled in
  let rest := (scaled - inject_Z n)%Q in
  let m :=
    match (rest ?= 1 # 2)%Q with
    | Lt => n
    | Eq => if Z.even n then n else (n + 1)%Z
    | Gt => (n + 1)%Z
    end in
  (inject_Z m * Qpower 2 (e - 52))%Q.

(** *** [RegExp] with the [i] flag

    [getAutocompleteSuggestions] builds its two patterns from the raw
    query.  The embedding gives a meaning to the patterns made of
    ordinary characters, [.], [^] and [$]; it reports the patterns no
    engine accepts for a reason that can be read off the brackets (an
    unterminated group or class, an unmatched [)], a trailing
    backslash); every other pattern is left [Unmodelled]. *)

(** Case folding of one code unit under [i] (no [u] flag): the upper
    case of the unit, unless that is longer than one unit or maps a
    non-ASCII unit into ASCII.  The table covers Basic Latin, Latin-1
    and the Turkish letters. *)
Definition Canonicalize (c : N) : N :=
  if (97 <=? c) && (c <=? 122) then c - 32
  else if (224 <=? c) && (c <=? 254) && negb (c =? 247) then c - 32
  else if c =? 255 then 376
  else if c =? 181 then 924
  else if c =? 287 then 286
  else if c =? 351 then 350
  else c.

(** The syntax characters of a pattern: [^ $ \ . * + ? ( ) [ ] { } |]. *)
Definition is_syntax_char (c : N) : bool :=
  (c =? 94) || (c =? 36) || (c =? 92) || (c =? 46) || (c =? 42) || (c =? 43)
  || (c =? 63) || (c =? 40) || (c =? 41) || (c =? 91) || (c =? 93)
  || (c =? 123) || (c =? 125) || (c =? 124).

Definition is_line_terminator (c : N) : bool :=
  (c =? 10) || (c =? 13) || (c =? 8232) || (c =? 8233).

Inductive term :=
| TChar (c : N)
| TDot
| TBol
| TEol.

Inductive compiled :=
| Compiled (ts : list term)
| SyntaxError
| Unmodelled.

(** [true] when the brackets of the pattern cannot be parsed: a
    backslash with nothing after it, a class left open, a group left
    open, or a [)] with no group to close.  A backslash always takes
    the next character with it, inside a class and outside. *)
Fixpoint unbalanced (in_class : bool) (depth : nat) (p : jsstring) : bool :=
  match p with
  | [] => in_class || (0 <? depth)%nat
  | c :: p' =>
      if c =? 92 then
        match p' with
        | [] => true
        | _ :: p'' => unbalanced in_class depth p''
        end
      else if in_class then unbalanced (negb (c =? 93)) depth p'
      else if c =? 91 then unbalanced true depth p'
      else if c =? 40 then unbalanced false (S depth) p'
      else if c =? 41 then
        match depth with
        | O => true
        | S d => unbalanced false d p'
        end
      else unbalanced false depth p'
  end.

Fixpoint parse_terms (p : jsstring) : option (list term) :=
  match p with
  | [] => Some []
  | c :: p' =>
      match parse_terms p' with
      | None => None
      | Some ts =>
          if c =? 94 then Some (TBol :: ts)
          else if c =? 36 then Some (TEol :: ts)
          else if c =? 46 then Some (TDot :: ts)
          else if is_syntax_char c then None
          else Some (TChar c :: ts)
      end
  end.

(** [new RegExp(p, 'i')] *)
Definition RegExp (p : jsstring) : compiled :=
  if unbalanced false 0 p then SyntaxError
  else match parse_terms p with
       | Some ts => Compiled ts
       | None => Unmodelled
       end.

(** The terms match a prefix of [s]; [at_start] tells whether [s] is the
    whole input. *)
Fixpoint match_here (ts : list term) (at_start : bool) (s : jsstring) : bool :=
  match ts with
  | [] => true
  | TBol :: ts' => at_start && match_here ts' at_start s
  | TEol :: ts' =>
      match s with
      | [] => match_here ts' at_start s
      | _ :: _ => false
      end
  | TChar c :: ts' =>
      match s with
      | d :: s' => (Canonicalize c =? Canonicalize d) && match_here ts' false s'
      | [] => false
      end
  | TDot :: ts' =>
      match s with
      | d :: s' => negb (is_line_terminator d) && match_here ts' false s'
      | [] => false
      end
  end.

Fixpoint search (ts : list term) (at_start : bool) (s : jsstring) : bool :=
  match_here ts at_start s ||
  match s with
  | [] => false
  | _ :: s' => search ts false s'
  end.

(** [re.test(s)] *)
Definition test (ts : list term) (s : jsstring) : bool := search ts true s.

(** Case-insensitive prefix and substring, unit by unit under
    [Canonicalize]: what the two patterns are meant to decide. *)
Fixpoint ci_startsWith (s t : jsstring) {struct t} : bool :=
  match t, s with
  | [], _ => true
  | y :: t', x :: s' => (Canonicalize y =? Canonicalize x) && ci_startsWith s' t'
  | _ :: _, [] => false
  end.

Fixpoint ci_includes (s t : jsstring) : bool :=
  ci_startsWith s t ||
  match s with
  | [] => false
  | _ :: s' => ci_includes s' t
  end.

End JS.

(* ================================================================= *)
(** ** Catalog filter: [products], [displayProducts], [filterProducts] *)

Module Catalog.
Import JS.

Record product := {
  name : jsstring;
  color : jsstring;
  size : jsstring;
  price : N;
  rating : Q
}.

(** [const products = [...]]; the ratings are the doubles of their
    literals. *)
Definition products : list product := [
  {| name := js "Mouse";       color := js "siyah";   size := js "M"; price := 399;   rating := nearest_double (46 # 10) |};
  {| name := js "Laptop";      color := js "gri";     size := js "L"; price := 15999; rating := nearest_double (48 # 10) |};
  {| name := js "Telefon";     color := js "mavi";    size := js "M"; price := 10999; rating := nearest_double (47 # 10) |};
  {| name := js "Kulaklık";    color := js "siyah";   size := js "S"; price := 799;   rating := nearest_double (43 # 10) |};
  {| name := js "Monitör";     color := js "beyaz";   size := js "L"; price := 2999;  rating := nearest_double (45 # 10) |};
  {| name := js "Klavye";      color := js "siyah";   size := js "M"; price := 599;   rating := nearest_double (42 # 10) |};
  {| name := js "Tablet";      color := js "gri";     size := js "M"; price := 4999;  rating := nearest_double (44 # 10) |};
  {| name := js "Kamera";      color := js "siyah";   size := js "S"; price := 3499;  rating := nearest_double (41 # 10) |};
  {| name := js "Hoparlör";    color := js "kırmızı"; size := js "S"; price := 699;   rating := nearest_double (40 # 10) |};
  {| name := js "Akıllı Saat"; color := js "siyah";   size := js "S"; price := 1999;  rating := nearest_double (46 # 10) |}
].

(** The part of the page the smart search touches.  Each control is
    [None] when [getElementById] finds no such element.  A text control
    holds its [value]; the rating control holds the number that
    [parseFloat] makes of its value, [None] for NaN (the value of the
    unset select is empty; its other values are ["4"] and ["3"]).
    [product_list] holds one child per displayed product.  [catalog] is
    the global [products] array as the page holds it. *)
Record page := {
  catalog : list product;
  product_search_input : option jsstring;
  color_filter : option jsstring;
  size_filter : option jsstring;
  rating_filter : option (option Q);
  product_list : option (list product)
}.

(** [displayProducts(filtered)] *)
Definition displayProducts (filtered : list product) (pg : page) : page :=
  match product_list pg with
  | None => pg
  | Some _ =>
      {| catalog := catalog pg;
         product_search_input := product_search_input pg;
         color_filter := color_filter pg;
         size_filter := size_filter pg;
         rating_filter := rating_filter pg;
         product_list := Some filtered |}
  end.

(** [parseFloat(v) || 0]: NaN and zero are falsy. *)
Definition or_zero (parsed : option Q) : Q :=
  match parsed with
  | Some q => if Qeq_bool q 0 then 0%Q else q
  | None => 0%Q
  end.

(** The arrow function handed to [products.filter]. *)
Definition keeps (input color0 size0 : jsstring) (rating0 : Q) (p : product) : bool :=
  includes (toLowerCase (name p)) input
  && (str_eqb color0 [] || str_eqb (color p) color0)
  && (str_eqb size0 [] || str_eqb (size p) size0)
  && Qle_bool rating0 (rating p).

(** [filterProducts()] *)
Definition filterProducts (pg : page) : page :=
  match product_search_input pg, color_filter pg, size_filter pg, rating_filter pg with
  | Some inputEl, Some colorEl, Some sizeEl, Some ratingEl =>
      let input := toLowerCase inputEl in
      let rating0 := or_zero ratingEl in
      let filtered := filter (keeps input colorEl sizeEl rating0) (catalog pg) in
      displayProducts filtered pg
  | _, _, _, _ => pg
  end.

(** The page once the script has loaded and [window.onload] has put the
    smart-search controls in place. *)
Definition loaded (input color0 size0 : jsstring) (rating0 : option Q) (shown : list product) : page :=
  {| catalog := products;
     product_search_input := Some input;
     color_filter := Some color0;
     size_filter := Some size0;
     rating_filter := Some rating0;
     product_list := Some shown |}.

(** The predicate set as the specification words it: an empty text or
    selection, and an unset rating, impose nothing.  The text is looked
    for in the name with both in lower case. *)
Definition name_matches (input : jsstring) (p : product) : Prop :=
  exists pre post, toLowerCase (name p) = pre ++ toLowerCase input ++ post.

(** The same without reference to [toLowerCase], for texts written in
    the alphabets of the catalogue: Basic Latin, Latin-1 and the Turkish
    letters (U+0130, whose lower case takes two code units, is not among
    them).  [capital_of u l]: [u] is the capital of the small letter
    [l].  Two code units are the same letter when they are equal or one
    is the capital of the other; a text is spelled in a name when some
    stretch of the name is the text, letter for letter. *)
Definition plain (c : N) : bool :=
  (c <? 256) || (c =? 286) || (c =? 287) || (c =? 305) || (c =? 350) || (c =? 351).

Definition capital_of (u l : N) : Prop :=
  (l = u + 32 /\ (65 <= u <= 90 \/ 192 <= u <= 214 \/ 216 <= u <= 222))
  \/ (u = 286 /\ l = 287)
  \/ (u = 350 /\ l = 351).

Definition same_letter (a b : N) : Prop :=
  a = b \/ capital_of a b \/ capital_of b a.

Definition spelled_in (input name0 : jsstring) : Prop :=
  exists pre stretch post,
    name0 = pre ++ stretch ++ post /\ Forall2 same_letter stretch input.

(** The small letter of a plain code unit. *)
Definition small (c : N) : N :=
  if ((65 <=? c) && (c <=? 90)) || ((192 <=? c) && (c <=? 214))
     || ((216 <=? c) && (c <=? 222))
  then c + 32
  else if c =? 286 then 287
  else if c =? 350 then 351
  else c.

(** The plain code units, listed. *)
Definition plain_units : list N :=
  map N.of_nat (seq 0 256) ++ [286; 287; 305; 350; 351].

(** What [toLowerCase] does with a plain code unit. *)
Definition plain_ok (c : N) : bool :=
  (simple_lowercase lowercase_rows c =? small c)
  && negb (is_lead c) && negb (c =? 931) && negb (c =? 304) && (small c <? 65536).

Definition color_matches (c : jsstring) (p : product) : Prop :=
  c = [] \/ color p = c.

Definition size_matches (s : jsstring) (p : product) : Prop :=
  s = [] \/ size p = s.

Definition rating_matches (r : option Q) (p : product) : Prop :=
  match r with
  | None => True
  | Some q => (q <= rating p)%Q
  end.

Definition satisfies (input c s : jsstring) (r : option Q) (p : product) : Prop :=
  name_matches input p /\ color_matches c p /\ size_matches s p /\ rating_matches r p.

(** [l1] is [l2] with some elements dropped, order kept. *)
Inductive sublist {A : Type} : list A -> list A -> Prop :=
| sub_nil : sublist [] []
| sub_keep x l1 l2 : sublist l1 l2 -> sublist (x :: l1) (x :: l2)
| sub_drop x l1 l2 : sublist l1 l2 -> sublist l1 (x :: l2).

End Catalog.

(* ================================================================= *)
(** ** Suggestion index: [autocompleteSuggestions], [getAutocompleteSuggestions] *)

Module Suggest.
Import JS.

Record suggestion := {
  text : jsstring;
  icon : jsstring;
  category : jsstring
}.

Definition sg (t i c : string) : suggestion :=
  {| text := js t; icon := js i; category := js c |}.

(** [const autocompleteSuggestions = {...}], in the order of the
    literal, which is the order [Object.keys] and [Object.values]
    enumerate (no key is an array index). *)
Definition autocompleteSuggestions : list (jsstring * list suggestion) := [
  (js "k", [ sg "Kulaklık" "fas fa-headphones" "Headphones";
             sg "Klavye" "fas fa-keyboard" "Keyboard";
             sg "Klima" "fas fa-snowflake" "Air Conditioner" ]);
  (js "ku", [ sg "Kulaklık" "fas fa-headphones" "Headphones" ]);
  (js "kul", [ sg "Kulaklık" "fas fa-headphones" "Headphones" ]);
  (js "kula", [ sg "Kulaklık" "fas fa-headphones" "Headphones" ]);
  (js "kulak", [ sg "Kulaklık" "fas fa-headphones" "Headphones" ]);
  (js "kulakl", [ sg "Kulaklık" "fas fa-headphones" "Headphones" ]);
  (js "kulakli", [ sg "Kulaklık" "fas fa-headphones" "Headphones" ]);
  (js "kulaklik", [ sg "Kulaklık" "fas fa-headphones" "Headphones" ]);
  (js "kulaklık", [ sg "Kulaklık" "fas fa-headphones" "Headphones" ]);
  (js "kl", [ sg "Klima" "fas fa-snowflake" "Air Conditioner";
              sg "Klavye" "fas fa-keyboard" "Keyboard" ]);
  (js "kli", [ sg "Klima" "fas fa-snowflake" "Air Conditioner" ]);
  (js "klim", [ sg "Klima" "fas fa-snowflake" "Air Conditioner" ]);
  (js "l", [ sg "Laptop" "fas fa-laptop" "Laptop" ]);
  (js "la", [ sg "Laptop" "fas fa-laptop" "Laptop" ]);
  (js "lap", [ sg "Laptop" "fas fa-laptop" "Laptop" ]);
  (js "lapt", [ sg "Laptop" "fas fa-laptop" "Laptop" ]);
  (js "lapto", [ sg "Laptop" "fas fa-laptop" "Laptop" ]);
  (js "laptop", [ sg "Laptop" "fas fa-laptop" "Laptop" ]);
  (js "m", [ sg "Mouse" "fas fa-mouse" "Mouse";
             sg "Mikrofon" "fas fa-microphone" "Microphone";
             sg "Monitör" "fas fa-desktop" "Monitor" ]);
  (js "mo", [ sg "Mouse" "fas fa-mouse" "Mouse";
              sg "Monitör" "fas fa-desktop" "Monitor" ]);
  (js "mi", [ sg "Mikrofon" "fas fa-microphone" "Microphone" ]);
  (js "mik", [ sg "Mikrofon" "fas fa-microphone" "Microphone" ]);
  (js "mikr", [ sg "Mikrofon" "fas fa-microphone" "Microphone" ]);
  (js "mikro", [ sg "Mikrofon" "fas fa-microphone" "Microphone" ]);
  (js "mikrof", [ sg "Mikrofon" "fas fa-microphone" "Microphone" ]);
  (js "mikrofo", [ sg "Mikrofon" "fas fa-microphone" "Microphone" ]);
  (js "mikrofon", [ sg "Mikrofon" "fas fa-microphone" "Microphone" ]);
  (js "mon", [ sg "Monitör" "fas fa-desktop" "Monitor" ]);
  (js "moni", [ sg "Monitör" "fas fa-desktop" "Monitor" ]);
  (js "monit", [ sg "Monitör" "fas fa-desktop" "Monitor" ]);
  (js "monito", [ sg "Monitör" "fas fa-desktop" "Monitor" ]);
  (js "monitor", [ sg "Monitör" "fas fa-desktop" "Monitor" ]);
  (js "monitör", [ sg "Monitör" "fas fa-desktop" "Monitor" ]);
  (js "mou", [ sg "Mouse" "fas fa-mouse" "Mouse" ]);
  (js "mous", [ sg "Mouse" "fas fa-mouse" "Mouse" ]);
  (js "mouse", [ sg "Mouse" "fas fa-mouse" "Mouse" ]);
  (js "t", [ sg "Telefon" "fas fa-mobile-alt" "Phone";
             sg "Tablet" "fas fa-tablet-alt" "Tablet";
             sg "TV" "fas fa-tv" "TV";
             sg "Televizyon" "fas fa-tv" "TV" ]);
  (js "te", [ sg "Telefon" "fas fa-mobile-alt" "Phone";
              sg "TV" "fas fa-tv" "TV";
              sg "Televizyon" "fas fa-tv" "TV" ]);
  (js "tel", [ sg "Telefon" "fas fa-mobile-alt" "Phone";
               sg "TV" "fas fa-tv" "TV";
               sg "Televizyon" "fas fa-tv" "TV" ]);
  (js "tele", [ sg "Telefon" "fas fa-mobile-alt" "Phone";
                sg "TV" "fas fa-tv" "TV";
                sg "Televizyon" "fas fa-tv" "TV" ]);
  (js "telef", [ sg "Telefon" "fas fa-mobile-alt" "Phone" ]);
  (js "telefo", [ sg "Telefon" "fas fa-mobile-alt" "Phone" ]);
  (js "telefon", [ sg "Telefon" "fas fa-mobile-alt" "Phone" ])
].

(** [Object.keys(o)], [Object.values(o)], [o[key]] *)
Definition keys (o : list (jsstring * list suggestion)) : list jsstring := map fst o.
Definition values (o : list (jsstring * list suggestion)) : list (list suggestion) := map snd o.

Fixpoint lookup (key : jsstring) (o : list (jsstring * list suggestion)) : list suggestion :=
  match o with
  | [] => []
  | (k, v) :: o' => if str_eqb k key then v else lookup key o'
  end.

(** [suggestions.some(s => s.text === suggestion.text)] *)
Definition collected (suggestion0 : suggestion) (suggestions : list suggestion) : bool :=
  existsb (fun s => str_eqb (text s) (text suggestion0)) suggestions.

(** [if (!suggestions.some(...)) suggestions.push(suggestion)] *)
Definition push_new (suggestions : list suggestion) (suggestion0 : suggestion) : list suggestion :=
  if collected suggestion0 suggestions then suggestions else suggestions ++ [suggestion0].

Inductive outcome (A : Type) :=
| Returns (a : A)
| Throws
| NotModelled.
Arguments Returns {A} a.
Arguments Throws {A}.
Arguments NotModelled {A}.

(** The two loops, given the compiled patterns. *)
Definition collect_by_key (keyRegex : list term) (suggestions : list suggestion) : list suggestion :=
  fold_left
    (fun acc key =>
       if test keyRegex key
       then fold_left push_new (lookup key autocompleteSuggestions) acc
       else acc)
    (keys autocompleteSuggestions) suggestions.

Definition collect_by_text (textRegex : list term) (suggestions : list suggestion) : list suggestion :=
  fold_left
    (fun acc categorySuggestions =>
       fold_left
         (fun acc' suggestion0 =>
            if test textRegex (text suggestion0) && negb (collected suggestion0 acc')
            then acc' ++ [suggestion0]
            else acc')
         categorySuggestions acc)
    (values autocompleteSuggestions) suggestions.

(** [getAutocompleteSuggestions(query)].  The character [^] is code
    unit 94. *)
Definition getAutocompleteSuggestions (query : jsstring) : outcome (list suggestion) :=
  if negb (truthy_str query) then Returns []
  else
    match RegExp (94 :: query) with
    | SyntaxError => Throws
    | Unmodelled => NotModelled
    | Compiled keyRegex =>
        let suggestions := collect_by_key keyRegex [] in
        match RegExp query with
        | SyntaxError => Throws
        | Unmodelled => NotModelled
        | Compiled textRegex =>
            let suggestions := collect_by_text textRegex suggestions in
            Returns (firstn 8 suggestions)
        end
    end.

(** The policy in the specification's words: prefix matches of the keys
    in table order, then substring matches on the display text, each
    display text kept once at its first occurrence, at most eight. *)
Definition prefix_matches (query : jsstring) : list suggestion :=
  flat_map (fun e => if ci_startsWith (fst e) query then snd e else [])
           autocompleteSuggestions.

Definition substring_matches (query : jsstring) : list suggestion :=
  filter (fun s => ci_includes (text s) query)
         (List.concat (values autocompleteSuggestions)).

Fixpoint first_by_text (l : list suggestion) : list suggestion :=
  match l with
  | [] => []
  | x :: l' =>
      x :: filter (fun y => negb (str_eqb (text x) (text y))) (first_by_text l')
  end.

Definition lookup_policy (query : jsstring) : list suggestion :=
  firstn 8 (first_by_text (prefix_matches query ++ substring_matches query)).

(** A query with no pattern syntax in it. *)
Definition is_literal (query : jsstring) : bool :=
  forallb (fun c => negb (is_syntax_char c)) query.

(** A suggestion of the table. *)
Definition from_table (s : suggestion) : Prop :=
  In s (List.concat (values autocompleteSuggestions)).

End Suggest.

(* ================================================================= *)
(** ** Interaction flow controller

    The handlers of the question/answer flow: [handleChatboxEntry],
    [startInteraction], [askAgent] with its timer and its two
    continuations, [handleOption], [renderQuestion],
    [renderRecommendations], [renderLanding], [resetToLanding],
    [goToHomePage], and the overlay and banner helpers they call.  Theme
    switching and the autocomplete dropdown do not touch the flow and
    have modules of their own, [Prefs] and [Search]; language switching
    and the product list loaded from [/products] are left out. *)

Module Flow.
Import JS.

(** *** Data *)

(** [element.style.display]; [DisplayDefault] is the empty string. *)
Inductive css_display :=
| DisplayNone
| DisplayDefault
| DisplayBlock
| DisplayFlex
| DisplayInlineFlex.

(** A recommendation item as the backend sends it; every field may be
    missing. *)
Inductive price_value :=
| PriceNumber (n : Q)
| PriceString (s : jsstring)
| PriceObject (display : option jsstring).

Record item := {
  title : option jsstring;
  name : option jsstring;
  price : option price_value;
  product_url : option jsstring;
  link : option jsstring;
  url : option jsstring;
  why_recommended : option jsstring;
  description : option jsstring;
  match_score : option Q;
  source_site : option jsstring;
  features : option (list jsstring)
}.

(** A JSON value as far as the handlers look into it: an array holds
    recommendation items, any other object is opaque. *)
Inductive jsval :=
| JUndefined
| JNull
| JBool (b : bool)
| JNumber (q : Q)
| JString (s : jsstring)
| JObject
| JArray (items : list item).

Definition truthy (v : jsval) : bool :=
  match v with
  | JUndefined | JNull => false
  | JBool b => b
  | JNumber q => negb (Qeq_bool q 0)
  | JString s => truthy_str s
  | JObject | JArray _ => true
  end.

(** Truthiness of a field that is a string when present, and of one
    that is an array when present (an empty array is truthy). *)
Definition truthy_string (o : option jsstring) : bool :=
  match o with
  | Some s => truthy_str s
  | None => false
  end.

Definition truthy_array {A : Type} (o : option (list A)) : bool :=
  match o with
  | Some _ => true
  | None => false
  end.

Definition string_of (o : option jsstring) : jsstring :=
  match o with Some s => s | None => [] end.

Definition array_of {A : Type} (o : option (list A)) : list A :=
  match o with Some l => l | None => [] end.

(** [a || b] where [a] is a string when present. *)
Definition or_string (a : option jsstring) (b : jsstring) : jsstring :=
  if truthy_string a then string_of a else b.

(** The body of a response of [/ask].  [question], [tooltip], [emoji],
    [type] and [message] are strings when present, [options] and
    [categories] arrays of strings; [recommendations],
    [fallback_recommendations] and [error] are only tested for
    truthiness here and are kept as they come. *)
Record ask_response := {
  question : option jsstring;
  options : option (list jsstring);
  emoji : option jsstring;
  tooltip : option jsstring;
  type : option jsstring;
  recommendations : jsval;
  categories : option (list jsstring);
  error : jsval;
  fallback_recommendations : jsval;
  message : option jsstring
}.

(** The body of a request to [/ask]. *)
Record ask_request := {
  req_step : nat;
  req_category : option jsstring;
  req_answers : list jsstring;
  req_language : jsstring
}.

(** What the recommendations panel holds. *)
Inductive shown_price :=
| ShownNumber (n : Q)
| ShownString (s : jsstring)
| ShownUndefined.

Record store_info := {
  store_class : jsstring;
  store_icon : jsstring
}.

Record card := {
  productTitle : jsstring;
  productPrice : shown_price;
  productUrl : jsstring;
  productDescription : jsstring;
  matchScore : Q;
  matchLabel : jsstring;
  sourceSite : jsstring;
  featureTags : list jsstring;
  storeInfo : store_info
}.

Inductive panel :=
| PanelEmpty
| PanelNoProducts
| PanelCards (titleText : jsstring) (cards : list card) (backButtonText : jsstring).

(** An option button: its text, [disabled], and whether it carries the
    highlight of the chosen answer.  (The opacity and cursor set
    together with [disabled], and the three colours of the highlight,
    are not tracked apart.) *)
Record button := {
  btn_text : jsstring;
  btn_disabled : bool;
  btn_chosen : bool
}.

Record category_card := {
  card_category : jsstring;
  card_icon : jsstring;
  card_label : jsstring
}.

(** Work left with the browser: callbacks handed to [setTimeout] and
    the continuations of [fetch]. *)
Inductive task :=
| AskAgent
| AskTimeout
| ProgressTo (percent : N)
| ShowInfoLater (m : jsstring)
| BannerFade (banner : nat)
| BannerRemove (banner : nat).

Record timer := {
  timer_id : nat;
  delay : N;
  job : task
}.

Inductive fetch :=
| FetchDetect (query : jsstring)
| FetchAsk (body : ask_request) (timeoutId : nat).

(** *** The page *)

(** The script's global variables (and the two it keeps on [window]).
    [currentSpecs] maps a category to the number of its question specs,
    [None] until [/categories] has answered. *)
Record vars := {
  currentLanguage : jsstring;
  currentCategory : jsstring;
  currentQuestionIndex : nat;
  totalQuestions : nat;
  step : nat;
  category : option jsstring;
  answers : list jsstring;
  isRequestInProgress : bool;
  currentSpecs : option (list (jsstring * nat));
  currentQuestionTooltip : option jsstring
}.

Definition set_currentLanguage (v : jsstring) (r : vars) : vars :=
  {| currentLanguage := v; currentCategory := currentCategory r;
     currentQuestionIndex := currentQuestionIndex r;
     totalQuestions := totalQuestions r; step := step r;
     category := category r; answers := answers r;
     isRequestInProgress := isRequestInProgress r;
     currentSpecs := currentSpecs r;
     currentQuestionTooltip := currentQuestionTooltip r |}.

Definition set_currentCategory (v : jsstring) (r : vars) : vars :=
  {| currentLanguage := currentLanguage r; currentCategory := v;
     currentQuestionIndex := currentQuestionIndex r;
     totalQuestions := totalQuestions r; step := step r;
     category := category r; answers := answers r;
     isRequestInProgress := isRequestInProgress r;
     currentSpecs := currentSpecs r;
     currentQuestionTooltip := currentQuestionTooltip r |}.

Definition set_currentQuestionIndex (v : nat) (r : vars) : vars :=
  {| currentLanguage := currentLanguage r;
     currentCategory := currentCategory r; currentQuestionIndex := v;
     totalQuestions := totalQuestions r; step := step r;
     category := category r; answers := answers r;
     isRequestInProgress := isRequestInProgress r;
     currentSpecs := currentSpecs r;
     currentQuestionTooltip := currentQuestionTooltip r |}.

Definition set_totalQuestions (v : nat) (r : vars) : vars :=
  {| currentLanguage := currentLanguage r;
     currentCategory := currentCategory r;
     currentQuestionIndex := currentQuestionIndex r; totalQuestions := v;
     step := step r; category := category r; answers := answers r;
     isRequestInProgress := isRequestInProgress r;
     currentSpecs := currentSpecs r;
     currentQuestionTooltip := currentQuestionTooltip r |}.

Definition set_step (v : nat) (r : vars) : vars :=
  {| currentLanguage := currentLanguage r;
     currentCategory := currentCategory r;
     currentQuestionIndex := currentQuestionIndex r;
     totalQuestions := totalQuestions r; step := v; category := category r;
     answers := answers r; isRequestInProgress := isRequestInProgress r;
     currentSpecs := currentSpecs r;
     currentQuestionTooltip := currentQuestionTooltip r |}.

Definition set_category (v : option jsstring) (r : vars) : vars :=
  {| currentLanguage := currentLanguage r;
     currentCategory := currentCategory r;
     currentQuestionIndex := currentQuestionIndex r;
     totalQuestions := totalQuestions r; step := step r; category := v;
     answers := answers r; isRequestInProgress := isRequestInProgress r;
     currentSpecs := currentSpecs r;
     currentQuestionTooltip := currentQuestionTooltip r |}.

Definition set_answers (v : list jsstring) (r : vars) : vars :=
  {| currentLanguage := currentLanguage r;
     currentCategory := currentCategory r;
     currentQuestionIndex := currentQuestionIndex r;
     totalQuestions := totalQuestions r; step := step r;
     category := category r; answers := v;
     isRequestInProgress := isRequestInProgress r;
     currentSpecs := currentSpecs r;
     currentQuestionTooltip := currentQuestionTooltip r |}.

Definition set_isRequestInProgress (v : bool) (r : vars) : vars :=
  {| currentLanguage := currentLanguage r;
     currentCategory := currentCategory r;
     currentQuestionIndex := currentQuestionIndex r;
     totalQuestions := totalQuestions r; step := step r;
     category := category r; answers := answers r; isRequestInProgress := v;
     currentSpecs := currentSpecs r;
     currentQuestionTooltip := currentQuestionTooltip r |}.

Definition set_currentSpecs (v : option (list (jsstring * nat))) (r : vars) : vars :=
  {| currentLanguage := currentLanguage r;
     currentCategory := currentCategory r;
     currentQuestionIndex := currentQuestionIndex r;
     totalQuestions := totalQuestions r; step := step r;
     category := category r; answers := answers r;
     isRequestInProgress := isRequestInProgress r; currentSpecs := v;
     currentQuestionTooltip := currentQuestionTooltip r |}.

Definition set_currentQuestionTooltip (v : option jsstring) (r : vars) : vars :=
  {| currentLanguage := currentLanguage r;
     currentCategory := currentCategory r;
     currentQuestionIndex := currentQuestionIndex r;
     totalQuestions := totalQuestions r; step := step r;
     category := category r; answers := answers r;
     isRequestInProgress := isRequestInProgress r;
     currentSpecs := currentSpecs r; currentQuestionTooltip := v |}.


(** The elements whose [style.display] the handlers switch:
    [.landing], [#interaction], [#ai-creation-screen] with the width of
    its progress bar in percent, [#error-screen], and [.loading] with its
    label.  The progress bar and [.loading] are looked up with a null
    check everywhere; [None] is the page without them. *)
Record screens := {
  landing : css_display;
  interaction : css_display;
  ai_creation_screen : css_display;
  ai_progress_bar : option N;
  error_screen : css_display;
  loading : option (css_display * jsstring)
}.

Definition set_landing (v : css_display) (r : screens) : screens :=
  {| landing := v; interaction := interaction r;
     ai_creation_screen := ai_creation_screen r;
     ai_progress_bar := ai_progress_bar r; error_screen := error_screen r;
     loading := loading r |}.

Definition set_interaction (v : css_display) (r : screens) : screens :=
  {| landing := landing r; interaction := v;
     ai_creation_screen := ai_creation_screen r;
     ai_progress_bar := ai_progress_bar r; error_screen := error_screen r;
     loading := loading r |}.

Definition set_ai_creation_screen (v : css_display) (r : screens) : screens :=
  {| landing := landing r; interaction := interaction r;
     ai_creation_screen := v; ai_progress_bar := ai_progress_bar r;
     error_screen := error_screen r; loading := loading r |}.

Definition set_ai_progress_bar (v : option N) (r : screens) : screens :=
  {| landing := landing r; interaction := interaction r;
     ai_creation_screen := ai_creation_screen r; ai_progress_bar := v;
     error_screen := error_screen r; loading := loading r |}.

Definition set_error_screen (v : css_display) (r : screens) : screens :=
  {| landing := landing r; interaction := interaction r;
     ai_creation_screen := ai_creation_screen r;
     ai_progress_bar := ai_progress_bar r; error_screen := v;
     loading := loading r |}.

Definition set_loading (v : option (css_display * jsstring)) (r : screens) : screens :=
  {| landing := landing r; interaction := interaction r;
     ai_creation_screen := ai_creation_screen r;
     ai_progress_bar := ai_progress_bar r; error_screen := error_screen r;
     loading := v |}.


(** The elements whose content the handlers write: [.recommendations],
    [.question], the buttons in [.options], the text of [.error], the
    progress counter, the class of the question icon, and the tooltip
    with the display of its wrapper.  The last three are optional in the
    source. *)
Record content := {
  recommendations_html : panel;
  question_html : jsstring;
  option_buttons : list button;
  error_text : jsstring;
  question_progress : option (nat * nat);
  question_icon : option jsstring;
  question_tooltip : option (jsstring * css_display)
}.

Definition set_recommendations_html (v : panel) (r : content) : content :=
  {| recommendations_html := v; question_html := question_html r;
     option_buttons := option_buttons r; error_text := error_text r;
     question_progress := question_progress r;
     question_icon := question_icon r; question_tooltip := question_tooltip r |}.

Definition set_question_html (v : jsstring) (r : content) : content :=
  {| recommendations_html := recommendations_html r; question_html := v;
     option_buttons := option_buttons r; error_text := error_text r;
     question_progress := question_progress r;
     question_icon := question_icon r; question_tooltip := question_tooltip r |}.

Definition set_option_buttons (v : list button) (r : content) : content :=
  {| recommendations_html := recommendations_html r;
     question_html := question_html r; option_buttons := v;
     error_text := error_text r; question_progress := question_progress r;
     question_icon := question_icon r; question_tooltip := question_tooltip r |}.

Definition set_error_text (v : jsstring) (r : content) : content :=
  {| recommendations_html := recommendations_html r;
     question_html := question_html r; option_buttons := option_buttons r;
     error_text := v; question_progress := question_progress r;
     question_icon := question_icon r; question_tooltip := question_tooltip r |}.

Definition set_question_progress (v : option (nat * nat)) (r : content) : content :=
  {| recommendations_html := recommendations_html r;
     question_html := question_html r; option_buttons := option_buttons r;
     error_text := error_text r; question_progress := v;
     question_icon := question_icon r; question_tooltip := question_tooltip r |}.

Definition set_question_icon (v : option jsstring) (r : content) : content :=
  {| recommendations_html := recommendations_html r;
     question_html := question_html r; option_buttons := option_buttons r;
     error_text := error_text r; question_progress := question_progress r;
     question_icon := v; question_tooltip := question_tooltip r |}.

Definition set_question_tooltip (v : option (jsstring * css_display)) (r : content) : content :=
  {| recommendations_html := recommendations_html r;
     question_html := question_html r; option_buttons := option_buttons r;
     error_text := error_text r; question_progress := question_progress r;
     question_icon := question_icon r; question_tooltip := v |}.


(** The search box and its button (label, [disabled]), the category
    grid, and the banners appended to the body, each with the number the
    embedding gives it. *)
Record chrome := {
  chatbox_input : jsstring;
  chatbox_send : jsstring * bool;
  category_cards : list category_card;
  info_messages : list (nat * jsstring);
  next_info : nat
}.

Definition set_chatbox_input (v : jsstring) (r : chrome) : chrome :=
  {| chatbox_input := v; chatbox_send := chatbox_send r;
     category_cards := category_cards r; info_messages := info_messages r;
     next_info := next_info r |}.

Definition set_chatbox_send (v : jsstring * bool) (r : chrome) : chrome :=
  {| chatbox_input := chatbox_input r; chatbox_send := v;
     category_cards := category_cards r; info_messages := info_messages r;
     next_info := next_info r |}.

Definition set_category_cards (v : list category_card) (r : chrome) : chrome :=
  {| chatbox_input := chatbox_input r; chatbox_send := chatbox_send r;
     category_cards := v; info_messages := info_messages r;
     next_info := next_info r |}.

Definition set_info_messages (v : list (nat * jsstring)) (r : chrome) : chrome :=
  {| chatbox_input := chatbox_input r; chatbox_send := chatbox_send r;
     category_cards := category_cards r; info_messages := v;
     next_info := next_info r |}.

Definition set_next_info (v : nat) (r : chrome) : chrome :=
  {| chatbox_input := chatbox_input r; chatbox_send := chatbox_send r;
     category_cards := category_cards r; info_messages := info_messages r;
     next_info := v |}.


(** What the browser holds for the page: timers not yet due and
    requests not yet settled, with the next free number of each. *)
Record loop := {
  timers : list timer;
  next_timer : nat;
  fetches : list (nat * fetch);
  next_fetch : nat
}.

Definition set_timers (v : list timer) (r : loop) : loop :=
  {| timers := v; next_timer := next_timer r; fetches := fetches r;
     next_fetch := next_fetch r |}.

Definition set_next_timer (v : nat) (r : loop) : loop :=
  {| timers := timers r; next_timer := v; fetches := fetches r;
     next_fetch := next_fetch r |}.

Definition set_fetches (v : list (nat * fetch)) (r : loop) : loop :=
  {| timers := timers r; next_timer := next_timer r; fetches := v;
     next_fetch := next_fetch r |}.

Definition set_next_fetch (v : nat) (r : loop) : loop :=
  {| timers := timers r; next_timer := next_timer r; fetches := fetches r;
     next_fetch := v |}.


(** The page.  Elements that some handler reaches without a null
    check are taken to be there. *)
Record page := {
  var : vars;
  scr : screens;
  doc : content;
  ui : chrome;
  env : loop
}.

Definition set_var (v : vars) (r : page) : page :=
  {| var := v; scr := scr r; doc := doc r; ui := ui r; env := env r |}.

Definition set_scr (v : screens) (r : page) : page :=
  {| var := var r; scr := v; doc := doc r; ui := ui r; env := env r |}.

Definition set_doc (v : content) (r : page) : page :=
  {| var := var r; scr := scr r; doc := v; ui := ui r; env := env r |}.

Definition set_ui (v : chrome) (r : page) : page :=
  {| var := var r; scr := scr r; doc := doc r; ui := v; env := env r |}.

Definition set_env (v : loop) (r : page) : page :=
  {| var := var r; scr := scr r; doc := doc r; ui := ui r; env := v |}.


Definition on_var (f : vars -> vars) (s : page) : page := set_var (f (var s)) s.
Definition on_scr (f : screens -> screens) (s : page) : page := set_scr (f (scr s)) s.
Definition on_doc (f : content -> content) (s : page) : page := set_doc (f (doc s)) s.
Definition on_ui (f : chrome -> chrome) (s : page) : page := set_ui (f (ui s)) s.
Definition on_env (f : loop -> loop) (s : page) : page := set_env (f (env s)) s.

(** *** Handlers as state transformers with a trace

    A handler takes the page to a result, the page it leaves, and the
    trace of what it did to the session variables and asked of the
    browser, in program order. *)
Inductive event :=
| Set_isRequestInProgress (b : bool)
| Set_step (n : nat)
| Incr_step
| Set_category (c : option jsstring)
| Set_answers_empty
| Push_answers (opt : jsstring)
| SetTimeout (id : nat) (ms : N) (t : task)
| ClearTimeout (id : nat)
| Fetch (id : nat) (f : fetch)
| Alert (msg : jsstring)
| ShowErrorScreen
| RenderQuestion (q : jsstring) (opts : list jsstring)
| RenderRecommendations (recs : jsval)
| RenderLanding (cats : list jsstring)
| ShowInfoMessage (msg : jsstring).

Definition M (A : Type) : Type := page -> A * page * list event.

Definition ret {A : Type} (a : A) : M A := fun s => (a, s, []).

Definition bind {A B : Type} (m : M A) (k : A -> M B) : M B :=
  fun s =>
    let '(a, s1, e1) := m s in
    let '(b, s2, e2) := k a s1 in
    (b, s2, e1 ++ e2).

Notation "x <- c1 ;; c2" := (bind c1 (fun x => c2))
  (at level 61, c1 at next level, right associativity).
Notation "c1 ;; c2" := (bind c1 (fun _ => c2))
  (at level 61, right associativity).

Definition gets {A : Type} (f : page -> A) : M A := fun s => (f s, s, []).
Definition modify (f : page -> page) : M unit := fun s => (tt, f s, []).
Definition emit (e : event) : M unit := fun s => (tt, s, [e]).
Definition when (b : bool) (m : M unit) : M unit := if b then m else ret tt.

(** The page a handler leaves, and its trace. *)
Definition final {A : Type} (r : A * page * list event) : page := snd (fst r).
Definition trace {A : Type} (r : A * page * list event) : list event := snd r.

(** [currentLanguage === 'tr' ? a : b] *)
Definition localized (a b : jsstring) : M jsstring :=
  lang <- gets (fun s => currentLanguage (var s)) ;;
  ret (if str_eqb lang (js "tr") then a else b).

(** *** Timers and requests *)

(** [setTimeout(job, ms)] *)
Definition setTimeout (ms : N) (t : task) : M nat :=
  id <- gets (fun s => next_timer (env s)) ;;
  modify (on_env (fun e =>
    set_next_timer (S id)
      (set_timers (timers e ++ [{| timer_id := id; delay := ms; job := t |}]) e))) ;;
  emit (SetTimeout id ms t) ;;
  ret id.

Definition without_timer (id : nat) (ts : list timer) : list timer :=
  filter (fun t => negb (timer_id t =? id)%nat) ts.

(** [clearTimeout(id)] *)
Definition clearTimeout (id : nat) : M unit :=
  modify (on_env (fun e => set_timers (without_timer id (timers e)) e)) ;;
  emit (ClearTimeout id).

(** [fetch(...)] with the continuation [f] *)
Definition fetch_ (f : fetch) : M unit :=
  id <- gets (fun s => next_fetch (env s)) ;;
  modify (on_env (fun e =>
    set_next_fetch (S id) (set_fetches (fetches e ++ [(id, f)]) e))) ;;
  emit (Fetch id f).

(** *** Screens *)

Definition set_loading_display (d : css_display) (r : screens) : screens :=
  match loading r with
  | Some (_, html) => set_loading (Some (d, html)) r
  | None => r
  end.

(** [showAICreationScreen()] *)
Definition showAICreationScreen : M unit :=
  modify (on_scr (set_ai_creation_screen DisplayFlex)) ;;
  _ <- setTimeout 1000 (ProgressTo 75) ;;
  _ <- setTimeout 2000 (ProgressTo 100) ;;
  ret tt.

Definition set_progress_width (percent : N) (r : screens) : screens :=
  match ai_progress_bar r with
  | Some _ => set_ai_progress_bar (Some percent) r
  | None => r
  end.

(** [hideAICreationScreen()] *)
Definition hideAICreationScreen : M unit :=
  modify (on_scr (set_ai_creation_screen DisplayNone)) ;;
  modify (on_scr (set_progress_width 45)).

(** [showErrorScreen()], [hideErrorScreen()], [hideLoadingScreen()] *)
Definition showErrorScreen : M unit :=
  modify (on_scr (set_error_screen DisplayFlex)) ;;
  emit ShowErrorScreen.

Definition hideErrorScreen : M unit :=
  modify (on_scr (set_error_screen DisplayNone)).

Definition hideLoadingScreen : M unit :=
  modify (on_scr (set_loading_display DisplayNone)).

(** [showInfoMessage(message)]: a banner appended to the body, faded
    out after five seconds. *)
Definition showInfoMessage (message0 : jsstring) : M unit :=
  id <- gets (fun s => next_info (ui s)) ;;
  modify (on_ui (fun c =>
    set_next_info (S id) (set_info_messages (info_messages c ++ [(id, message0)]) c))) ;;
  emit (ShowInfoMessage message0) ;;
  _ <- setTimeout 5000 (BannerFade id) ;;
  ret tt.

Definition attached (banner : nat) (c : chrome) : bool :=
  existsb (fun b => (fst b =? banner)%nat) (info_messages c).

(** The body shared by the five-second callback and the click listener
    of a banner. *)
Definition fadeInfoMessage (banner : nat) : M unit :=
  here <- gets (fun s => attached banner (ui s)) ;;
  if here then (_ <- setTimeout 300 (BannerRemove banner) ;; ret tt) else ret tt.

(** [document.body.removeChild(infoDiv)]; when the banner is gone
    already the call raises inside the timer callback and nothing
    changes. *)
Definition removeInfoMessage (banner : nat) : M unit :=
  modify (on_ui (fun c =>
    set_info_messages
      (filter (fun b => negb (fst b =? banner)%nat) (info_messages c)) c)).

(** *** Landing screen *)

Definition categoryIcons : list (jsstring * jsstring) := [
  (js "Drone", js "fas fa-plane");
  (js "Headphones", js "fas fa-headphones");
  (js "Keyboard", js "fas fa-keyboard");
  (js "Air Conditioner", js "fas fa-snowflake");
  (js "Phone", js "fas fa-mobile-alt");
  (js "Television", js "fas fa-tv");
  (js "Mouse", js "fas fa-mouse");
  (js "Laptop", js "fas fa-laptop");
  (js "Monitor", js "fas fa-desktop");
  (js "Tablet", js "fas fa-tablet-alt");
  (js "Camera", js "fas fa-camera");
  (js "Speaker", js "fas fa-volume-up");
  (js "Smartwatch", js "fas fa-stopwatch")
].

(** [categoryTranslations]: category to its [tr] and [en] names. *)
Definition categoryTranslations : list (jsstring * (jsstring * jsstring)) := [
  (js "Mouse", (js "Mouse", js "Mouse"));
  (js "Headphones", (js "Kulaklık", js "Headphones"));
  (js "Phone", (js "Telefon", js "Phone"));
  (js "Laptop", (js "Laptop", js "Laptop"));
  (js "Keyboard", (js "Klavye", js "Keyboard"));
  (js "Monitor", (js "Monitör", js "Monitor"));
  (js "Speaker", (js "Hoparlör", js "Speaker"));
  (js "Camera", (js "Kamera", js "Camera"));
  (js "Tablet", (js "Tablet", js "Tablet"));
  (js "Smartwatch", (js "Akıllı Saat", js "Smartwatch"));
  (js "Air Conditioner", (js "Klima", js "Air Conditioner"));
  (js "Drone", (js "Drone", js "Drone"));
  (js "Television", (js "Televizyon", js "Television"))
].

(** [o[key]] on an object literal with string keys ([None] for
    [undefined]; the properties every object inherits are not
    modelled). *)
Fixpoint prop {A : Type} (key : jsstring) (o : list (jsstring * A)) : option A :=
  match o with
  | [] => None
  | (k, v) :: o' => if str_eqb k key then Some v else prop key o'
  end.

(** [getCategoryName(categoryName)] *)
Definition getCategoryName (lang categoryName : jsstring) : jsstring :=
  match prop categoryName categoryTranslations with
  | Some (tr, en) =>
      if str_eqb lang (js "tr") then or_string (Some tr) categoryName
      else if str_eqb lang (js "en") then or_string (Some en) categoryName
      else categoryName
  | None => categoryName
  end.

(** [renderLanding(categories)].  Each card keeps its category for its
    click handler, [startInteraction(cat)].  (The listeners attached
    again to the search box are not tracked.) *)
Definition renderLanding (cats : list jsstring) : M unit :=
  lang <- gets (fun s => currentLanguage (var s)) ;;
  modify (on_ui (set_category_cards
    (map (fun cat =>
            {| card_category := cat;
               card_icon := or_string (prop cat categoryIcons) (js "fas fa-search");
               card_label := getCategoryName lang cat |})
         cats))) ;;
  emit (RenderLanding cats).

(** *** Question screen *)

Definition iconMap : list (jsstring * jsstring) := [
  (js "📍", js "fas fa-map-marker-alt");
  (js "💰", js "fas fa-dollar-sign");
  (js "🏢", js "fas fa-building");
  (js "⚡", js "fas fa-bolt");
  (js "🖥️", js "fas fa-desktop");
  (js "📱", js "fas fa-mobile-alt");
  (js "🎮", js "fas fa-gamepad");
  (js "🎵", js "fas fa-music");
  (js "💡", js "fas fa-lightbulb");
  (js "🔧", js "fas fa-wrench");
  (js "📐", js "fas fa-ruler-combined");
  (js "🌈", js "fas fa-palette");
  (js "⌨️", js "fas fa-keyboard");
  (js "🖱️", js "fas fa-mouse");
  (js "🔍", js "fas fa-search");
  (js "❓", js "fas fa-question-circle");
  (js "📊", js "fas fa-chart-bar");
  (js "🔥", js "fas fa-fire");
  (js "⭐", js "fas fa-star");
  (js "🎯", js "fas fa-bullseye")
].

(** [getCurrentCategory()] *)
Definition getCurrentCategory (v : vars) : jsstring :=
  if truthy_str (currentCategory v) then currentCategory v
  else or_string (category v) [].

(** [updateQuestionProgress()] *)
Definition updateQuestionProgress : M unit :=
  modify (fun s =>
    on_doc (fun d =>
      match question_progress d with
      | Some _ =>
          set_question_progress
            (Some (currentQuestionIndex (var s), totalQuestions (var s))) d
      | None => d
      end) s).

(** [updateQuestionIcon(emoji)] *)
Definition updateQuestionIcon (emoji0 : jsstring) : M unit :=
  modify (fun s =>
    on_doc (fun d =>
      match question_icon d with
      | Some _ =>
          if truthy_str emoji0
          then set_question_icon
                 (Some (or_string (prop emoji0 iconMap) (js "fas fa-question-circle"))) d
          else set_question_icon
                 (Some (or_string (prop (getCurrentCategory (var s)) categoryIcons)
                                  (js "fas fa-search"))) d
      | None => d
      end) s).

(** [updateQuestionTooltip()]: the tooltip text and the display of its
    wrapper.  (The hover and tap listeners are not tracked.) *)
Definition updateQuestionTooltip : M unit :=
  modify (fun s =>
    on_doc (fun d =>
      match question_tooltip d with
      | Some (text0, _) =>
          match currentQuestionTooltip (var s) with
          | Some t =>
              if truthy_str t && negb (str_eqb (trim t) [])
              then set_question_tooltip (Some (t, DisplayInlineFlex)) d
              else set_question_tooltip (Some (text0, DisplayNone)) d
          | None => set_question_tooltip (Some (text0, DisplayNone)) d
          end
      | None => d
      end) s).

(** [renderQuestion(question, options, emoji)], on a page that has the
    [.question] and [.options] elements. *)
Definition renderQuestion (question0 : jsstring) (options0 : list jsstring)
    (emoji0 : jsstring) : M unit :=
  modify (fun s => on_var (set_currentQuestionIndex (step (var s))) s) ;;
  updateQuestionProgress ;;
  updateQuestionIcon emoji0 ;;
  updateQuestionTooltip ;;
  modify (on_doc (set_question_html question0)) ;;
  modify (on_doc (set_option_buttons
    (map (fun opt => {| btn_text := opt; btn_disabled := false; btn_chosen := false |})
         options0))) ;;
  modify (on_scr (set_loading_display DisplayNone)) ;;
  modify (on_scr (set_interaction DisplayBlock)) ;;
  emit (RenderQuestion question0 options0).

(** *** Recommendations *)

(** [getStoreInfo(storeName)] *)
Definition getStoreInfo (storeName : jsstring) : store_info :=
  let lowerCaseName := toLowerCase storeName in
  if includes lowerCaseName (js "hepsiburada")
  then {| store_class := js "hepsiburada"; store_icon := js "fas fa-shopping-cart" |}
  else if includes lowerCaseName (js "trendyol")
  then {| store_class := js "trendyol"; store_icon := js "fas fa-store" |}
  else if includes lowerCaseName (js "amazon")
  then {| store_class := js "amazon"; store_icon := js "fab fa-amazon" |}
  else if includes lowerCaseName (js "teknosa")
  then {| store_class := js "teknosa"; store_icon := js "fas fa-plug" |}
  else if includes lowerCaseName (js "vatan")
  then {| store_class := js "vatan"; store_icon := js "fas fa-desktop" |}
  else if includes lowerCaseName (js "n11")
  then {| store_class := js "n11"; store_icon := js "fas fa-tag" |}
  else if includes lowerCaseName (js "media markt")
  then {| store_class := js "mediamarkt"; store_icon := js "fas fa-tv" |}
  else {| store_class := js "default-store"; store_icon := js "fas fa-external-link-alt" |}.

(** The values one item contributes to its card. *)
Definition card_of (lang : jsstring) (r : item) : card :=
  let sourceSite0 := or_string (source_site r) (js "Bilinmeyen Mağaza") in
  {| productTitle := or_string (title r) (or_string (name r) (js "Ürün"));
     productPrice :=
       match price r with
       | Some (PriceNumber n) =>
           if Qeq_bool n 0 then ShownString (js "Fiyat bilgisi yok") else ShownNumber n
       | Some (PriceString p) =>
           if truthy_str p then ShownString p else ShownString (js "Fiyat bilgisi yok")
       | Some (PriceObject (Some d)) => ShownString d
       | Some (PriceObject None) => ShownUndefined
       | None => ShownString (js "Fiyat bilgisi yok")
       end;
     productUrl :=
       or_string (product_url r) (or_string (link r) (or_string (url r) (js "#")));
     productDescription := or_string (why_recommended r) (or_string (description r) []);
     matchScore :=
       match match_score r with
       | Some q => if Qeq_bool q 0 then 0%Q else q
       | None => 0%Q
       end;
     matchLabel := if str_eqb lang (js "tr") then js "uygun" else js "match";
     sourceSite := sourceSite0;
     featureTags := array_of (features r);
     storeInfo := getStoreInfo sourceSite0 |}.

(** [!recs || !Array.isArray(recs) || recs.length === 0] *)
Definition nothing_to_render (recs : jsval) : bool :=
  negb (truthy recs)
  || match recs with JArray _ => false | _ => true end
  || match recs with JArray [] => true | _ => false end.

Definition items_of (recs : jsval) : list item :=
  match recs with JArray l => l | _ => [] end.

(** [renderRecommendations(recs)]; the back button of the rendered
    panel calls [resetToLanding]. *)
Definition renderRecommendations (recs : jsval) : M unit :=
  emit (RenderRecommendations recs) ;;
  hideAICreationScreen ;;
  modify (on_scr (set_loading_display DisplayNone)) ;;
  titleText <- localized (js "Önerilen Ürünler") (js "Recommended Products") ;;
  if nothing_to_render recs then
    modify (on_doc (set_recommendations_html PanelNoProducts))
  else
    lang <- gets (fun s => currentLanguage (var s)) ;;
    backButtonText <- localized (js "Yeni Arama Yap") (js "New Search") ;;
    modify (on_doc (set_recommendations_html
      (PanelCards titleText (map (card_of lang) (items_of recs)) backButtonText))) ;;
    modify (on_doc (set_error_text [])).

(** *** Session variables *)

Definition assign_isRequestInProgress (b : bool) : M unit :=
  modify (on_var (set_isRequestInProgress b)) ;;
  emit (Set_isRequestInProgress b).

Definition assign_category (c : option jsstring) : M unit :=
  modify (on_var (set_category c)) ;;
  emit (Set_category c).

Definition assign_step (n : nat) : M unit :=
  modify (on_var (set_step n)) ;;
  emit (Set_step n).

Definition assign_answers_empty : M unit :=
  modify (on_var (set_answers [])) ;;
  emit Set_answers_empty.

(** [answers.push(opt)] and [step++] *)
Definition push_answers (opt : jsstring) : M unit :=
  modify (on_var (fun v => set_answers (answers v ++ [opt]) v)) ;;
  emit (Push_answers opt).

Definition incr_step : M unit :=
  modify (on_var (fun v => set_step (S (step v)) v)) ;;
  emit Incr_step.

(** *** [askAgent] *)

(** [window.currentSpecs && window.currentSpecs[category] ? ... : []],
    of which only the length is used.  A [null] category indexes the
    object with the key ["null"]. *)
Definition specs_length (v : vars) : nat :=
  match currentSpecs v with
  | Some specs =>
      match prop (match category v with Some c => c | None => js "null" end) specs with
      | Some n => n
      | None => 0
      end
  | None => 0
  end.

Definition request_body (v : vars) : ask_request :=
  {| req_step := step v;
     req_category := category v;
     req_answers := answers v;
     req_language := currentLanguage v |}.

(** [askAgent()], up to the point where the request is left with the
    browser.  The loading element shows the localized label (the spinner
    markup before it is left out). *)
Definition askAgent : M unit :=
  modify (on_doc (set_error_text [])) ;;
  loadingText <- localized (js "Yükleniyor...") (js "Loading...") ;;
  modify (on_scr (fun r =>
    match loading r with
    | Some _ => set_loading (Some (DisplayBlock, loadingText)) r
    | None => r
    end)) ;;
  over <- gets (fun s => (specs_length (var s) <? step (var s))%nat) ;;
  when over showAICreationScreen ;;
  timeoutId <- setTimeout 45000 AskTimeout ;;
  body <- gets (fun s => request_body (var s)) ;;
  fetch_ (FetchAsk body timeoutId).

(** The callback of the 45 s timer. *)
Definition askAgent_timeout : M unit :=
  inProgress <- gets (fun s => isRequestInProgress (var s)) ;;
  if inProgress then
    assign_isRequestInProgress false ;;
    hideAICreationScreen ;;
    hideLoadingScreen ;;
    showErrorScreen
  else ret tt.

Definition type_is (data : ask_response) (tag : jsstring) : bool :=
  match type data with
  | Some t => str_eqb t tag
  | None => false
  end.

Definition modernMessage_tr : jsstring :=
  js "✅ Online arama sistemi aktif - Güncel piyasa verilerimizle ürün önerilerinizi sunuyoruz.".
Definition modernMessage_en : jsstring :=
  js "✅ Online search system active - Showing product recommendations with current market data.".
Definition fallbackMessage_tr : jsstring :=
  js "⚠️ Online arama servisi şu anda kullanılamıyor. Size önceden hazırlanmış kaliteli ürün önerilerimizi sunuyoruz.".
Definition fallbackMessage_en : jsstring :=
  js "⚠️ Online search service is currently unavailable. We are showing you our pre-prepared quality product recommendations.".
Definition errorMsg_tr : jsstring :=
  js "Arama sisteminde bir sorun oluştu, yedek öneriler gösteriliyor.".
Definition errorMsg_en : jsstring :=
  js "Search system error occurred, showing fallback recommendations.".

(** [.then(data => {...})] of the [/ask] request whose timer is
    [timeoutId].  (The [console.log] lines are left out.) *)
Definition askAgent_then (timeoutId : nat) (data : ask_response) : M unit :=
  clearTimeout timeoutId ;;
  assign_isRequestInProgress false ;;
  if truthy_string (question data) && truthy_array (options data) then
    hideAICreationScreen ;;
    modify (on_var (set_currentQuestionTooltip
      (if truthy_string (tooltip data) then tooltip data else None))) ;;
    renderQuestion (string_of (question data)) (array_of (options data))
                   (or_string (emoji data) (js "🔍"))
  else if type_is data (js "modern_recommendation") && truthy (recommendations data) then
    hideAICreationScreen ;;
    renderRecommendations (recommendations data) ;;
    modernMessage <- localized modernMessage_tr modernMessage_en ;;
    showInfoMessage modernMessage
  else if type_is data (js "fallback_recommendation") && truthy (recommendations data) then
    hideAICreationScreen ;;
    renderRecommendations (recommendations data) ;;
    fallbackMessage <- localized fallbackMessage_tr fallbackMessage_en ;;
    showInfoMessage fallbackMessage ;;
    if truthy_string (message data)
       && negb (str_eqb (string_of (message data)) fallbackMessage)
    then (_ <- setTimeout 2000 (ShowInfoLater (string_of (message data))) ;; ret tt)
    else ret tt
  else if truthy (recommendations data) then
    renderRecommendations (recommendations data)
  else if truthy_array (categories data) then
    renderLanding (array_of (categories data))
  else if truthy (error data) then
    hideAICreationScreen ;;
    hideLoadingScreen ;;
    showErrorScreen
  else if type_is data (js "error") && truthy (fallback_recommendations data) then
    hideAICreationScreen ;;
    renderRecommendations (fallback_recommendations data) ;;
    errorMsg <- localized errorMsg_tr errorMsg_en ;;
    showInfoMessage errorMsg
  else
    hideAICreationScreen ;;
    hideLoadingScreen ;;
    showErrorScreen.

(** [.catch(err => {...})] of the same request: network failure, a
    status that is not ok, or a body that is not JSON. *)
Definition askAgent_catch (timeoutId : nat) : M unit :=
  clearTimeout timeoutId ;;
  assign_isRequestInProgress false ;;
  hideAICreationScreen ;;
  hideLoadingScreen ;;
  showErrorScreen.

(** *** Starting a flow *)

(** [startInteraction(selectedCategory)] *)
Definition startInteraction (selectedCategory : jsstring) : M unit :=
  assign_category (Some selectedCategory) ;;
  modify (on_var (set_currentCategory selectedCategory)) ;;
  assign_step 1 ;;
  assign_answers_empty ;;
  modify (on_var (set_currentQuestionIndex 1)) ;;
  modify (on_var (fun v =>
    match currentSpecs v with
    | Some specs =>
        match prop selectedCategory specs with
        | Some n => set_totalQuestions n v
        | None => set_totalQuestions 5 v
        end
    | None => set_totalQuestions 5 v
    end)) ;;
  modify (on_scr (set_landing DisplayNone)) ;;
  modify (on_scr (set_interaction DisplayDefault)) ;;
  askAgent.

(** [handleChatboxEntry()] up to the request to [/detect_category]. *)
Definition handleChatboxEntry : M unit :=
  input <- gets (fun s => trim (chatbox_input (ui s))) ;;
  if negb (truthy_str input) then
    alertMsg <- localized (js "Lütfen bir ürün yazın") (js "Please enter a product") ;;
    emit (Alert alertMsg)
  else
    showAICreationScreen ;;
    fetch_ (FetchDetect input).

(** [.then(data => {...})] of that request; [data_category] is
    [data.category], a string when present. *)
Definition handleChatboxEntry_then (data_category : option jsstring) : M unit :=
  hideAICreationScreen ;;
  if truthy_string data_category then
    assign_category data_category ;;
    modify (on_var (set_currentCategory (string_of data_category))) ;;
    assign_step 1 ;;
    assign_answers_empty ;;
    modify (on_scr (set_landing DisplayNone)) ;;
    modify (on_scr (set_interaction DisplayDefault)) ;;
    askAgent
  else showErrorScreen.

Definition handleChatboxEntry_catch : M unit :=
  hideAICreationScreen ;;
  showErrorScreen.

(** *** Reset *)

(** [resetToLanding()] *)
Definition resetToLanding : M unit :=
  modify (on_scr (set_interaction DisplayNone)) ;;
  modify (on_scr (set_landing DisplayDefault)) ;;
  hideAICreationScreen ;;
  hideErrorScreen ;;
  modify (on_doc (set_recommendations_html PanelEmpty)) ;;
  modify (on_doc (set_question_html [])) ;;
  modify (on_doc (set_option_buttons [])) ;;
  modify (on_doc (set_error_text [])) ;;
  assign_step 0 ;;
  assign_category None ;;
  assign_answers_empty ;;
  modify (on_var (set_currentQuestionIndex 0)) ;;
  modify (on_ui (set_chatbox_input [])).

(** [goToHomePage()].  The search button shows the localized label (the
    icon markup before it is left out). *)
Definition goToHomePage : M unit :=
  hideErrorScreen ;;
  hideAICreationScreen ;;
  hideLoadingScreen ;;
  modify (on_scr (set_interaction DisplayNone)) ;;
  modify (on_scr (set_landing DisplayBlock)) ;;
  assign_step 0 ;;
  assign_category None ;;
  assign_answers_empty ;;
  modify (on_ui (set_chatbox_input [])) ;;
  originalText <- localized (js "AI ile Bul") (js "Find with AI") ;;
  modify (on_ui (set_chatbox_send (originalText, false))).

(** *** Answering *)

Definition disable (b : button) : button :=
  {| btn_text := btn_text b; btn_disabled := true; btn_chosen := btn_chosen b |}.

(** [Array.from(optionButtons).find(btn => btn.textContent === opt)],
    highlighted when found. *)
Fixpoint mark_chosen (opt : jsstring) (bs : list button) : list button :=
  match bs with
  | [] => []
  | b :: bs' =>
      if str_eqb (btn_text b) opt
      then {| btn_text := btn_text b; btn_disabled := btn_disabled b; btn_chosen := true |} :: bs'
      else b :: mark_chosen opt bs'
  end.

(** [handleOption(opt)].  With the page elements in place nothing in the
    [try] block raises, so the [catch] block is not reached. *)
Definition handleOption (opt : jsstring) : M unit :=
  inProgress <- gets (fun s => isRequestInProgress (var s)) ;;
  if inProgress then ret tt
  else
    assign_isRequestInProgress true ;;
    modify (on_doc (fun d => set_option_buttons (map disable (option_buttons d)) d)) ;;
    modify (on_doc (fun d => set_option_buttons (mark_chosen opt (option_buttons d)) d)) ;;
    push_answers opt ;;
    incr_step ;;
    modify (fun s => on_var (set_currentQuestionIndex (step (var s))) s) ;;
    modify (on_doc (set_error_text [])) ;;
    _ <- setTimeout 300 AskAgent ;;
    ret tt.

(** *** The browser's side: timers firing, requests settling, clicks *)

Definition run_task (t : task) : M unit :=
  match t with
  | AskAgent => askAgent
  | AskTimeout => askAgent_timeout
  | ProgressTo percent => modify (on_scr (set_progress_width percent))
  | ShowInfoLater m => showInfoMessage m
  | BannerFade banner => fadeInfoMessage banner
  | BannerRemove banner => removeInfoMessage banner
  end.

(** The timer [id] comes due: nothing happens when it was cleared or
    has fired before. *)
Definition timer_fires (id : nat) : M unit :=
  ts <- gets (fun s => timers (env s)) ;;
  match find (fun t => (timer_id t =? id)%nat) ts with
  | Some t =>
      modify (on_env (set_timers (without_timer id ts))) ;;
      run_task (job t)
  | None => ret tt
  end.

Fixpoint fetch_of (id : nat) (fs : list (nat * fetch)) : option fetch :=
  match fs with
  | [] => None
  | (i, f) :: fs' => if (i =? id)%nat then Some f else fetch_of id fs'
  end.

Definition settle (id : nat) : M unit :=
  modify (on_env (fun e =>
    set_fetches (filter (fun p => negb (fst p =? id)%nat) (fetches e)) e)).

(** The [/ask] request [id] settles, with a body or with a failure. *)
Definition ask_settles (id : nat) (r : option ask_response) : M unit :=
  fs <- gets (fun s => fetches (env s)) ;;
  match fetch_of id fs with
  | Some (FetchAsk _ timeoutId) =>
      settle id ;;
      match r with
      | Some data => askAgent_then timeoutId data
      | None => askAgent_catch timeoutId
      end
  | _ => ret tt
  end.

(** The [/detect_category] request [id] settles. *)
Definition detect_settles (id : nat) (r : option (option jsstring)) : M unit :=
  fs <- gets (fun s => fetches (env s)) ;;
  match fetch_of id fs with
  | Some (FetchDetect _) =>
      settle id ;;
      match r with
      | Some data_category => handleChatboxEntry_then data_category
      | None => handleChatboxEntry_catch
      end
  | _ => ret tt
  end.

Definition shown (d : css_display) : bool :=
  match d with DisplayNone => false | _ => true end.

(** What can happen to the page.  A click reaches its handler only when
    the element is there to be clicked: an option button that is in a
    visible [#interaction] and not disabled, a category card on a
    visible landing screen, the back button of a rendered panel. *)
Inductive input :=
| ClickCategory (cat : jsstring)
| ClickSend
| ClickOption (opt : jsstring)
| ClickBack
| ClickHome
| ClickInfo (banner : nat)
| TimerFires (id : nat)
| AskSettles (id : nat) (r : option ask_response)
| DetectSettles (id : nat) (r : option (option jsstring)).

Definition react (i : input) : M unit :=
  match i with
  | ClickCategory cat =>
      here <- gets (fun s =>
        shown (landing (scr s))
        && existsb (fun c => str_eqb (card_category c) cat) (category_cards (ui s))) ;;
      when here (startInteraction cat)
  | ClickSend => handleChatboxEntry
  | ClickOption opt =>
      here <- gets (fun s =>
        shown (interaction (scr s))
        && existsb (fun b => str_eqb (btn_text b) opt && negb (btn_disabled b))
                   (option_buttons (doc s))) ;;
      when here (handleOption opt)
  | ClickBack =>
      here <- gets (fun s =>
        match recommendations_html (doc s) with PanelCards _ _ _ => true | _ => false end) ;;
      when here resetToLanding
  | ClickHome => goToHomePage
  | ClickInfo banner => fadeInfoMessage banner
  | TimerFires id => timer_fires id
  | AskSettles id r => ask_settles id r
  | DetectSettles id r => detect_settles id r
  end.

Fixpoint run (inputs : list input) : M unit :=
  match inputs with
  | [] => ret tt
  | i :: inputs' => react i ;; run inputs'
  end.

(** The page as the script finds it once loaded: the globals as the
    script initialises them and [window.onload] has filled
    [currentSpecs] and the category grid from [/categories] (given
    here as [specs]); overlays hidden, panels empty.  The markup itself
    is main.html; it is used below only to have a concrete page at
    hand. *)
Definition loaded_page (specs : list (jsstring * nat)) : page :=
  {| var := {| currentLanguage := js "tr";
               currentCategory := [];
               currentQuestionIndex := 0;
               totalQuestions := 7;
               step := 0;
               category := None;
               answers := [];
               isRequestInProgress := false;
               currentSpecs := Some specs;
               currentQuestionTooltip := None |};
     scr := {| landing := DisplayDefault;
               interaction := DisplayNone;
               ai_creation_screen := DisplayNone;
               ai_progress_bar := Some 45%N;
               error_screen := DisplayNone;
               loading := Some (DisplayNone, []) |};
     doc := {| recommendations_html := PanelEmpty;
               question_html := [];
               option_buttons := [];
               error_text := [];
               question_progress := Some (0%nat, 7%nat);
               question_icon := Some (js "fas fa-search");
               question_tooltip := Some ([], DisplayNone) |};
     ui := {| chatbox_input := [];
              chatbox_send := (js "AI ile Bul", false);
              category_cards :=
                map (fun e =>
                       {| card_category := fst e;
                          card_icon := or_string (prop (fst e) categoryIcons) (js "fas fa-search");
                          card_label := getCategoryName (js "tr") (fst e) |})
                    specs;
              info_messages := [];
              next_info := 0 |};
     env := {| timers := []; next_timer := 0; fetches := []; next_fetch := 0 |} |}.

(** *** The response shapes in the specification's words

    A field counts as carried when its value is truthy, which is what
    the handler tests: an empty question and a [null] field are not
    carried, an empty list is. *)
Inductive shape :=
| QuestionShape
| ModernShape
| FallbackShape
| LegacyShape
| CategoriesShape
| ErrorFlagShape
| ErrorWithFallbackShape
| UnexpectedShape.

Definition has_shape (data : ask_response) (b : shape) : bool :=
  match b with
  | QuestionShape => truthy_string (question data) && truthy_array (options data)
  | ModernShape => type_is data (js "modern_recommendation") && truthy (recommendations data)
  | FallbackShape => type_is data (js "fallback_recommendation") && truthy (recommendations data)
  | LegacyShape => truthy (recommendations data)
  | CategoriesShape => truthy_array (categories data)
  | ErrorFlagShape => truthy (error data)
  | ErrorWithFallbackShape => type_is data (js "error") && truthy (fallback_recommendations data)
  | UnexpectedShape => true
  end.

Definition priority : list shape :=
  [QuestionShape; ModernShape; FallbackShape; LegacyShape; CategoriesShape;
   ErrorFlagShape; ErrorWithFallbackShape; UnexpectedShape].

(** First match wins. *)
Definition first_match (data : ask_response) : shape :=
  match find (has_shape data) priority with
  | Some b => b
  | None => UnexpectedShape
  end.

(** What the user gets to see of a branch: renderings, banners and the
    error screen, in order. *)
Definition seen (e : event) : bool :=
  match e with
  | ShowErrorScreen | RenderQuestion _ _ | RenderRecommendations _
  | RenderLanding _ | ShowInfoMessage _ => true
  | _ => false
  end.


(** *** What each shape leaves on the page *)













(** *** Requests under way

    An [/ask] request is under way when it is in flight or when the
    300 ms timer that will send it is pending. *)
Definition is_ask (p : nat * fetch) : bool :=
  match snd p with
  | FetchAsk _ _ => true
  | FetchDetect _ => false
  end.

Definition is_scheduled (t : timer) : bool :=
  match job t with
  | AskAgent => true
  | _ => false
  end.

Definition scheduled (s : page) : nat :=
  List.length (filter is_scheduled (timers (env s))).

Definition in_flight (s : page) : nat :=
  List.length (filter is_ask (fetches (env s))).

Definition all_disabled (s : page) : bool :=
  forallb btn_disabled (option_buttons (doc s)).

(** The inputs of a flow that is being answered: everything but the
    two ways of starting a new flow. *)
Definition answering (i : input) : bool :=
  match i with
  | ClickCategory _ | ClickSend => false
  | _ => true
  end.

(** At most one request under way; while there is one, no option
    button can be clicked; no category detection is under way. *)
Definition single_flight (s : page) : Prop :=
  (in_flight s + scheduled s <= 1)%nat
  /\ ((in_flight s + scheduled s = 1)%nat -> all_disabled s = true)
  /\ forallb is_ask (fetches (env s)) = true.

(** A handler is calm when it sends nothing and schedules no
    [askAgent]; it is still when it leaves the option buttons alone. *)
Definition calm (s s' : page) : Prop :=
  fetches (env s') = fetches (env s)
  /\ (scheduled s' <= scheduled s)%nat.

Definition Calm {A : Type} (m : M A) : Prop :=
  forall s, calm s (final (m s)).

Definition Still {A : Type} (m : M A) : Prop :=
  forall s, option_buttons (doc (final (m s))) = option_buttons (doc s).

(** The session-state invariant. *)
Definition session_ok (v : vars) : Prop :=
  (0 < step v)%nat -> category v <> None /\ List.length (answers v) = (step v - 1)%nat.

End Flow.

(* ================================================================= *)
(** ** Sample pages and payloads *)

Module Sample.
Import JS Flow.

Definition headphones : jsstring := js "Headphones".

(** A page whose [/categories] listed one category with three specs. *)
Definition start : page := loaded_page [(headphones, 3%nat)].

Definition nothing : ask_response :=
  {| question := None; options := None; emoji := None; tooltip := None;
     type := None; recommendations := JUndefined; categories := None;
     error := JUndefined; fallback_recommendations := JUndefined;
     message := None |}.

Definition asks (q : jsstring) (opts : list jsstring) : ask_response :=
  {| question := Some q; options := Some opts; emoji := None; tooltip := None;
     type := None; recommendations := JUndefined; categories := None;
     error := JUndefined; fallback_recommendations := JUndefined;
     message := None |}.

Definition first_question : ask_response :=
  asks (js "Kullanım amacı?") [js "Müzik"; js "Oyun"].


(** A category card is clicked and the first question arrives. *)
Definition question_shown : page :=
  final (run [ClickCategory headphones; AskSettles 0 (Some first_question)] start).

(** An answer is clicked: the guard is set, the 300 ms timer (number 1)
    is pending. *)
Definition answered : page :=
  final (react (ClickOption (js "Müzik")) question_shown).



(** The user goes home while the first request is still in flight, and
    its response arrives afterwards. *)
Definition question_after_home : page :=
  final (run [ClickCategory headphones; ClickHome; AskSettles 0 (Some first_question)] start).

(** A page with a query typed into the search box. *)
Definition typed : page :=
  on_ui (set_chatbox_input (js "kulaklık")) start.

(** The first request of a flow is in flight, watched by timer 0. *)
Definition first_request_sent : page :=
  final (react (ClickCategory headphones) start).

(** The same after a detected category: the request is watched by
    timer 2 (timers 0 and 1 drive the progress bar). *)
Definition detected : page :=
  final (run [ClickSend; DetectSettles 0 (Some (Some headphones))] typed).

End Sample.

(* ================================================================= *)
(** ** Product titles: [extractBrand], [extractModel] *)

Module Titles.
Import JS.

(** [const brandKeywords = [...]] *)
Definition brandKeywords : list jsstring := [
  js "sony"; js "bose"; js "apple"; js "samsung"; js "lg"; js "sennheiser"; js "beats";
  js "xiaomi"; js "huawei"; js "oppo"; js "oneplus"; js "realme"; js "vivo"; js "iphone";
  js "airpods"; js "galaxy"; js "pixel"; js "redmi"; js "poco"; js "honor";
  js "jbl"; js "marshall"; js "audio-technica"; js "beyerdynamic"; js "akg";
  js "skullcandy"; js "plantronics"; js "jabra"; js "razer"; js "steelseries";
  js "hyperx"; js "corsair"; js "logitech"; js "asus"; js "msi"; js "acer"; js "hp";
  js "dell"; js "lenovo"; js "macbook"; js "thinkpad"; js "pavilion"; js "inspiron"
].

(** [extractBrand(productTitle)]: the loop returns at the first keyword
    the lowered title includes; [None] is [null]. *)
Definition extractBrand (productTitle : jsstring) : option jsstring :=
  let title := toLowerCase productTitle in
  find (fun brand => includes title brand) brandKeywords.

(** *** The three patterns of [extractModel]

    Each pattern is a sequence of word boundaries and of character
    classes under a greedy quantifier.  [\d] is [0-9], [\s] is the white
    space [trim] strips, and a word character, for [\b], is one of
    [A-Za-z0-9_]. *)
Definition is_digit (c : N) : bool := (48 <=? c) && (c <=? 57).
Definition is_lower (c : N) : bool := (97 <=? c) && (c <=? 122).
Definition is_word (c : N) : bool :=
  is_digit c || is_lower c || ((65 <=? c) && (c <=? 90)) || (c =? 95).

Inductive atom :=
| Boundary
| Repeat (class : N -> bool) (lo : nat) (hi : option nat).

(** The longest run of [class] at the head of [s]. *)
Fixpoint run_length (class : N -> bool) (s : jsstring) : nat :=
  match s with
  | c :: s' => if class c then S (run_length class s') else O
  | [] => O
  end.

(** A greedy quantifier gives back one character at a time: [continue k]
    is tried for [k], [k - 1], ... down to [lo]. *)
Fixpoint backtrack (continue : nat -> option nat) (lo k : nat) : option nat :=
  if (k <? lo)%nat then None
  else
    match continue k with
    | Some n => Some (k + n)%nat
    | None =>
        match k with
        | O => None
        | S k' => backtrack continue lo k'
        end
    end.

(** The code unit before the position reached after [k] units of [s],
    [prev] being the one before [s]. *)
Definition unit_before (prev : option N) (s : jsstring) (k : nat) : option N :=
  match k with
  | O => prev
  | S k' => nth_error s k'
  end.

Definition word_at (c : option N) : bool :=
  match c with
  | Some d => is_word d
  | None => false
  end.

(** The atoms match at the head of [s]; the result is the length of the
    match the engine finds first. *)
Fixpoint match_atoms (atoms : list atom) (prev : option N) (s : jsstring) : option nat :=
  match atoms with
  | [] => Some O
  | Boundary :: rest =>
      if xorb (word_at prev) (word_at (hd_error s))
      then match_atoms rest prev s
      else None
  | Repeat class lo hi :: rest =>
      let most :=
        match hi with
        | Some h => Nat.min h (run_length class s)
        | None => run_length class s
        end in
      backtrack (fun k => match_atoms rest (unit_before prev s k) (skipn k s)) lo most
  end.

(** The first match, scanning the start position from left to right:
    [title.match(pattern)[0]] for a pattern with the [g] flag, [None]
    when [match] gives [null]. *)
Fixpoint first_match (atoms : list atom) (prev : option N) (s : jsstring) : option jsstring :=
  match match_atoms atoms prev s with
  | Some n => Some (firstn n s)
  | None =>
      match s with
      | [] => None
      | c :: s' => first_match atoms (Some c) s'
      end
  end.

(** [const modelPatterns = [...]]:
    [/\b\d{1,2}[a-z]*\b/g], [/\b[a-z]+\s*\d+[a-z]*\b/g] and
    [/\b\d+\s*[a-z]+\b/g]. *)
Definition modelPatterns : list (list atom) := [
  [Boundary; Repeat is_digit 1 (Some 2%nat); Repeat is_lower 0 None; Boundary];
  [Boundary; Repeat is_lower 1 None; Repeat is_space 0 None; Repeat is_digit 1 None;
   Repeat is_lower 0 None; Boundary];
  [Boundary; Repeat is_digit 1 None; Repeat is_space 0 None; Repeat is_lower 1 None;
   Boundary]
].

(** [extractModel(productTitle)]: the first pattern, in the order of the
    array, that matches somewhere gives the result.  (No pattern matches
    the empty string, so [matches.length > 0] holds whenever [matches]
    is not [null].) *)
Definition extractModel (productTitle : jsstring) : option jsstring :=
  let title := toLowerCase productTitle in
  fold_right
    (fun pattern later =>
       match first_match pattern None title with
       | Some m => Some m
       | None => later
       end)
    None modelPatterns.

(** [t] occurs somewhere in [s]. *)
Definition occurs (t s : jsstring) : Prop := exists pre post, s = pre ++ t ++ post.

(** [m] is made of one segment for each quantified class of the
    pattern, in order, each within the bounds of its quantifier. *)
Inductive shaped : list atom -> jsstring -> Prop :=
| shaped_nil : shaped [] []
| shaped_boundary rest m : shaped rest m -> shaped (Boundary :: rest) m
| shaped_repeat class lo hi rest seg m :
    forallb class seg = true ->
    (lo <= List.length seg)%nat ->
    shaped rest m ->
    shaped (Repeat class lo hi :: rest) (seg ++ m).

(** Every pattern asks for a digit, and for nothing but digits,
    lower-case letters and white space. *)
Definition model_unit (c : N) : bool := is_digit c || is_lower c || is_space c.

End Titles.

(* ================================================================= *)
(** ** The suggestion line of the smart search: [setupSmartSearchEvents] *)

Module SmartSearch.
Import JS Catalog.

(** [l.join(sep)] *)
Fixpoint join (sep : jsstring) (l : list jsstring) : jsstring :=
  match l with
  | [] => []
  | [x] => x
  | x :: l' => x ++ sep ++ join sep l'
  end.

(** The smart-search controls with [#product-suggestions], whose
    [innerHTML] is kept. *)
Record panel := {
  controls : page;
  product_suggestions : jsstring
}.

(** [products.map(p => p.name).filter(name =>
    name.toLowerCase().startsWith(input))] *)
Definition matched (input : jsstring) (l : list product) : list jsstring :=
  filter (fun name0 => startsWith (toLowerCase name0) input) (map name l).

(** The [input] listener that [setupSmartSearchEvents] attaches; it is
    attached only on a page that has the search input and the
    suggestion line. *)
Definition on_input (s : panel) : panel :=
  match product_search_input (controls s) with
  | Some value =>
      let input := toLowerCase value in
      let matched0 := matched input (catalog (controls s)) in
      {| controls := filterProducts (controls s);
         product_suggestions :=
           if (0 <? List.length matched0)%nat then join (js ", ") matched0 else [] |}
  | None => s
  end.

End SmartSearch.

(* ================================================================= *)
(** ** Theme preference: [changeTheme], the theme switches, the saved theme *)

Module Prefs.
Import JS.

(** A [.theme-switch] element: [dataset.theme] and the class [active]. *)
Record theme_switch := {
  dataset_theme : option jsstring;
  active : bool
}.

(** [currentTheme], the [data-theme] attribute of the document element,
    the switches, and the entry [findflow-theme] of [localStorage]. *)
Record prefs := {
  currentTheme : jsstring;
  data_theme : option jsstring;
  switches : list theme_switch;
  stored : option jsstring
}.

(** [changeTheme(theme)] *)
Definition changeTheme (theme : jsstring) (p : prefs) : prefs :=
  {| currentTheme := theme;
     data_theme := Some theme;
     switches :=
       map (fun _ => {| dataset_theme := Some theme;
                        active := str_eqb theme (js "dark") |})
           (switches p);
     stored := Some theme |}.

Fixpoint replace_nth {A : Type} (i : nat) (x : A) (l : list A) : list A :=
  match l, i with
  | [], _ => []
  | _ :: l', O => x :: l'
  | y :: l', S i' => y :: replace_nth i' x l'
  end.

(** The click listener of the switch number [i]. *)
Definition click_switch (i : nat) (p : prefs) : prefs :=
  match nth_error (switches p) i with
  | Some this =>
      let newTheme :=
        match dataset_theme this with
        | Some t => if str_eqb t (js "light") then js "dark" else js "light"
        | None => js "light"
        end in
      let toggled := {| dataset_theme := Some newTheme; active := negb (active this) |} in
      changeTheme newTheme
        {| currentTheme := currentTheme p;
           data_theme := data_theme p;
           switches := replace_nth i toggled (switches p);
           stored := stored p |}
  | None => p
  end.

(** The first lines of [window.onload]:
    [localStorage.getItem('findflow-theme') || 'light']. *)
Definition restoreTheme (p : prefs) : prefs :=
  let savedTheme :=
    match stored p with
    | Some t => if truthy_str t then t else js "light"
    | None => js "light"
    end in
  changeTheme savedTheme p.

(** The page after a reload: the script's initial [currentTheme], the
    markup as the document has it, and the storage as it was left. *)
Definition reloaded (attribute : option jsstring) (markup : list theme_switch)
    (p : prefs) : prefs :=
  restoreTheme
    {| currentTheme := js "light";
       data_theme := attribute;
       switches := markup;
       stored := stored p |}.

End Prefs.

(* ================================================================= *)
(** ** The search box: autocomplete dropdown and key handling

    [handleAutocomplete], [showAutocompleteSuggestions],
    [hideAutocomplete], [selectAutocompleteIndex],
    [selectAutocompleteItem], [handleAutocompleteKeydown], and the
    [keydown] listeners that [renderLanding] and [window.onload] put on
    [#chatbox-input]. *)

Module Search.
Import JS Suggest Flow.

(** A child of [#autocomplete-dropdown]: the suggestion it was built
    from, which its [mousedown] listener holds, and whether it has the
    class [selected].  Its position is its [index].  (No other element
    has the class [autocomplete-item].) *)
Record entry := {
  entry_suggestion : suggestion;
  entry_selected : bool
}.

(** The page of the flow controller, which has [#chatbox-input]; the
    [style.display] and the children of [#autocomplete-dropdown]; the
    globals [autocompleteData] and [selectedAutocompleteIndex]; and the
    number of anonymous [keydown] listeners on [#chatbox-input] that
    call [handleChatboxEntry] on Enter. *)
Record box := {
  flow : page;
  dropdown_display : css_display;
  entries : list entry;
  autocompleteData : list suggestion;
  selectedAutocompleteIndex : Z;
  enter_listeners : nat
}.

Definition set_flow (v : page) (b : box) : box :=
  {| flow := v; dropdown_display := dropdown_display b; entries := entries b;
     autocompleteData := autocompleteData b;
     selectedAutocompleteIndex := selectedAutocompleteIndex b;
     enter_listeners := enter_listeners b |}.

Definition set_dropdown_display (v : css_display) (b : box) : box :=
  {| flow := flow b; dropdown_display := v; entries := entries b;
     autocompleteData := autocompleteData b;
     selectedAutocompleteIndex := selectedAutocompleteIndex b;
     enter_listeners := enter_listeners b |}.

Definition set_entries (v : list entry) (b : box) : box :=
  {| flow := flow b; dropdown_display := dropdown_display b; entries := v;
     autocompleteData := autocompleteData b;
     selectedAutocompleteIndex := selectedAutocompleteIndex b;
     enter_listeners := enter_listeners b |}.

Definition set_autocompleteData (v : list suggestion) (b : box) : box :=
  {| flow := flow b; dropdown_display := dropdown_display b; entries := entries b;
     autocompleteData := v;
     selectedAutocompleteIndex := selectedAutocompleteIndex b;
     enter_listeners := enter_listeners b |}.

Definition set_selectedAutocompleteIndex (v : Z) (b : box) : box :=
  {| flow := flow b; dropdown_display := dropdown_display b; entries := entries b;
     autocompleteData := autocompleteData b;
     selectedAutocompleteIndex := v;
     enter_listeners := enter_listeners b |}.

Definition set_enter_listeners (v : nat) (b : box) : box :=
  {| flow := flow b; dropdown_display := dropdown_display b; entries := entries b;
     autocompleteData := autocompleteData b;
     selectedAutocompleteIndex := selectedAutocompleteIndex b;
     enter_listeners := v |}.

(** [renderLanding] ends by adding one more anonymous Enter listener to
    the search box; the flow controller does not keep count, its trace
    does. *)
Definition listeners_added (es : list event) : nat :=
  List.length
    (filter (fun e => match e with RenderLanding _ => true | _ => false end) es).

(** A handler of the flow controller, run on the page of the box. *)
Definition in_flow (m : M unit) (b : box) : box * list event :=
  let r := m (flow b) in
  (set_enter_listeners (enter_listeners b + listeners_added (trace r))
     (set_flow (final r) b),
   trace r).

(** [hideAutocomplete()] *)
Definition hideAutocomplete (b : box) : box :=
  set_selectedAutocompleteIndex (-1) (set_dropdown_display DisplayNone b).

(** [showAutocompleteSuggestions(suggestions)] *)
Definition showAutocompleteSuggestions (suggestions : list suggestion) (b : box) : box :=
  let b := set_entries [] b in
  let b := set_autocompleteData suggestions b in
  let b :=
    set_entries
      (map (fun suggestion0 =>
              {| entry_suggestion := suggestion0; entry_selected := false |})
           suggestions) b in
  let b := set_dropdown_display DisplayBlock b in
  set_selectedAutocompleteIndex (-1) b.

(** [handleAutocomplete()], the [input] listener of the search box.
    When [getAutocompleteSuggestions] throws, the listener ends there
    and the box is as it was. *)
Definition handleAutocomplete (b : box) : outcome box :=
  let query := trim (toLowerCase (chatbox_input (ui (flow b)))) in
  if (List.length query <? 1)%nat then Returns (hideAutocomplete b)
  else
    match getAutocompleteSuggestions query with
    | Returns suggestions =>
        if (0 <? List.length suggestions)%nat
        then Returns (showAutocompleteSuggestions suggestions b)
        else Returns (hideAutocomplete b)
    | Throws => Throws
    | NotModelled => NotModelled
    end.

Definition unselect (e : entry) : entry :=
  {| entry_suggestion := entry_suggestion e; entry_selected := false |}.

Fixpoint select_nth (i : nat) (l : list entry) : list entry :=
  match l, i with
  | [], _ => []
  | e :: l', O => {| entry_suggestion := entry_suggestion e; entry_selected := true |} :: l'
  | e :: l', S i' => e :: select_nth i' l'
  end.

(** [selectAutocompleteIndex(index)] *)
Definition selectAutocompleteIndex (index : Z) (b : box) : box :=
  let b := set_entries (map unselect (entries b)) b in
  if ((0 <=? index) && (index <? Z.of_nat (List.length (entries b))))%Z
  then set_selectedAutocompleteIndex index
         (set_entries (select_nth (Z.to_nat index) (entries b)) b)
  else b.

(** [selectAutocompleteItem(suggestion)] *)
Definition selectAutocompleteItem (suggestion0 : suggestion) (b : box) : box * list event :=
  let b := set_flow (on_ui (set_chatbox_input (text suggestion0)) (flow b)) b in
  let b := hideAutocomplete b in
  in_flow handleChatboxEntry b.

(** [handleAutocompleteKeydown(e)], given [e.key].  ([e.preventDefault()]
    is not tracked: it does not keep the other listeners from running.) *)
Definition handleAutocompleteKeydown (key : jsstring) (b : box) : box * list event :=
  match dropdown_display b with
  | DisplayNone => (b, [])
  | _ =>
      if str_eqb key (js "ArrowDown") then
        let b :=
          set_selectedAutocompleteIndex
            (Z.min (selectedAutocompleteIndex b + 1)
                   (Z.of_nat (List.length (entries b)) - 1)) b in
        (selectAutocompleteIndex (selectedAutocompleteIndex b) b, [])
      else if str_eqb key (js "ArrowUp") then
        let b :=
          set_selectedAutocompleteIndex
            (Z.max (selectedAutocompleteIndex b - 1) (-1)) b in
        (selectAutocompleteIndex (selectedAutocompleteIndex b) b, [])
      else if str_eqb key (js "Enter") then
        if ((0 <=? selectedAutocompleteIndex b)
            && (selectedAutocompleteIndex b <? Z.of_nat (List.length (entries b))))%Z
        then
          match nth_error (autocompleteData b) (Z.to_nat (selectedAutocompleteIndex b)) with
          | Some suggestion0 => selectAutocompleteItem suggestion0 b
          | None => (b, [])
          end
        else in_flow handleChatboxEntry b
      else if str_eqb key (js "Escape") then (hideAutocomplete b, [])
      else (b, [])
  end.

(** One of the anonymous listeners:
    [if (e.key === 'Enter') handleChatboxEntry()]. *)
Definition on_enter (key : jsstring) (b : box) : box * list event :=
  if str_eqb key (js "Enter") then in_flow handleChatboxEntry b else (b, []).

Fixpoint each_listener (n : nat) (listener : box -> box * list event) (b : box)
    : box * list event :=
  match n with
  | O => (b, [])
  | S n' =>
      let '(b1, e1) := listener b in
      let '(b2, e2) := each_listener n' listener b1 in
      (b2, e1 ++ e2)
  end.

(** A [keydown] event on [#chatbox-input]: [handleAutocompleteKeydown],
    registered first by [window.onload], then the anonymous listeners in
    turn. *)
Definition keydown (key : jsstring) (b : box) : box * list event :=
  let '(b1, e1) := handleAutocompleteKeydown key b in
  let '(b2, e2) := each_listener (enter_listeners b1) (on_enter key) b1 in
  (b2, e1 ++ e2).

(** The user edits the text of the search box. *)
Definition retyped (value : jsstring) (b : box) : box :=
  set_flow (on_ui (set_chatbox_input value) (flow b)) b.

(** The [mousedown] listener of the entry number [index], and its
    [mouseenter] listener. *)
Definition mousedown (index : nat) (b : box) : box * list event :=
  match nth_error (entries b) index with
  | Some e => selectAutocompleteItem (entry_suggestion e) b
  | None => (b, [])
  end.

Definition mouseenter (index : nat) (b : box) : box :=
  match nth_error (entries b) index with
  | Some _ => selectAutocompleteIndex (Z.of_nat index) b
  | None => b
  end.

(** What can happen to the search box, with the trace of what the flow
    controller did.  An edit of the text runs [handleAutocomplete]; for
    a query whose pattern the embedding of [RegExp] leaves open, the
    listener either throws or goes on with some list of at most eight
    suggestions of the table. *)
Inductive step : box -> list event -> box -> Prop :=
| step_typed value b b' :
    handleAutocomplete (retyped value b) = Returns b' ->
    step b [] b'
| step_typed_throws value b :
    handleAutocomplete (retyped value b) = Throws ->
    step b [] (retyped value b)
| step_typed_open_throws value b :
    handleAutocomplete (retyped value b) = NotModelled ->
    step b [] (retyped value b)
| step_typed_open value suggestions b :
    handleAutocomplete (retyped value b) = NotModelled ->
    Forall from_table suggestions ->
    (List.length suggestions <= 8)%nat ->
    step b []
      (if (0 <? List.length suggestions)%nat
       then showAutocompleteSuggestions suggestions (retyped value b)
       else hideAutocomplete (retyped value b))
| step_keydown key b :
    step b (snd (keydown key b)) (fst (keydown key b))
| step_blur b :
    step b [] (hideAutocomplete b)
| step_mousedown index b :
    step b (snd (mousedown index b)) (fst (mousedown index b))
| step_mouseenter index b :
    step b [] (mouseenter index b)
| step_page i b :
    step b (snd (in_flow (react i) b)) (fst (in_flow (react i) b)).

Inductive steps : box -> list event -> box -> Prop :=
| steps_done b : steps b [] b
| steps_next b es b' es' b'' :
    step b es b' -> steps b' es' b'' -> steps b (es ++ es') b''.

(** The dropdown is in order: its entries are the suggestions of
    [autocompleteData]; the index is -1 or the position of an entry;
    while the dropdown is not hidden, the entry at the index, and no
    other, is highlighted; and the suggestions are at most eight
    suggestions of the table. *)
Definition in_order (b : box) : Prop :=
  map entry_suggestion (entries b) = autocompleteData b
  /\ (-1 <= selectedAutocompleteIndex b < Z.of_nat (List.length (entries b)))%Z
  /\ (dropdown_display b <> DisplayNone ->
      forall i e, nth_error (entries b) i = Some e ->
                  (entry_selected e = true <-> Z.of_nat i = selectedAutocompleteIndex b))
  /\ Forall from_table (autocompleteData b)
  /\ (List.length (autocompleteData b) <= 8)%nat.

(** [n] requests to [/detect_category] for the query [q], numbered from
    [from] on. *)
Definition detections (from n : nat) (q : jsstring) : list (nat * fetch) :=
  map (fun id => (id, FetchDetect q)) (seq from n).

(** [n] presses of a key. *)
Fixpoint presses (n : nat) (key : jsstring) (b : box) : box :=
  match n with
  | O => b
  | S n' => presses n' key (fst (keydown key b))
  end.

(** The search box of the loaded page: nothing typed yet, a dropdown
    with no inline [display], and the two Enter listeners of the first
    [renderLanding] and of [window.onload]. *)
Definition loaded_box (specs : list (jsstring * nat)) : box :=
  {| flow := loaded_page specs;
     dropdown_display := DisplayDefault;
     entries := [];
     autocompleteData := [];
     selectedAutocompleteIndex := (-1)%Z;
     enter_listeners := 2 |}.

End Search.

(* ================================================================= *)
(** * Properties *)

Section StringLemmas.
Import JS.
Open Scope N_scope.

Lemma str_eqb_eq (a b : jsstring) : str_eqb a b = true <-> a = b.
Proof.
  revert b; induction a as [|x a IH]; intros [|y b]; simpl.
  - split; reflexivity.
  - split; discriminate.
  - split; discriminate.
  - rewrite andb_true_iff, N.eqb_eq, IH. split.
    + intros [-> ->]; reflexivity.
    + intros E; injection E; auto.
Qed.

Lemma startsWith_spec (s t : jsstring) :
  startsWith s t = true <-> exists post, s = t ++ post.
Proof.
  revert s; induction t as [|y t IH]; intros s; simpl.
  - split; [intros _; exists s; reflexivity | reflexivity].
  - destruct s as [|x s].
    + split; [congruence | intros [post E]; discriminate E].
    + rewrite andb_true_iff, N.eqb_eq, IH. split.
      * intros [-> [post ->]]. exists post. reflexivity.
      * intros [post E]. injection E as -> ->. split; [reflexivity | exists post; reflexivity].
Qed.

Lemma includes_spec (s t : jsstring) :
  includes s t = true <-> exists pre post, s = pre ++ t ++ post.
Proof.
  induction s as [|x s IH].
  - simpl. rewrite orb_false_r, startsWith_spec. split.
    + intros [post E]. exists [], post. exact E.
    + intros [pre [post E]]. destruct pre; simpl in E.
      * exists post; exact E.
      * discriminate E.
  - cbn [includes]. rewrite orb_true_iff, startsWith_spec, IH. split.
    + intros [[post E] | [pre [post E]]].
      * exists [], post. exact E.
      * exists (x :: pre), post. rewrite E. reflexivity.
    + intros [pre [post E]]. destruct pre as [|y pre]; simpl in E.
      * left. exists post. exact E.
      * right. injection E as _ E. exists pre, post. exact E.
Qed.

End StringLemmas.

(* ----------------------------------------------------------------- *)
(** *** Catalog filter *)

Section CatalogFilter.
Import JS Catalog.

Lemma sublist_filter {A : Type} (f : A -> bool) (l : list A) :
  sublist (filter f l) l.
Proof.
  induction l as [|x l IH]; simpl.
  - constructor.
  - destruct (f x); constructor; exact IH.
Qed.

Lemma filter_all {A : Type} (f : A -> bool) (l : list A) :
  (forall x, In x l -> f x = true) -> filter f l = l.
Proof.
  induction l as [|x l IH]; simpl; intros H.
  - reflexivity.
  - rewrite (H x (or_introl eq_refl)). f_equal. apply IH. intros y Hy. apply H. right. exact Hy.
Qed.

Lemma filter_none {A : Type} (f : A -> bool) (l : list A) :
  (forall x, In x l -> f x = false) -> filter f l = [].
Proof.
  induction l as [|x l IH]; simpl; intros H.
  - reflexivity.
  - rewrite (H x (or_introl eq_refl)). apply IH. intros y Hy. apply H. right. exact Hy.
Qed.

(** Every rating of the constant list is non-negative: this is what
    makes the unset rating (threshold 0) impose nothing. *)
Lemma products_rating_nonneg (p : product) :
  In p products -> (0 <= rating p)%Q.
Proof.
  unfold products. simpl.
  intros H. repeat (destruct H as [<- | H]; [vm_compute; discriminate |]).
  contradiction.
Qed.

Lemma or_zero_threshold (r : option Q) (p : product) :
  (0 <= rating p)%Q ->
  (Qle_bool (or_zero r) (rating p) = true <-> rating_matches r p).
Proof.
  intros Hp. rewrite Qle_bool_iff. destruct r as [q|]; simpl.
  - destruct (Qeq_bool q 0) eqn:E.
    + apply Qeq_bool_iff in E. rewrite E. tauto.
    + tauto.
  - tauto.
Qed.

Lemma keeps_satisfies (input c s : jsstring) (r : option Q) (p : product) :
  (0 <= rating p)%Q ->
  (keeps (toLowerCase input) c s (or_zero r) p = true <-> satisfies input c s r p).
Proof.
  intros Hp. unfold keeps, satisfies, name_matches, color_matches, size_matches.
  rewrite !andb_true_iff, !orb_true_iff, !str_eqb_eq, includes_spec.
  rewrite (or_zero_threshold r p Hp). tauto.
Qed.

(** **** Lower case in the alphabets of the catalogue *)

Lemma plain_listed (c : N) : plain c = true -> In c plain_units.
Proof.
  unfold plain, plain_units. rewrite !orb_true_iff, N.ltb_lt, !N.eqb_eq.
  intros H. apply in_or_app.
  destruct H as [[[[[H | ->] | ->] | ->] | ->] | ->]; [left | right; simpl; tauto ..].
  apply in_map_iff. exists (N.to_nat c). split; [apply N2Nat.id |].
  apply in_seq. lia.
Qed.

Lemma plain_units_ok : forallb plain_ok plain_units = true.
Proof. vm_compute. reflexivity. Qed.

Lemma plain_unit (c : N) :
  plain c = true ->
  simple_lowercase lowercase_rows c = small c
  /\ is_lead c = false /\ (c =? 931) = false /\ (c =? 304) = false
  /\ emit_code_point (small c) = [small c].
Proof.
  intros H.
  pose proof (proj1 (forallb_forall _ _) plain_units_ok c (plain_listed c H)) as K.
  unfold plain_ok in K. rewrite !andb_true_iff, !negb_true_iff, N.eqb_eq in K.
  destruct K as [[[[K1 K2] K3] K4] K5].
  unfold emit_code_point. rewrite K5. auto.
Qed.

Lemma code_points_plain (s : jsstring) :
  forallb plain s = true -> code_points s = s.
Proof.
  induction s as [|c s IH]; [reflexivity |].
  cbn [forallb]. rewrite andb_true_iff. intros [Hc Hs].
  destruct (plain_unit c Hc) as [_ [L _]].
  cbn [code_points]. rewrite L. cbn [andb].
  destruct s as [|d s]; [reflexivity |]. rewrite (IH Hs). reflexivity.
Qed.

Lemma lowercase_points_plain (s : jsstring) (after_cased : bool) :
  forallb plain s = true -> lowercase_points after_cased s = map small s.
Proof.
  revert after_cased. induction s as [|c s IH]; intros b; [reflexivity |].
  cbn [forallb]. rewrite andb_true_iff. intros [Hc Hs].
  destruct (plain_unit c Hc) as [E [_ [S [I _]]]].
  cbn [lowercase_points map]. rewrite S, I, E, (IH _ Hs). reflexivity.
Qed.

(** A text in these alphabets is lowered code unit by code unit. *)
Lemma toLowerCase_plain (s : jsstring) :
  forallb plain s = true -> toLowerCase s = map small s.
Proof.
  intros H. unfold toLowerCase.
  rewrite (code_points_plain s H), (lowercase_points_plain s false H).
  induction s as [|c s IH]; [reflexivity |].
  cbn [forallb] in H. apply andb_true_iff in H. destruct H as [Hc Hs].
  destruct (plain_unit c Hc) as [_ [_ [_ [_ E]]]].
  cbn [map flat_map]. rewrite E, (IH Hs). reflexivity.
Qed.

Lemma small_cases (c : N) :
  ((65 <= c <= 90 \/ 192 <= c <= 214 \/ 216 <= c <= 222) /\ small c = c + 32)
  \/ (c = 286 /\ small c = 287)
  \/ (c = 350 /\ small c = 351)
  \/ (~ (65 <= c <= 90 \/ 192 <= c <= 214 \/ 216 <= c <= 222)
      /\ c <> 286 /\ c <> 350 /\ small c = c).
Proof.
  unfold small.
  destruct (N.leb_spec 65 c), (N.leb_spec c 90), (N.leb_spec 192 c),
    (N.leb_spec c 214), (N.leb_spec 216 c), (N.leb_spec c 222);
    cbn [andb orb]; try (left; split; [lia | reflexivity]);
    destruct (N.eqb_spec c 286); try (right; left; split; [assumption | reflexivity]);
    destruct (N.eqb_spec c 350); try (right; right; left; split; [assumption | reflexivity]);
    right; right; right; repeat split; try assumption; lia.
Qed.

(** Two code units have the same small letter exactly when they are the
    same letter. *)
Lemma small_same_letter (a b : N) : small a = small b <-> same_letter a b.
Proof.
  unfold same_letter, capital_of.
  destruct (small_cases a) as [[A ->] | [[A ->] | [[A ->] | [A [A1 [A2 ->]]]]]];
    destruct (small_cases b) as [[B ->] | [[B ->] | [[B ->] | [B [B1 [B2 ->]]]]]];
    (split;
     [ intros E; first [left; lia | right; left; lia | right; right; lia | exfalso; lia]
     | intros [E | [[[E ?] | [[E ?] | [E ?]]] | [[E ?] | [[E ?] | [E ?]]]]]; lia ]).
Qed.

Lemma map_small_same (w t : jsstring) :
  map small w = map small t <-> Forall2 same_letter w t.
Proof.
  revert t. induction w as [|a w IH]; intros [|b t]; cbn [map].
  - split; [constructor | reflexivity].
  - split; [discriminate | intros H; inversion H].
  - split; [discriminate | intros H; inversion H].
  - split.
    + intros E. injection E as E1 E2. constructor.
      * apply small_same_letter; assumption.
      * apply IH; assumption.
    + intros H. inversion H as [|? ? ? ? H1 H2]; subst. f_equal.
      * apply small_same_letter; assumption.
      * apply IH; assumption.
Qed.

(** Every name of the catalogue is written in these alphabets. *)
Lemma products_plain (p : product) :
  In p products -> forallb plain (name p) = true.
Proof.
  unfold products. simpl In.
  intros H. repeat (destruct H as [<- | H]; [vm_compute; reflexivity |]).
  contradiction.
Qed.

(** For a text in these alphabets, the comparison in lower case finds
    the text in a name exactly when it is spelled there. *)
Lemma name_matches_spelled (input : jsstring) (p : product) :
  forallb plain input = true -> In p products ->
  (name_matches input p <-> spelled_in input (name p)).
Proof.
  intros Hi Hp. pose proof (products_plain p Hp) as Hn.
  unfold name_matches, spelled_in.
  rewrite (toLowerCase_plain _ Hi), (toLowerCase_plain _ Hn). split.
  - intros [pre [post E]].
    apply map_eq_app in E. destruct E as [pre' [rest [E1 [E2 E3]]]].
    apply map_eq_app in E3. destruct E3 as [w [post' [E4 [E5 E6]]]].
    exists pre', w, post'. subst rest. split; [exact E1 |].
    apply map_small_same. exact E5.
  - intros [pre [w [post [E H]]]].
    exists (map small pre), (map small post).
    rewrite E, !map_app. do 2 f_equal.
    apply map_small_same. exact H.
Qed.

(** C9.  On the loaded page, [filterProducts] shows exactly the items of
    [products] that satisfy every predicate that is set, in the order of
    [products]; an empty text, an empty colour or size selection and an
    unset rating impose nothing.  The text is looked for in the name
    with both in lower case; for a text in the alphabets of the
    catalogue this means that some stretch of the name is the text
    letter for letter, a capital and its small letter being the same
    letter.  With nothing set the whole list is shown; when no item
    passes, the empty list is shown.  The [products] array is the same
    before and after, on every page. *)
Theorem filterProducts_spec (input c s : jsstring) (r : option Q) (shown : list product) :
  exists result,
    product_list (filterProducts (loaded input c s r shown)) = Some result
    /\ sublist result products
    /\ (forall p, In p result <-> In p products /\ satisfies input c s r p)
    /\ (forallb plain input = true ->
        forall p, In p result <->
                  In p products /\ spelled_in input (name p)
                  /\ color_matches c p /\ size_matches s p /\ rating_matches r p)
    /\ (input = [] -> c = [] -> s = [] -> r = None -> result = products)
    /\ ((forall p, In p products -> ~ satisfies input c s r p) -> result = [])
    /\ (forall pg, catalog (filterProducts pg) = catalog pg).
Proof.
  exists (filter (keeps (toLowerCase input) c s (or_zero r)) products).
  assert (K : forall p,
             In p (filter (keeps (toLowerCase input) c s (or_zero r)) products)
             <-> In p products /\ satisfies input c s r p).
  { intros p. rewrite filter_In. split.
    - intros [Hin Hk]. split; [exact Hin |].
      apply keeps_satisfies; [apply products_rating_nonneg; exact Hin | exact Hk].
    - intros [Hin Hs]. split; [exact Hin |].
      apply keeps_satisfies; [apply products_rating_nonneg; exact Hin | exact Hs]. }
  split; [reflexivity |].
  split; [apply sublist_filter |].
  split; [exact K |].
  split.
  { intros Hplain p. rewrite K. unfold satisfies. split.
    - intros [Hin [Hn Hrest]]. split; [exact Hin |]. split; [| exact Hrest].
      apply (name_matches_spelled input p Hplain Hin). exact Hn.
    - intros [Hin [Hn Hrest]]. split; [exact Hin |]. split; [| exact Hrest].
      apply (name_matches_spelled input p Hplain Hin). exact Hn. }
  split.
  { intros -> -> -> ->. apply filter_all. intros p Hin.
    apply keeps_satisfies; [apply products_rating_nonneg; exact Hin |].
    repeat split.
    - exists [], (toLowerCase (name p)). reflexivity.
    - left; reflexivity.
    - left; reflexivity. }
  split.
  { intros Hnone. apply filter_none. intros p Hin.
    destruct (keeps (toLowerCase input) c s (or_zero r) p) eqn:E; [| reflexivity].
    exfalso. apply (Hnone p Hin).
    apply keeps_satisfies; [apply products_rating_nonneg; exact Hin | exact E]. }
  intros pg. unfold filterProducts, displayProducts.
  destruct (product_search_input pg), (color_filter pg), (size_filter pg),
    (rating_filter pg), (product_list pg); reflexivity.
Qed.

Lemma filterProducts_spec_witness :
  product_list (filterProducts (loaded [] [] [] None [])) = Some products
  /\ exists result,
       product_list (filterProducts (loaded (js "KA") (js "siyah") [] None [])) = Some result
       /\ forall p, In p result <->
                    In p products /\ spelled_in (js "KA") (name p)
                    /\ color_matches (js "siyah") p /\ size_matches [] p
                    /\ rating_matches None p.
Proof.
  split.
  - destruct (filterProducts_spec [] [] [] None []) as [result [E [_ [_ [_ [Hall _]]]]]].
    rewrite E, (Hall eq_refl eq_refl eq_refl eq_refl). reflexivity.
  - destruct (filterProducts_spec (js "KA") (js "siyah") [] None [])
      as [result [E [_ [_ [Hplain _]]]]].
    exists result. split; [exact E | exact (Hplain eq_refl)].
Defined.

(** Typing "KA" with the colour "siyah" selected leaves the camera. *)
Example filterProducts_ka_siyah :
  option_map (map name)
    (product_list (filterProducts (loaded (js "KA") (js "siyah") [] None products)))
  = Some [js "Kamera"].
Proof. vm_compute. reflexivity. Qed.

(** The Kelvin sign U+212A lowers to [k]: the four names with a [k] in
    them are shown. *)
Example filterProducts_kelvin_sign :
  option_map (map name)
    (product_list (filterProducts (loaded [8490] [] [] None products)))
  = Some [js "Kulaklık"; js "Klavye"; js "Kamera"; js "Akıllı Saat"].
Proof. vm_compute. reflexivity. Qed.

(** Four stars and up in size "S": headphones, camera, speaker, watch. *)
Example filterProducts_four_stars_S :
  option_map (map name)
    (product_list (filterProducts (loaded [] [] (js "S") (Some 4%Q) products)))
  = Some [js "Kulaklık"; js "Kamera"; js "Hoparlör"; js "Akıllı Saat"].
Proof. vm_compute. reflexivity. Qed.

End CatalogFilter.

(* ----------------------------------------------------------------- *)
(** *** Suggestion index *)

Section SuggestionIndex.
Import JS Suggest.
Open Scope N_scope.

(** **** Patterns without syntax characters *)

Ltac no_syntax H :=
  unfold is_syntax_char in H;
  repeat (apply orb_false_iff in H; let E := fresh "E" in destruct H as [H E]).

Lemma unbalanced_literal (q : jsstring) :
  is_literal q = true -> unbalanced false 0 q = false.
Proof.
  induction q as [|c q IH]; [reflexivity |].
  cbn [is_literal forallb]. rewrite andb_true_iff, negb_true_iff.
  intros [Hc Hq]. no_syntax Hc.
  cbn [unbalanced].
  repeat match goal with
         | E : (c =? _) = false |- _ => try rewrite E; clear E
         end.
  exact (IH Hq).
Qed.

Lemma parse_terms_literal (q : jsstring) :
  is_literal q = true -> parse_terms q = Some (map TChar q).
Proof.
  induction q as [|c q IH]; [reflexivity |].
  cbn [is_literal forallb]. rewrite andb_true_iff, negb_true_iff.
  intros [Hc Hq]. cbn [parse_terms map]. rewrite (IH Hq), Hc.
  no_syntax Hc.
  repeat match goal with
         | E : (c =? _) = false |- _ => try rewrite E; clear E
         end.
  reflexivity.
Qed.

Lemma RegExp_literal (q : jsstring) :
  is_literal q = true -> RegExp q = Compiled (map TChar q).
Proof.
  intros H. unfold RegExp.
  rewrite (unbalanced_literal q H), (parse_terms_literal q H). reflexivity.
Qed.

Lemma RegExp_anchored_literal (q : jsstring) :
  is_literal q = true -> RegExp (94 :: q) = Compiled (TBol :: map TChar q).
Proof.
  intros H. unfold RegExp.
  change (unbalanced false 0 (94 :: q)) with (unbalanced false 0 q).
  rewrite (unbalanced_literal q H).
  cbn [parse_terms]. rewrite (parse_terms_literal q H). reflexivity.
Qed.

Lemma match_here_literal (q : jsstring) (b : bool) (s : jsstring) :
  match_here (map TChar q) b s = ci_startsWith s q.
Proof.
  revert b s. induction q as [|c q IH]; intros b s; [reflexivity |].
  destruct s as [|d s]; [reflexivity |].
  cbn [map match_here ci_startsWith]. rewrite IH. reflexivity.
Qed.

Lemma search_literal (q : jsstring) (b : bool) (s : jsstring) :
  search (map TChar q) b s = ci_includes s q.
Proof.
  revert b. induction s as [|d s IH]; intros b.
  - cbn [search ci_includes]. rewrite match_here_literal. reflexivity.
  - cbn [search ci_includes]. rewrite match_here_literal, IH. reflexivity.
Qed.

Lemma search_anchor_later (ts : list term) (s : jsstring) :
  search (TBol :: ts) false s = false.
Proof.
  induction s as [|d s IH]; [reflexivity |].
  cbn [search match_here andb orb]. exact IH.
Qed.

(** For a literal query, the first pattern tests for a case-insensitive
    prefix and the second for a case-insensitive substring. *)
Lemma test_anchored_literal (q s : jsstring) :
  test (TBol :: map TChar q) s = ci_startsWith s q.
Proof.
  unfold test. destruct s as [|d s].
  - cbn [search match_here andb]. rewrite match_here_literal. apply orb_false_r.
  - cbn [search match_here andb]. rewrite match_here_literal, search_anchor_later.
    apply orb_false_r.
Qed.

Lemma test_literal (q s : jsstring) :
  test (map TChar q) s = ci_includes s q.
Proof. apply search_literal. Qed.

(** **** The two loops *)

Lemma lookup_own :
  Forall (fun e => lookup (fst e) autocompleteSuggestions = snd e)
         autocompleteSuggestions.
Proof.
  unfold autocompleteSuggestions. repeat (constructor; [vm_compute; reflexivity |]).
  constructor.
Qed.

Lemma fold_keys (f : jsstring -> bool) (o entries : list (jsstring * list suggestion))
    (acc : list suggestion) :
  (forall e, In e entries -> lookup (fst e) o = snd e) ->
  fold_left
    (fun acc0 key => if f key then fold_left push_new (lookup key o) acc0 else acc0)
    (keys entries) acc
  = fold_left push_new
      (flat_map (fun e => if f (fst e) then snd e else []) entries) acc.
Proof.
  revert acc. induction entries as [|e entries IH]; intros acc H; [reflexivity |].
  cbn [keys map fold_left flat_map]. rewrite fold_left_app.
  rewrite (H e (or_introl eq_refl)).
  destruct (f (fst e)); cbn [fold_left];
    apply IH; intros e' He'; apply H; right; exact He'.
Qed.

Lemma fold_text (g : suggestion -> bool) (cs acc : list suggestion) :
  fold_left
    (fun acc' s => if g s && negb (collected s acc') then acc' ++ [s] else acc')
    cs acc
  = fold_left push_new (filter g cs) acc.
Proof.
  revert acc. induction cs as [|s cs IH]; intros acc; [reflexivity |].
  cbn [fold_left filter]. destruct (g s); cbn [andb fold_left].
  - unfold push_new at 2. destruct (collected s acc); apply IH.
  - apply IH.
Qed.

Lemma fold_values (g : suggestion -> bool) (vs : list (list suggestion))
    (acc : list suggestion) :
  fold_left
    (fun acc0 cs =>
       fold_left
         (fun acc' s => if g s && negb (collected s acc') then acc' ++ [s] else acc')
         cs acc0)
    vs acc
  = fold_left push_new (filter g (List.concat vs)) acc.
Proof.
  revert acc. induction vs as [|cs vs IH]; intros acc; [reflexivity |].
  cbn [fold_left List.concat]. rewrite filter_app, fold_left_app, fold_text.
  apply IH.
Qed.

(** **** Collecting without repeats *)

Lemma str_eqb_refl (a : jsstring) : str_eqb a a = true.
Proof. apply str_eqb_eq. reflexivity. Qed.

Lemma str_eqb_sym (a b : jsstring) : str_eqb a b = str_eqb b a.
Proof.
  destruct (str_eqb a b) eqn:E.
  - apply str_eqb_eq in E. subst. symmetry. apply str_eqb_refl.
  - destruct (str_eqb b a) eqn:E'; [| reflexivity].
    apply str_eqb_eq in E'. subst. rewrite str_eqb_refl in E. discriminate E.
Qed.

Lemma collected_same_text (x y : suggestion) (acc : list suggestion) :
  text x = text y -> collected x acc = collected y acc.
Proof. intros E. unfold collected. rewrite E. reflexivity. Qed.

Lemma collected_snoc (y x : suggestion) (acc : list suggestion) :
  collected y (acc ++ [x]) = collected y acc || str_eqb (text x) (text y).
Proof.
  unfold collected. rewrite existsb_app. cbn [existsb]. rewrite orb_false_r.
  reflexivity.
Qed.

Lemma filter_twice {A : Type} (f g : A -> bool) (l : list A) :
  filter f (filter g l) = filter (fun x => g x && f x) l.
Proof.
  induction l as [|x l IH]; [reflexivity |].
  cbn [filter]. destruct (g x); cbn [filter andb]; [destruct (f x) |]; rewrite IH;
    reflexivity.
Qed.

Lemma push_new_first_by_text (l acc : list suggestion) :
  fold_left push_new l acc
  = acc ++ filter (fun y => negb (collected y acc)) (first_by_text l).
Proof.
  revert acc. induction l as [|x l IH]; intros acc.
  - cbn. symmetry. apply app_nil_r.
  - cbn [fold_left first_by_text filter]. unfold push_new at 2.
    destruct (collected x acc) eqn:C; cbn [negb].
    + rewrite IH. f_equal. rewrite filter_twice. apply filter_ext. intros y.
      destruct (str_eqb (text x) (text y)) eqn:E; cbn [negb andb]; [| reflexivity].
      apply str_eqb_eq in E. rewrite <- (collected_same_text x y acc E), C.
      reflexivity.
    + rewrite IH, <- app_assoc. cbn [app]. do 2 f_equal.
      rewrite filter_twice. apply filter_ext. intros y.
      rewrite collected_snoc, negb_orb. apply andb_comm.
Qed.

Lemma first_by_text_collects (l : list suggestion) :
  fold_left push_new l [] = first_by_text l.
Proof.
  rewrite push_new_first_by_text. cbn [app].
  apply filter_all. intros y _. reflexivity.
Qed.

(** **** The lookup on literal queries *)

(** For a query that is not empty and has no pattern syntax in it, the
    function returns what the policy prescribes. *)
Lemma getAutocompleteSuggestions_literal (query : jsstring) :
  query <> [] -> is_literal query = true ->
  getAutocompleteSuggestions query = Returns (lookup_policy query).
Proof.
  intros Hne Hlit. unfold getAutocompleteSuggestions.
  destruct query as [|c q]; [contradiction |].
  cbn [truthy_str negb].
  rewrite (RegExp_anchored_literal (c :: q) Hlit), (RegExp_literal (c :: q) Hlit).
  unfold collect_by_key, collect_by_text, lookup_policy.
  rewrite (fold_keys (test (TBol :: map TChar (c :: q))) autocompleteSuggestions
                     autocompleteSuggestions []).
  2: { apply Forall_forall. exact lookup_own. }
  rewrite (fold_values (fun s => test (map TChar (c :: q)) (text s))).
  rewrite <- fold_left_app, first_by_text_collects.
  unfold prefix_matches, substring_matches.
  rewrite (flat_map_ext _ (fun e => if ci_startsWith (fst e) (c :: q) then snd e else [])).
  2: { intros e. rewrite test_anchored_literal. reflexivity. }
  rewrite (filter_ext _ (fun s => ci_includes (text s) (c :: q))).
  2: { intros s. apply test_literal. }
  reflexivity.
Qed.

Lemma NoDup_map_filter {A B : Type} (f : A -> B) (g : A -> bool) (l : list A) :
  NoDup (map f l) -> NoDup (map f (filter g l)).
Proof.
  induction l as [|x l IH]; cbn [map filter]; intros H; [exact H |].
  inversion H as [|? ? Hx Hl]; subst.
  destruct (g x); cbn [map]; [| exact (IH Hl)].
  constructor; [| exact (IH Hl)].
  intros Hin. apply Hx. apply in_map_iff in Hin. destruct Hin as [y [E Hy]].
  apply filter_In in Hy. apply in_map_iff. exists y. split; [exact E | apply Hy].
Qed.

Lemma first_by_text_NoDup (l : list suggestion) :
  NoDup (map text (first_by_text l)).
Proof.
  induction l as [|x l IH]; cbn [first_by_text map]; [constructor |].
  constructor.
  - intros Hin. apply in_map_iff in Hin. destruct Hin as [y [E Hy]].
    apply filter_In in Hy. destruct Hy as [_ Hy].
    rewrite <- E, str_eqb_refl in Hy. discriminate Hy.
  - apply NoDup_map_filter. exact IH.
Qed.

Lemma NoDup_firstn {A : Type} (n : nat) (l : list A) :
  NoDup l -> NoDup (firstn n l).
Proof.
  revert l. induction n as [|n IH]; intros l H; [constructor |].
  destruct l as [|x l]; [constructor |].
  inversion H as [|? ? Hx Hl]; subst. cbn [firstn]. constructor.
  - intros Hin. apply Hx. revert Hin. generalize n. clear.
    induction l as [|y l IHl]; intros [|n] Hin; cbn in Hin; try contradiction.
    destruct Hin as [<- | Hin]; [left; reflexivity | right; exact (IHl n Hin)].
  - exact (IH l Hl).
Qed.

(** What the policy guarantees: at most eight suggestions, pairwise
    distinct display texts, and the prefix matches ahead of the
    substring matches that were not collected already. *)
Lemma lookup_policy_shape (query : jsstring) :
  (List.length (lookup_policy query) <= 8)%nat
  /\ NoDup (map text (lookup_policy query))
  /\ lookup_policy query
     = firstn 8
         (first_by_text (prefix_matches query)
          ++ filter (fun y => negb (collected y (first_by_text (prefix_matches query))))
                    (first_by_text (substring_matches query))).
Proof.
  unfold lookup_policy. split; [apply firstn_le_length |]. split.
  - rewrite <- firstn_map. apply NoDup_firstn. apply first_by_text_NoDup.
  - f_equal. rewrite <- first_by_text_collects, fold_left_app.
    rewrite first_by_text_collects. apply push_new_first_by_text.
Qed.

(** The query ["ku"] finds the headphone suggestion, once. *)
Example getAutocompleteSuggestions_ku :
  getAutocompleteSuggestions (js "ku")
  = Returns [sg "Kulaklık" "fas fa-headphones" "Headphones"].
Proof. vm_compute. reflexivity. Qed.

(** The query ["t"]: the keys it is a prefix of give four suggestions,
    the display texts that contain it add two more. *)
Example getAutocompleteSuggestions_t :
  getAutocompleteSuggestions (js "t")
  = Returns [sg "Telefon" "fas fa-mobile-alt" "Phone";
             sg "Tablet" "fas fa-tablet-alt" "Tablet";
             sg "TV" "fas fa-tv" "TV";
             sg "Televizyon" "fas fa-tv" "TV";
             sg "Laptop" "fas fa-laptop" "Laptop";
             sg "Monitör" "fas fa-desktop" "Monitor"].
Proof. vm_compute. reflexivity. Qed.

(** C8 at queries with pattern syntax in them.  The query ["("] is
    lowercase, trimmed and not empty; building the first pattern from it
    raises.  The query ["."] is the prefix of no key and occurs in no
    display text; the function returns the first eight distinct
    suggestions of the table for it. *)
Theorem getAutocompleteSuggestions_pattern_syntax :
  getAutocompleteSuggestions (js "(") = Throws
  /\ prefix_matches (js ".") = []
  /\ substring_matches (js ".") = []
  /\ lookup_policy (js ".") = []
  /\ exists l,
       getAutocompleteSuggestions (js ".") = Returns l
       /\ map text l
          = [js "Kulaklık"; js "Klavye"; js "Klima"; js "Laptop"; js "Mouse";
             js "Mikrofon"; js "Monitör"; js "Telefon"].
Proof.
  split; [vm_compute; reflexivity |].
  split; [vm_compute; reflexivity |].
  split; [vm_compute; reflexivity |].
  split; [vm_compute; reflexivity |].
  eexists. split; vm_compute; reflexivity.
Qed.

End SuggestionIndex.

(* ----------------------------------------------------------------- *)
(** *** Flow controller *)

Section FlowController.
Import JS Flow Sample.

Lemma final_bind {A B : Type} (m : M A) (k : A -> M B) (s : page) :
  final (bind m k s) = final (k (fst (fst (m s))) (final (m s))).
Proof.
  unfold bind, final. destruct (m s) as [[a s1] e1]. simpl.
  destruct (k a s1) as [[b s2] e2]. reflexivity.
Qed.

Lemma trace_bind {A B : Type} (m : M A) (k : A -> M B) (s : page) :
  trace (bind m k s) = trace (m s) ++ trace (k (fst (fst (m s))) (final (m s))).
Proof.
  unfold bind, final, trace. destruct (m s) as [[a s1] e1]. simpl.
  destruct (k a s1) as [[b s2] e2]. reflexivity.
Qed.

(** **** The single-flight guard *)

(** With the guard set [handleOption] returns at once. *)
Lemma handleOption_guard_busy (opt : jsstring) (s : page) :
  isRequestInProgress (var s) = true ->
  final (handleOption opt s) = s /\ trace (handleOption opt s) = [].
Proof.
  intros H. unfold handleOption, bind, gets. rewrite H. split; reflexivity.
Qed.

(** [askAgent] ends by sending the request built from the session
    variables as they are when it runs; nothing it does before that is a
    request. *)
Lemma askAgent_sends (s : page) :
  exists before timeoutId,
    trace (askAgent s)
    = before ++ [Fetch (next_fetch (env s)) (FetchAsk (request_body (var s)) timeoutId)]
    /\ forall id f, ~ In (Fetch id f) before.
Proof.
  unfold askAgent, bind, gets, localized, bind, gets, when. cbn -[Nat.ltb js].
  destruct (specs_length (var s) <? step (var s))%nat.
  - eexists [_; _; _], _. split; [reflexivity |].
    intros id f [E | [E | [E | []]]]; discriminate E.
  - eexists [_], _. split; [reflexivity |].
    intros id f [E | []]; discriminate E.
Qed.

(** [askAgent] reads the session variables and writes none. *)
Lemma askAgent_var (s : page) : var (final (askAgent s)) = var s.
Proof.
  unfold askAgent, bind, gets, localized, bind, gets, when.
  cbn -[Nat.ltb js].
  destruct (specs_length (var s) <? step (var s))%nat; reflexivity.
Qed.

(** **** Answering *)

(** C3.  With the guard clear, [handleOption opt] writes, in this order:
    the guard, [answers.push(opt)], [step++], and the 300 ms timer for
    [askAgent]; nothing else is written to the session and no request
    goes out in the handler itself.  The page it leaves has [opt]
    appended to [answers] and [step] one higher, and the request that
    [askAgent] sends when that timer runs carries both. *)
Theorem handleOption_push_then_step (opt : jsstring) (s : page) :
  isRequestInProgress (var s) = false ->
  trace (handleOption opt s)
  = [Set_isRequestInProgress true; Push_answers opt; Incr_step;
     SetTimeout (next_timer (env s)) 300 AskAgent]
  /\ answers (var (final (handleOption opt s))) = answers (var s) ++ [opt]
  /\ step (var (final (handleOption opt s))) = S (step (var s))
  /\ exists before timeoutId,
       trace (run_task AskAgent (final (handleOption opt s)))
       = before ++
         [Fetch (next_fetch (env s))
            (FetchAsk {| req_step := S (step (var s));
                         req_category := category (var s);
                         req_answers := answers (var s) ++ [opt];
                         req_language := currentLanguage (var s) |}
                      timeoutId)]
       /\ forall id f, ~ In (Fetch id f) before.
Proof.
  intros H. unfold handleOption, bind, gets. rewrite H.
  split; [reflexivity |]. split; [reflexivity |]. split; [reflexivity |].
  destruct (askAgent_sends (final (handleOption opt s))) as [before [timeoutId [E Hb]]].
  exists before, timeoutId. split; [| exact Hb].
  cbn [run_task]. unfold handleOption, bind, gets in E. rewrite H in E.
  exact E.
Qed.

Lemma handleOption_push_then_step_witness :
  answers (var (final (handleOption (js "Oyun") question_shown))) = [js "Oyun"]
  /\ step (var (final (handleOption (js "Oyun") question_shown))) = 2%nat.
Proof.
  pose proof (handleOption_push_then_step (js "Oyun") question_shown eq_refl)
    as [_ [Ha [Hs _]]].
  split; [exact Ha | exact Hs].
Defined.

(** **** Reset *)

(** From every page, [resetToLanding] leaves [step = 0],
    [category = null], [answers = []], an empty question, no option
    buttons, an empty recommendations panel, an empty error text and an
    empty search box; and running it again on the page it leaves changes
    nothing. *)
Lemma resetToLanding_resets (s : page) :
  step (var (final (resetToLanding s))) = 0%nat
  /\ category (var (final (resetToLanding s))) = None
  /\ answers (var (final (resetToLanding s))) = []
  /\ question_html (doc (final (resetToLanding s))) = []
  /\ option_buttons (doc (final (resetToLanding s))) = []
  /\ recommendations_html (doc (final (resetToLanding s))) = PanelEmpty
  /\ error_text (doc (final (resetToLanding s))) = []
  /\ chatbox_input (ui (final (resetToLanding s))) = []
  /\ final (resetToLanding (final (resetToLanding s))) = final (resetToLanding s).
Proof.
  repeat (split; [reflexivity |]).
  destruct s as [v [l i a [w|] e ld] d u lp]; reflexivity.
Qed.

(** [goToHomePage] resets the three session variables and the search
    box as well, but leaves the question, the option buttons, the
    recommendations panel and the error text as they are. *)
Lemma goToHomePage_resets (s : page) :
  step (var (final (goToHomePage s))) = 0%nat
  /\ category (var (final (goToHomePage s))) = None
  /\ answers (var (final (goToHomePage s))) = []
  /\ chatbox_input (ui (final (goToHomePage s))) = []
  /\ doc (final (goToHomePage s)) = doc s.
Proof.
  repeat split; reflexivity.
Qed.

(** C6 holds of one of the two resets and fails of the other.
    [resetToLanding] (the back button of the recommendations) leaves,
    from every page, [step = 0], [category = null], [answers = []], an
    empty question, no option buttons, an empty recommendations panel,
    an empty error text and an empty search box, and running it twice
    is running it once.  [goToHomePage] (the home button) resets the
    three variables and the search box but writes none of the displayed
    content: from the page that shows the first question, the question
    and its two option buttons are still on the page afterwards, where
    [resetToLanding] leaves none; and so on every page for the
    recommendations panel and the error text. *)
Theorem goToHomePage_keeps_display :
  (forall s,
      step (var (final (resetToLanding s))) = 0%nat
      /\ category (var (final (resetToLanding s))) = None
      /\ answers (var (final (resetToLanding s))) = []
      /\ question_html (doc (final (resetToLanding s))) = []
      /\ option_buttons (doc (final (resetToLanding s))) = []
      /\ recommendations_html (doc (final (resetToLanding s))) = PanelEmpty
      /\ error_text (doc (final (resetToLanding s))) = []
      /\ chatbox_input (ui (final (resetToLanding s))) = []
      /\ final (resetToLanding (final (resetToLanding s))) = final (resetToLanding s))
  /\ (forall s,
        step (var (final (goToHomePage s))) = 0%nat
        /\ category (var (final (goToHomePage s))) = None
        /\ answers (var (final (goToHomePage s))) = []
        /\ chatbox_input (ui (final (goToHomePage s))) = []
        /\ question_html (doc (final (goToHomePage s))) = question_html (doc s)
        /\ option_buttons (doc (final (goToHomePage s))) = option_buttons (doc s)
        /\ recommendations_html (doc (final (goToHomePage s))) = recommendations_html (doc s)
        /\ error_text (doc (final (goToHomePage s))) = error_text (doc s))
  /\ react ClickHome question_shown = goToHomePage question_shown
  /\ question_html (doc (final (goToHomePage question_shown))) = js "Kullanım amacı?"
  /\ map btn_text (option_buttons (doc (final (goToHomePage question_shown))))
     = [js "Müzik"; js "Oyun"]
  /\ question_html (doc (final (resetToLanding question_shown))) = []
  /\ option_buttons (doc (final (resetToLanding question_shown))) = [].
Proof.
  split; [exact resetToLanding_resets |].
  split; [intros s; repeat split; reflexivity |].
  split; [reflexivity |].
  split; [vm_compute; reflexivity |].
  split; [vm_compute; reflexivity |].
  split; reflexivity.
Qed.

(** **** Rendering recommendations *)

(** C10.  For [null], [undefined], a value that is not an array, and
    the empty array, [renderRecommendations] puts the "no products
    found" message in the recommendations panel; the embedding has no
    exceptional outcome, so on a page that has the elements it writes the
    function returns.  For every argument the session variables, [step],
    [category] and [answers] among them, are left as they were. *)
Theorem renderRecommendations_nothing (recs : jsval) (s : page) :
  ((recs = JNull \/ recs = JUndefined \/ (forall l, recs <> JArray l) \/ recs = JArray [])
   -> recommendations_html (doc (final (renderRecommendations recs s))) = PanelNoProducts)
  /\ var (final (renderRecommendations recs s)) = var s
  /\ step (var (final (renderRecommendations recs s))) = step (var s)
  /\ category (var (final (renderRecommendations recs s))) = category (var s)
  /\ answers (var (final (renderRecommendations recs s))) = answers (var s).
Proof.
  assert (V : var (final (renderRecommendations recs s)) = var s).
  { unfold renderRecommendations, bind, localized, bind, gets.
    destruct (nothing_to_render recs); reflexivity. }
  split; [| rewrite V; repeat split; reflexivity].
  intros H.
  assert (N : nothing_to_render recs = true).
  { destruct H as [-> | [-> | [H | ->]]]; try reflexivity.
    destruct recs as [| | b | q | t | | l]; try reflexivity.
    - unfold nothing_to_render. destruct (truthy (JBool b)); reflexivity.
    - unfold nothing_to_render. destruct (truthy (JNumber q)); reflexivity.
    - unfold nothing_to_render. destruct (truthy (JString t)); reflexivity.
    - exfalso. exact (H l eq_refl). }
  unfold renderRecommendations, bind, localized, bind, gets.
  rewrite N. reflexivity.
Qed.

Lemma renderRecommendations_nothing_witness :
  recommendations_html (doc (final (renderRecommendations (JString (js "none")) question_shown)))
  = PanelNoProducts.
Proof.
  apply (proj1 (renderRecommendations_nothing (JString (js "none")) question_shown)).
  right; right; left. intros l; discriminate.
Defined.

(** **** Response dispatch *)

Lemma find_first {A : Type} (f : A -> bool) (l : list A) (x : A) :
  find f l = Some x ->
  f x = true
  /\ exists earlier later,
       l = earlier ++ x :: later /\ forall y, In y earlier -> f y = false.
Proof.
  induction l as [|a l IH]; simpl; [discriminate |].
  destruct (f a) eqn:E.
  - intros [= <-]. split; [exact E |]. exists [], l. split; [reflexivity |].
    intros y [].
  - intros H. destruct (IH H) as [Hx [earlier [later [-> Hy]]]].
    split; [exact Hx |]. exists (a :: earlier), later. split; [reflexivity |].
    intros y [<- | Hin]; [exact E | exact (Hy y Hin)].
Qed.

















(** A payload that has a question with options, a tagged
    recommendation list and an error flag at once is handled as a
    question only. *)
Example askAgent_then_overlap :
  filter seen (trace (askAgent_then 0
    {| question := Some (js "Renk?"); options := Some [js "Siyah"];
       emoji := None; tooltip := None;
       type := Some (js "modern_recommendation");
       recommendations := JArray []; categories := Some [];
       error := JBool true; fallback_recommendations := JArray [];
       message := None |} start))
  = [RenderQuestion (js "Renk?") [js "Siyah"]].
Proof. reflexivity. Qed.

(** The page it leaves holds the question and its button, an empty
    recommendations panel, no banner and a hidden error screen. *)
Example askAgent_then_overlap_page :
  let s' := final (askAgent_then 0
    {| question := Some (js "Renk?"); options := Some [js "Siyah"];
       emoji := None; tooltip := None;
       type := Some (js "modern_recommendation");
       recommendations := JArray []; categories := Some [];
       error := JBool true; fallback_recommendations := JArray [];
       message := None |} start) in
  question_html (doc s') = js "Renk?"
  /\ map btn_text (option_buttons (doc s')) = [js "Siyah"]
  /\ recommendations_html (doc s') = PanelEmpty
  /\ info_messages (ui s') = []
  /\ error_screen (scr s') = DisplayNone.
Proof. repeat split; reflexivity. Qed.


(** **** Late responses *)





(** **** The session invariant *)

(** C5, as the code has it.  From a page that satisfies the invariant,
    a detected category, a chosen category, a reset and a return to the
    home page all leave a page that satisfies it; an answer does so when
    a flow is active ([step > 0]) or the guard is set. *)
Theorem session_ok_preserved (s : page) :
  session_ok (var s) ->
  (forall c, truthy_string c = true ->
             session_ok (var (final (handleChatboxEntry_then c s))))
  /\ (forall c, session_ok (var (final (startInteraction c s))))
  /\ (forall opt, (0 < step (var s))%nat \/ isRequestInProgress (var s) = true ->
                  session_ok (var (final (handleOption opt s))))
  /\ session_ok (var (final (resetToLanding s)))
  /\ session_ok (var (final (goToHomePage s))).
Proof.
  intros Hs. split; [| split; [| split; [| split]]].
  - intros c Hc _. unfold handleChatboxEntry_then. rewrite Hc.
    repeat (rewrite final_bind; cbv beta). rewrite askAgent_var.
    destruct c as [c|]; [| discriminate Hc].
    split; [intros E; cbv in E; discriminate E | reflexivity].
  - intros c _. unfold startInteraction.
    repeat (rewrite final_bind; cbv beta). rewrite askAgent_var.
    destruct s as [[lang cc cqi tq st cat ans busy [specs|] tip] sc d u lp];
      [destruct (prop c specs) eqn:P |].
    + split; [intros E; cbv -[prop] in E; rewrite P in E; discriminate E |].
      cbv -[prop]. rewrite P. reflexivity.
    + split; [intros E; cbv -[prop] in E; rewrite P in E; discriminate E |].
      cbv -[prop]. rewrite P. reflexivity.
    + split; [intros E; cbv in E; discriminate E | reflexivity].
  - intros opt Hopt Hpos'.
    destruct (isRequestInProgress (var s)) eqn:G.
    + rewrite (proj1 (handleOption_guard_busy opt s G)) in *. exact (Hs Hpos').
    + destruct Hopt as [Hpos | Hbusy]; [| discriminate Hbusy].
      destruct (Hs Hpos) as [Hc Hl].
      unfold handleOption, bind, gets. rewrite G. split; [exact Hc |].
      change (List.length (answers (var s) ++ [opt]) = (S (step (var s)) - 1)%nat).
      rewrite length_app. simpl. lia.
  - intros H. exfalso. revert H. apply Nat.lt_irrefl.
  - intros H. exfalso. revert H. apply Nat.lt_irrefl.
Qed.

Lemma session_ok_preserved_witness :
  session_ok (var (final (handleOption (js "Oyun") question_shown))).
Proof.
  refine (proj1 (proj2 (proj2 (session_ok_preserved question_shown _))) (js "Oyun") _).
  - intros _. split; [discriminate | reflexivity].
  - left. vm_compute. lia.
Defined.

(** The claim as stated fails for an answer given while no flow is
    active.  The user leaves for the home page while the first request
    is in flight; its response then renders a question; clicking an
    option reaches [handleOption] with [step = 0] and [category = null]
    and leaves [step = 1] with [category] still [null] and one answer
    recorded. *)
Lemma answer_without_flow_breaks_session_ok :
  session_ok (var question_after_home)
  /\ react (ClickOption (js "Müzik")) question_after_home
     = handleOption (js "Müzik") question_after_home
  /\ step (var (final (handleOption (js "Müzik") question_after_home))) = 1%nat
  /\ category (var (final (handleOption (js "Müzik") question_after_home))) = None
  /\ answers (var (final (handleOption (js "Müzik") question_after_home))) = [js "Müzik"]
  /\ ~ session_ok (var (final (handleOption (js "Müzik") question_after_home))).
Proof.
  split; [intros H; vm_compute in H; lia |].
  split; [vm_compute; reflexivity |].
  split; [vm_compute; reflexivity |].
  split; [vm_compute; reflexivity |].
  split; [vm_compute; reflexivity |].
  intros H.
  assert (P : (0 < step (var (final (handleOption (js "Müzik") question_after_home))))%nat)
    by (vm_compute; lia).
  destruct (H P) as [Hc _]. apply Hc. vm_compute. reflexivity.
Qed.

(** **** The 45 s timer *)

(** The callback does nothing unless the guard is set. *)
Lemma askAgent_timeout_guard_clear (s : page) :
  isRequestInProgress (var s) = false ->
  askAgent_timeout s = (tt, s, []).
Proof.
  intros H. unfold askAgent_timeout, bind, gets. rewrite H. reflexivity.
Qed.

(** With the guard set it clears the guard, hides the overlays and shows
    the error screen, once. *)
Lemma askAgent_timeout_guard_set (s : page) :
  isRequestInProgress (var s) = true ->
  trace (askAgent_timeout s) = [Set_isRequestInProgress false; ShowErrorScreen]
  /\ isRequestInProgress (var (final (askAgent_timeout s))) = false
  /\ error_screen (scr (final (askAgent_timeout s))) = DisplayFlex
  /\ ai_creation_screen (scr (final (askAgent_timeout s))) = DisplayNone
  /\ (forall d html, loading (scr s) = Some (d, html) ->
        loading (scr (final (askAgent_timeout s))) = Some (DisplayNone, html)).
Proof.
  intros H.
  destruct s as [v [l i a [w|] e [[d0 h0]|]] dc u lp]; cbn [var] in H;
    unfold askAgent_timeout, bind, gets; cbn [var]; rewrite H;
    (do 4 (split; [reflexivity |])); intros d html L; cbn in L;
    try discriminate L; injection L as _ <-; reflexivity.
Qed.

(** Neither way of starting a flow sets the guard. *)
Lemma startInteraction_guard (c : jsstring) (s : page) :
  isRequestInProgress (var (final (startInteraction c s))) = isRequestInProgress (var s).
Proof.
  unfold startInteraction. repeat (rewrite final_bind; cbv beta). rewrite askAgent_var.
  destruct s as [[lang cc cqi tq st cat ans busy [specs|] tip] sc d u lp];
    [destruct (prop c specs) eqn:P |].
  - cbv -[prop]. rewrite P. reflexivity.
  - cbv -[prop]. rewrite P. reflexivity.
  - reflexivity.
Qed.

Lemma handleChatboxEntry_then_guard (c : option jsstring) (s : page) :
  isRequestInProgress (var (final (handleChatboxEntry_then c s)))
  = isRequestInProgress (var s).
Proof.
  unfold handleChatboxEntry_then. destruct (truthy_string c).
  - repeat (rewrite final_bind; cbv beta). rewrite askAgent_var. reflexivity.
  - reflexivity.
Qed.

(** The handlers of a settled request begin by cancelling its timer and
    clearing the guard. *)
Lemma askAgent_then_cancels (timeoutId : nat) (data : ask_response) (s : page) :
  exists rest,
    trace (askAgent_then timeoutId data s)
    = ClearTimeout timeoutId :: Set_isRequestInProgress false :: rest.
Proof.
  unfold askAgent_then. rewrite trace_bind. cbv beta. rewrite trace_bind.
  eexists. reflexivity.
Qed.

Lemma askAgent_catch_cancels (timeoutId : nat) (s : page) :
  trace (askAgent_catch timeoutId s)
  = [ClearTimeout timeoutId; Set_isRequestInProgress false; ShowErrorScreen]
  /\ isRequestInProgress (var (final (askAgent_catch timeoutId s))) = false
  /\ error_screen (scr (final (askAgent_catch timeoutId s))) = DisplayFlex.
Proof.
  repeat split; reflexivity.
Qed.

(** C4 on the first request of a flow.  After a click on a category
    card, and after a detected category, the request is in flight, its
    45 s timer is pending and the guard is clear.  When the timer fires
    with no response, its callback does nothing: no trace, the error
    screen still hidden, the loading indicator still shown, the request
    still awaited. *)
Theorem first_request_timeout_silent :
  (isRequestInProgress (var first_request_sent) = false
   /\ timers (env first_request_sent)
      = [{| timer_id := 0; delay := 45000; job := AskTimeout |}]
   /\ fetch_of 0 (fetches (env first_request_sent)) <> None
   /\ trace (react (TimerFires 0) first_request_sent) = []
   /\ error_screen (scr (final (react (TimerFires 0) first_request_sent))) = DisplayNone
   /\ loading (scr (final (react (TimerFires 0) first_request_sent)))
      = Some (DisplayBlock, js "Yükleniyor...")
   /\ fetch_of 0 (fetches (env (final (react (TimerFires 0) first_request_sent)))) <> None)
  /\
  (isRequestInProgress (var detected) = false
   /\ In {| timer_id := 2; delay := 45000; job := AskTimeout |} (timers (env detected))
   /\ fetch_of 1 (fetches (env detected)) <> None
   /\ trace (react (TimerFires 2) detected) = []
   /\ error_screen (scr (final (react (TimerFires 2) detected))) = DisplayNone
   /\ loading (scr (final (react (TimerFires 2) detected)))
      = Some (DisplayBlock, js "Yükleniyor...")
   /\ fetch_of 1 (fetches (env (final (react (TimerFires 2) detected)))) <> None).
Proof.
  split.
  - repeat (split; [vm_compute; first [reflexivity | discriminate] |]).
    vm_compute; discriminate.
  - split; [vm_compute; reflexivity |].
    split; [vm_compute; auto |].
    repeat (split; [vm_compute; first [reflexivity | discriminate] |]).
    vm_compute; discriminate.
Qed.

(** The same for every page with the guard clear and every category. *)
Lemma first_request_unguarded (c : jsstring) (s : page) :
  isRequestInProgress (var s) = false ->
  askAgent_timeout (final (startInteraction c s))
  = (tt, final (startInteraction c s), []).
Proof.
  intros H. apply askAgent_timeout_guard_clear.
  rewrite startInteraction_guard. exact H.
Qed.

(** **** One request at a time while answering *)

Lemma calm_refl (s : page) : calm s s.
Proof. split; [reflexivity | apply Nat.le_refl]. Qed.

Lemma calm_trans (s1 s2 s3 : page) : calm s1 s2 -> calm s2 s3 -> calm s1 s3.
Proof.
  intros [F1 L1] [F2 L2]. split; [congruence | eapply Nat.le_trans; eassumption].
Qed.

Lemma Calm_ret {A : Type} (a : A) : Calm (ret a).
Proof. intros s. apply calm_refl. Qed.

Lemma Calm_gets {A : Type} (f : page -> A) : Calm (gets f).
Proof. intros s. apply calm_refl. Qed.

Lemma Calm_emit (e : event) : Calm (emit e).
Proof. intros s. apply calm_refl. Qed.

Lemma Calm_modify (f : page -> page) :
  (forall s, env (f s) = env s) -> Calm (modify f).
Proof.
  intros H s. unfold calm, scheduled. cbn [final modify fst snd].
  rewrite H. split; [reflexivity | apply Nat.le_refl].
Qed.

Lemma Calm_bind {A B : Type} (m : M A) (k : A -> M B) :
  Calm m -> (forall a, Calm (k a)) -> Calm (bind m k).
Proof.
  intros Hm Hk s. rewrite final_bind.
  exact (calm_trans _ _ _ (Hm s) (Hk _ _)).
Qed.

Lemma Calm_if {A : Type} (b : bool) (m1 m2 : M A) :
  Calm m1 -> Calm m2 -> Calm (if b then m1 else m2).
Proof. destruct b; auto. Qed.

Lemma filter_snoc_false {A : Type} (f : A -> bool) (l : list A) (x : A) :
  f x = false -> filter f (l ++ [x]) = filter f l.
Proof.
  intros H. rewrite filter_app. cbn [filter]. rewrite H. apply app_nil_r.
Qed.

Lemma Calm_setTimeout (ms : N) (t : task) :
  is_scheduled {| timer_id := 0; delay := ms; job := t |} = false ->
  Calm (setTimeout ms t).
Proof.
  intros H s. unfold calm, scheduled. split; [reflexivity |].
  change (timers (env (final (setTimeout ms t s))))
    with (timers (env s)
          ++ [{| timer_id := next_timer (env s); delay := ms; job := t |}]).
  rewrite filter_snoc_false; [apply Nat.le_refl | exact H].
Qed.

Lemma filter_length_le {A : Type} (f : A -> bool) (l : list A) :
  (List.length (filter f l) <= List.length l)%nat.
Proof.
  induction l as [|x l IH]; cbn [filter List.length]; [apply Nat.le_refl |].
  destruct (f x); cbn [List.length]; lia.
Qed.

Lemma without_timer_scheduled (id : nat) (ts : list timer) :
  (List.length (filter is_scheduled (without_timer id ts))
   <= List.length (filter is_scheduled ts))%nat.
Proof.
  unfold without_timer.
  induction ts as [|t ts IH]; cbn [filter]; [apply Nat.le_refl |].
  destruct (negb (timer_id t =? id)%nat); cbn [filter];
    destruct (is_scheduled t); cbn [List.length]; lia.
Qed.

Lemma Calm_clearTimeout (id : nat) : Calm (clearTimeout id).
Proof.
  intros s. unfold calm, scheduled. split; [reflexivity |].
  apply without_timer_scheduled.
Qed.

Create HintDb calm.
#[local] Hint Resolve Calm_ret Calm_gets Calm_emit Calm_bind Calm_if
  Calm_clearTimeout : calm.
#[local] Hint Extern 1 (Calm (modify _)) =>
  apply Calm_modify; intros; reflexivity : calm.
#[local] Hint Extern 1 (Calm (setTimeout _ _)) =>
  apply Calm_setTimeout; reflexivity : calm.
#[local] Hint Extern 2 (Calm (when _ _)) => unfold when : calm.

Ltac calm_by_parts := intros; auto 30 with calm.

Lemma Calm_hideAICreationScreen : Calm hideAICreationScreen.
Proof. unfold hideAICreationScreen. calm_by_parts. Qed.

Lemma Calm_showErrorScreen : Calm showErrorScreen.
Proof. unfold showErrorScreen. calm_by_parts. Qed.

Lemma Calm_hideLoadingScreen : Calm hideLoadingScreen.
Proof. unfold hideLoadingScreen. calm_by_parts. Qed.

Lemma Calm_localized (a b : jsstring) : Calm (localized a b).
Proof. unfold localized. calm_by_parts. Qed.

Lemma Calm_showInfoMessage (m : jsstring) : Calm (showInfoMessage m).
Proof. unfold showInfoMessage. calm_by_parts. Qed.

#[local] Hint Resolve Calm_hideAICreationScreen Calm_showErrorScreen
  Calm_hideLoadingScreen Calm_localized Calm_showInfoMessage : calm.

Lemma Calm_renderQuestion (q : jsstring) (opts : list jsstring) (e : jsstring) :
  Calm (renderQuestion q opts e).
Proof.
  unfold renderQuestion, updateQuestionProgress, updateQuestionIcon,
    updateQuestionTooltip. calm_by_parts.
Qed.

Lemma Calm_renderRecommendations (recs : jsval) : Calm (renderRecommendations recs).
Proof. unfold renderRecommendations. calm_by_parts. Qed.

Lemma Calm_renderLanding (cats : list jsstring) : Calm (renderLanding cats).
Proof. unfold renderLanding. calm_by_parts. Qed.

#[local] Hint Resolve Calm_renderQuestion Calm_renderRecommendations
  Calm_renderLanding : calm.

Lemma Calm_askAgent_then (timeoutId : nat) (data : ask_response) :
  Calm (askAgent_then timeoutId data).
Proof.
  unfold askAgent_then, assign_isRequestInProgress. calm_by_parts.
Qed.

Lemma Calm_askAgent_catch (timeoutId : nat) : Calm (askAgent_catch timeoutId).
Proof. unfold askAgent_catch, assign_isRequestInProgress. calm_by_parts. Qed.

Lemma Calm_askAgent_timeout : Calm askAgent_timeout.
Proof. unfold askAgent_timeout, assign_isRequestInProgress. calm_by_parts. Qed.

Lemma Calm_resetToLanding : Calm resetToLanding.
Proof.
  unfold resetToLanding, hideErrorScreen, assign_step, assign_category,
    assign_answers_empty. calm_by_parts.
Qed.

Lemma Calm_goToHomePage : Calm goToHomePage.
Proof.
  unfold goToHomePage, hideErrorScreen, assign_step, assign_category,
    assign_answers_empty. calm_by_parts.
Qed.

Lemma Calm_fadeInfoMessage (banner : nat) : Calm (fadeInfoMessage banner).
Proof. unfold fadeInfoMessage. calm_by_parts. Qed.

Lemma Calm_removeInfoMessage (banner : nat) : Calm (removeInfoMessage banner).
Proof. unfold removeInfoMessage. calm_by_parts. Qed.

Lemma Still_ret {A : Type} (a : A) : Still (ret a).
Proof. intros s. reflexivity. Qed.

Lemma Still_gets {A : Type} (f : page -> A) : Still (gets f).
Proof. intros s. reflexivity. Qed.

Lemma Still_emit (e : event) : Still (emit e).
Proof. intros s. reflexivity. Qed.

Lemma Still_modify (f : page -> page) :
  (forall s, option_buttons (doc (f s)) = option_buttons (doc s)) -> Still (modify f).
Proof. intros H s. apply H. Qed.

Lemma Still_bind {A B : Type} (m : M A) (k : A -> M B) :
  Still m -> (forall a, Still (k a)) -> Still (bind m k).
Proof.
  intros Hm Hk s. rewrite final_bind, Hk. apply Hm.
Qed.

Lemma Still_if {A : Type} (b : bool) (m1 m2 : M A) :
  Still m1 -> Still m2 -> Still (if b then m1 else m2).
Proof. destruct b; auto. Qed.

Lemma Still_setTimeout (ms : N) (t : task) : Still (setTimeout ms t).
Proof. intros s. reflexivity. Qed.

Lemma Still_fetch (f : fetch) : Still (fetch_ f).
Proof. intros s. reflexivity. Qed.

Create HintDb still.
#[local] Hint Resolve Still_ret Still_gets Still_emit Still_bind Still_if
  Still_setTimeout Still_fetch : still.
#[local] Hint Extern 1 (Still (modify _)) =>
  apply Still_modify; intros; reflexivity : still.
#[local] Hint Extern 2 (Still (when _ _)) => unfold when : still.

Ltac still_by_parts := intros; auto 30 with still.

Lemma Still_askAgent : Still askAgent.
Proof. unfold askAgent, localized, showAICreationScreen. still_by_parts. Qed.

Lemma Still_askAgent_timeout : Still askAgent_timeout.
Proof.
  unfold askAgent_timeout, assign_isRequestInProgress, hideAICreationScreen,
    hideLoadingScreen, showErrorScreen. still_by_parts.
Qed.

Lemma Still_showInfoMessage (m : jsstring) : Still (showInfoMessage m).
Proof. unfold showInfoMessage. still_by_parts. Qed.

Lemma Still_fadeInfoMessage (banner : nat) : Still (fadeInfoMessage banner).
Proof. unfold fadeInfoMessage. still_by_parts. Qed.

Lemma Still_removeInfoMessage (banner : nat) : Still (removeInfoMessage banner).
Proof. unfold removeInfoMessage. still_by_parts. Qed.

Lemma Still_goToHomePage : Still goToHomePage.
Proof.
  unfold goToHomePage, hideErrorScreen, hideAICreationScreen, hideLoadingScreen,
    assign_step, assign_category, assign_answers_empty, localized.
  still_by_parts.
Qed.

(** What [askAgent] leaves with the browser: one more request, no
    [askAgent] timer. *)
Lemma askAgent_footprint (s : page) :
  in_flight (final (askAgent s)) = S (in_flight s)
  /\ scheduled (final (askAgent s)) = scheduled s
  /\ (forallb is_ask (fetches (env s)) = true ->
      forallb is_ask (fetches (env (final (askAgent s)))) = true).
Proof.
  unfold in_flight, scheduled.
  unfold askAgent, bind, gets, localized, bind, gets, when.
  cbn -[Nat.ltb js filter forallb].
  destruct (specs_length (var s) <? step (var s))%nat;
    cbn -[js filter forallb];
    rewrite ?filter_app, ?forallb_app, ?length_app; cbn [filter forallb is_ask is_scheduled snd job List.length app];
    (split; [lia |]); (split; [lia |]); intros ->; reflexivity.
Qed.

Lemma single_flight_calm (s s' : page) :
  single_flight s -> calm s s' ->
  option_buttons (doc s') = option_buttons (doc s) ->
  single_flight s'.
Proof.
  intros [Hle [Hdis Hask]] [Hf Hs] Hb.
  unfold single_flight, in_flight, all_disabled in *. rewrite Hf, Hb.
  split; [lia |]. split; [| exact Hask].
  intros E. apply Hdis. lia.
Qed.

Lemma single_flight_idle (s s' : page) :
  forallb is_ask (fetches (env s)) = true ->
  (in_flight s + scheduled s = 0)%nat -> calm s s' -> single_flight s'.
Proof.
  intros Hask Hz [Hf Hs].
  unfold single_flight, in_flight in *. rewrite Hf.
  split; [lia |]. split; [intros E; lia | exact Hask].
Qed.

Lemma clickable_not_all_disabled (opt : jsstring) (bs : list button) :
  existsb (fun b => str_eqb (btn_text b) opt && negb (btn_disabled b)) bs = true ->
  forallb btn_disabled bs = false.
Proof.
  induction bs as [|b bs IH]; cbn [existsb forallb]; [discriminate |].
  destruct (btn_disabled b); cbn [negb andb orb].
  - rewrite andb_false_r. exact IH.
  - reflexivity.
Qed.

Lemma mark_chosen_disabled (opt : jsstring) (bs : list button) :
  forallb btn_disabled bs = true -> forallb btn_disabled (mark_chosen opt bs) = true.
Proof.
  induction bs as [|b bs IH]; cbn [mark_chosen forallb]; [reflexivity |].
  rewrite andb_true_iff. intros [Hb Hbs].
  destruct (str_eqb (btn_text b) opt); cbn [forallb btn_disabled].
  - rewrite Hb, Hbs. reflexivity.
  - rewrite Hb, (IH Hbs). reflexivity.
Qed.

Lemma disable_all (bs : list button) : forallb btn_disabled (map disable bs) = true.
Proof. induction bs as [|b bs IH]; [reflexivity | exact IH]. Qed.

Lemma fetch_of_In (id : nat) (fs : list (nat * fetch)) (f : fetch) :
  fetch_of id fs = Some f -> In (id, f) fs.
Proof.
  induction fs as [|[i g] fs IH]; cbn [fetch_of]; [discriminate |].
  destruct (Nat.eqb_spec i id) as [-> | Hne].
  - intros [= ->]. left. reflexivity.
  - intros H. right. exact (IH H).
Qed.

Lemma settled_ask_gone (id : nat) (fs : list (nat * fetch)) (f : fetch) :
  In (id, f) fs -> is_ask (id, f) = true ->
  (List.length (filter is_ask (filter (fun p => negb (fst p =? id)%nat) fs))
   < List.length (filter is_ask fs))%nat.
Proof.
  induction fs as [|p fs IH]; intros Hin Hf; [contradiction |].
  assert (Hle : (List.length (filter is_ask (filter (fun p => negb (fst p =? id)%nat) fs))
                 <= List.length (filter is_ask fs))%nat).
  { clear. induction fs as [|q fs IH]; cbn [filter]; [apply Nat.le_refl |].
    destruct (negb (fst q =? id)%nat); cbn [filter];
      destruct (is_ask q); cbn [List.length]; lia. }
  destruct Hin as [-> | Hin].
  - cbn [filter fst]. rewrite Nat.eqb_refl. cbn [negb]. rewrite Hf.
    cbn [List.length]. lia.
  - specialize (IH Hin Hf). cbn [filter].
    destruct (negb (fst p =? id)%nat); cbn [filter];
      destruct (is_ask p); cbn [List.length]; lia.
Qed.

Lemma fired_schedule_gone (id : nat) (ts : list timer) (t : timer) :
  find (fun t0 => (timer_id t0 =? id)%nat) ts = Some t -> is_scheduled t = true ->
  (List.length (filter is_scheduled (without_timer id ts))
   < List.length (filter is_scheduled ts))%nat.
Proof.
  unfold without_timer.
  induction ts as [|t0 ts IH]; cbn [find]; [discriminate |].
  pose proof (without_timer_scheduled id ts) as Hle. unfold without_timer in Hle.
  destruct (timer_id t0 =? id)%nat eqn:E.
  - intros [= ->] Ht. cbn [filter]. rewrite E. cbn [negb]. rewrite Ht.
    cbn [List.length]. lia.
  - intros Hfind Ht. specialize (IH Hfind Ht). cbn [filter]. rewrite E.
    cbn [negb filter]. destruct (is_scheduled t0); cbn [List.length]; lia.
Qed.

Lemma forallb_filter {A : Type} (f g : A -> bool) (l : list A) :
  forallb f l = true -> forallb f (filter g l) = true.
Proof.
  induction l as [|x l IH]; cbn [forallb filter]; [reflexivity |].
  rewrite andb_true_iff. intros [Hx Hl].
  destruct (g x); cbn [forallb]; [rewrite Hx |]; exact (IH Hl).
Qed.

Lemma single_flight_handleOption (opt : jsstring) (s : page) :
  single_flight s -> all_disabled s = false ->
  single_flight (final (handleOption opt s)).
Proof.
  intros Hs Hen. destruct (isRequestInProgress (var s)) eqn:G.
  - rewrite (proj1 (handleOption_guard_busy opt s G)). exact Hs.
  - destruct Hs as [Hle [Hdis Hask]].
    assert (Hz : (in_flight s + scheduled s = 0)%nat).
    { destruct (Nat.eq_dec (in_flight s + scheduled s) 1) as [E | E].
      - rewrite (Hdis E) in Hen. discriminate Hen.
      - lia. }
    unfold handleOption, bind, gets. rewrite G.
    unfold single_flight, in_flight, scheduled, all_disabled in *.
    cbn -[js filter forallb mark_chosen].
    rewrite filter_app, length_app. cbn [filter is_scheduled job List.length].
    rewrite (mark_chosen_disabled opt _ (disable_all _)).
    split; [lia |]. split; [reflexivity | exact Hask].
Qed.

Lemma single_flight_timer_fires (id : nat) (s : page) :
  single_flight s -> single_flight (final (timer_fires id s)).
Proof.
  intros Hs. unfold timer_fires. rewrite final_bind. cbn [gets fst snd final].
  destruct (find (fun t => (timer_id t =? id)%nat) (timers (env s))) as [t|] eqn:F;
    [| exact Hs].
  rewrite final_bind. cbn [modify fst snd final].
  set (s1 := on_env (set_timers (without_timer id (timers (env s)))) s).
  assert (C1 : calm s s1).
  { split; [reflexivity | apply without_timer_scheduled]. }
  assert (B1 : option_buttons (doc s1) = option_buttons (doc s)) by reflexivity.
  destruct (job t) eqn:J; cbn [run_task].
  - (* the deferred [askAgent] *)
    assert (Ht : is_scheduled t = true) by (unfold is_scheduled; rewrite J; reflexivity).
    pose proof (fired_schedule_gone id _ t F Ht) as Hlt.
    destruct Hs as [Hle [Hdis Hask]].
    destruct (askAgent_footprint s1) as [Hin [Hsc Hfa]].
    unfold single_flight. rewrite Hin, Hsc.
    change (in_flight s1) with (in_flight s).
    unfold all_disabled. rewrite (Still_askAgent s1), B1.
    assert (S1 : scheduled s1 = 0%nat).
    { unfold scheduled in *. change (timers (env s1)) with (without_timer id (timers (env s))).
      lia. }
    assert (I0 : in_flight s = 0%nat) by (unfold scheduled in *; lia).
    rewrite S1, I0. split; [lia |]. split.
    + intros _. apply Hdis. unfold scheduled in *. lia.
    + apply Hfa. exact Hask.
  - apply (single_flight_calm s); [exact Hs | | ].
    + exact (calm_trans _ _ _ C1 (Calm_askAgent_timeout s1)).
    + rewrite (Still_askAgent_timeout s1). exact B1.
  - apply (single_flight_calm s); [exact Hs | | reflexivity].
    apply (calm_trans _ _ _ C1). split; [reflexivity | apply Nat.le_refl].
  - apply (single_flight_calm s); [exact Hs | | ].
    + exact (calm_trans _ _ _ C1 (Calm_showInfoMessage m s1)).
    + rewrite (Still_showInfoMessage m s1). exact B1.
  - apply (single_flight_calm s); [exact Hs | | ].
    + exact (calm_trans _ _ _ C1 (Calm_fadeInfoMessage banner s1)).
    + rewrite (Still_fadeInfoMessage banner s1). exact B1.
  - apply (single_flight_calm s); [exact Hs | | ].
    + exact (calm_trans _ _ _ C1 (Calm_removeInfoMessage banner s1)).
    + rewrite (Still_removeInfoMessage banner s1). exact B1.
Qed.

Lemma single_flight_ask_settles (id : nat) (r : option ask_response) (s : page) :
  single_flight s -> single_flight (final (ask_settles id r s)).
Proof.
  intros Hs. unfold ask_settles. rewrite final_bind. cbn [gets fst snd final].
  destruct (fetch_of id (fetches (env s))) as [[q | body timeoutId]|] eqn:F;
    try exact Hs.
  rewrite final_bind.
  set (s1 := final (settle id s)).
  destruct Hs as [Hle [Hdis Hask]].
  pose proof (settled_ask_gone id _ _ (fetch_of_In _ _ _ F) eq_refl) as Hlt.
  assert (A1 : forallb is_ask (fetches (env s1)) = true).
  { apply forallb_filter. exact Hask. }
  assert (Z1 : (in_flight s1 + scheduled s1 = 0)%nat).
  { unfold in_flight, scheduled in *.
    change (fetches (env s1))
      with (filter (fun p => negb (fst p =? id)%nat) (fetches (env s))).
    change (timers (env s1)) with (timers (env s)). lia. }
  destruct r as [data|].
  - exact (single_flight_idle s1 _ A1 Z1 (Calm_askAgent_then timeoutId data s1)).
  - exact (single_flight_idle s1 _ A1 Z1 (Calm_askAgent_catch timeoutId s1)).
Qed.

Lemma single_flight_detect_settles (id : nat) (r : option (option jsstring)) (s : page) :
  single_flight s -> single_flight (final (detect_settles id r s)).
Proof.
  intros Hs. unfold detect_settles. rewrite final_bind. cbn [gets fst snd final].
  destruct (fetch_of id (fetches (env s))) as [[q | body timeoutId]|] eqn:F;
    try exact Hs.
  exfalso. destruct Hs as [_ [_ Hask]].
  pose proof (proj1 (forallb_forall _ _) Hask _ (fetch_of_In _ _ _ F)) as H.
  discriminate H.
Qed.

(** Each input of a flow that is being answered keeps at most one
    request under way. *)
Lemma single_flight_react (i : input) (s : page) :
  answering i = true -> single_flight s -> single_flight (final (react i s)).
Proof.
  intros Hi Hs. destruct i as [cat | | opt | | | banner | id | id r | id r];
    try discriminate Hi; cbn [react].
  - (* an option button *)
    rewrite final_bind. cbn [gets fst snd final]. unfold when.
    destruct (shown (interaction (scr s))); cbn [andb]; [| exact Hs].
    destruct (existsb _ (option_buttons (doc s))) eqn:C; [| exact Hs].
    apply single_flight_handleOption; [exact Hs |].
    exact (clickable_not_all_disabled opt _ C).
  - (* the back button *)
    rewrite final_bind. cbn [gets fst snd final]. unfold when.
    destruct (recommendations_html (doc s)); try exact Hs.
    destruct Hs as [Hle [Hdis Hask]].
    destruct (Calm_resetToLanding s) as [Hf Hsc].
    unfold single_flight, in_flight, all_disabled in *. rewrite Hf.
    split; [lia |]. split; [intros _; reflexivity | exact Hask].
  - (* home *)
    exact (single_flight_calm s _ Hs (Calm_goToHomePage s) (Still_goToHomePage s)).
  - (* a banner *)
    exact (single_flight_calm s _ Hs (Calm_fadeInfoMessage banner s)
             (Still_fadeInfoMessage banner s)).
  - apply single_flight_timer_fires. exact Hs.
  - apply single_flight_ask_settles. exact Hs.
  - apply single_flight_detect_settles. exact Hs.
Qed.

(** From a page with at most one request under way, whatever the user
    and the network do short of starting a new flow, at most one [/ask]
    request is in flight or about to be sent at every moment. *)
Lemma single_flight_run (inputs : list input) (s : page) :
  forallb answering inputs = true -> single_flight s ->
  single_flight (final (run inputs s)).
Proof.
  revert s. induction inputs as [|i inputs IH]; intros s Ha Hs; [exact Hs |].
  cbn [forallb] in Ha. apply andb_true_iff in Ha. destruct Ha as [Hi Ha].
  cbn [run]. rewrite final_bind.
  apply IH; [exact Ha |]. apply single_flight_react; assumption.
Qed.

Example single_flight_question_shown : single_flight question_shown.
Proof.
  split; [vm_compute; lia |]. split; [intros E; vm_compute in E; discriminate E |].
  reflexivity.
Qed.

(** C2, as the code has it.  While [isRequestInProgress] is true,
    [handleOption] does nothing: the page it leaves is the page it found
    (so [answers], [step], the pending timers and the requests in flight
    are as they were) and it neither writes a variable nor sets a timer
    nor sends a request.  The single flight holds for a flow that is
    being answered.  Take a page on which at most one [/ask] request is
    under way (in flight, or waiting for the 300 ms timer of
    [handleOption]), every option button is disabled if one is under
    way, and no [/detect_category] request is pending.  Then whatever
    the user and the network do short of starting a new flow (answers,
    timers, responses, failures, resets, banner clicks), the page stays
    such a page, with at most one [/ask] request in flight.  A page with
    no request pending and no [askAgent] timer set is such a page. *)
Theorem single_flight_guard :
  (forall opt s,
      isRequestInProgress (var s) = true ->
      final (handleOption opt s) = s /\ trace (handleOption opt s) = [])
  /\ (forall inputs s,
        forallb answering inputs = true ->
        (in_flight s + scheduled s <= 1)%nat ->
        ((in_flight s + scheduled s = 1)%nat -> all_disabled s = true) ->
        forallb is_ask (fetches (env s)) = true ->
        single_flight (final (run inputs s))
        /\ (in_flight (final (run inputs s)) <= 1)%nat)
  /\ (forall s,
        fetches (env s) = [] -> scheduled s = 0%nat ->
        (in_flight s + scheduled s <= 1)%nat
        /\ ((in_flight s + scheduled s = 1)%nat -> all_disabled s = true)
        /\ forallb is_ask (fetches (env s)) = true).
Proof.
  split; [exact handleOption_guard_busy |].
  split.
  - intros inputs s Ha H1 H2 H3.
    pose proof (single_flight_run inputs s Ha (conj H1 (conj H2 H3))) as H.
    split; [exact H |]. destruct H as [Hle _]. lia.
  - intros s Hf Hs. unfold in_flight. rewrite Hf, Hs. cbn [filter List.length Nat.add forallb].
    split; [lia |]. split; [intros E; discriminate E | reflexivity].
Qed.

Lemma single_flight_guard_witness :
  (final (handleOption (js "Oyun") answered) = answered
   /\ trace (handleOption (js "Oyun") answered) = [])
  /\ (in_flight
        (final (run [ClickOption (js "Müzik"); ClickOption (js "Oyun"); TimerFires 1;
                     ClickOption (js "Oyun"); TimerFires 2; ClickOption (js "Oyun")]
                    question_shown))
      <= 1)%nat
  /\ (in_flight start + scheduled start <= 1)%nat.
Proof.
  split; [| split].
  - apply (proj1 single_flight_guard (js "Oyun") answered). reflexivity.
  - apply (proj1 (proj2 single_flight_guard)
             [ClickOption (js "Müzik"); ClickOption (js "Oyun"); TimerFires 1;
              ClickOption (js "Oyun"); TimerFires 2; ClickOption (js "Oyun")]
             question_shown).
    + reflexivity.
    + vm_compute; lia.
    + intros E; vm_compute in E; discriminate E.
    + reflexivity.
  - apply (proj2 (proj2 single_flight_guard) start); reflexivity.
Defined.

(** The claim as stated fails once a new flow is started: the first
    request is in flight with the guard clear; the user goes home and
    clicks a category card again; the second request goes out while the
    first is still awaited.  Likewise when the query is submitted twice
    and both detections succeed.  And likewise through an answer: the
    first question is on the page, the user goes home (which leaves its
    buttons on the page, enabled) and clicks a category card; while that
    request is in flight, a click on one of the old buttons is accepted,
    and the request it schedules goes out as well. *)
Lemma second_flow_second_request :
  isRequestInProgress (var first_request_sent) = false
  /\ in_flight first_request_sent = 1%nat
  /\ in_flight (final (run [ClickHome; ClickCategory headphones] first_request_sent))
     = 2%nat
  /\ map fst (fetches (env (final (run [ClickHome; ClickCategory headphones]
                                       first_request_sent))))
     = [0%nat; 1%nat]
  /\ in_flight (final (run [ClickSend; ClickSend;
                            DetectSettles 0 (Some (Some headphones));
                            DetectSettles 1 (Some (Some headphones))] typed))
     = 2%nat
  /\ in_flight (final (run [ClickHome; ClickCategory headphones] question_shown)) = 1%nat
  /\ isRequestInProgress
       (var (final (run [ClickHome; ClickCategory headphones] question_shown)))
     = false
  /\ all_disabled (final (run [ClickHome; ClickCategory headphones] question_shown))
     = false
  /\ in_flight (final (run [ClickHome; ClickCategory headphones;
                            ClickOption (js "Müzik"); TimerFires 2] question_shown))
     = 2%nat.
Proof.
  split; [vm_compute; reflexivity |].
  split; [vm_compute; reflexivity |].
  split; [vm_compute; reflexivity |].
  split; [vm_compute; reflexivity |].
  split; [vm_compute; reflexivity |].
  split; [vm_compute; reflexivity |].
  split; [vm_compute; reflexivity |].
  split; vm_compute; reflexivity.
Qed.

End FlowController.

(* ----------------------------------------------------------------- *)
(** *** Product titles *)

Section ProductTitles.
Import JS Titles.
Open Scope N_scope.

(** X1.  [extractBrand] returns the first keyword of [brandKeywords], in
    the order of the list, that occurs in the title in lower case, and
    [null] when none occurs; every keyword is its own brand. *)
Theorem extractBrand_first_keyword (productTitle : jsstring) :
  (forall brand,
      extractBrand productTitle = Some brand ->
      occurs brand (toLowerCase productTitle)
      /\ exists earlier later,
           brandKeywords = earlier ++ brand :: later
           /\ forall b, In b earlier -> ~ occurs b (toLowerCase productTitle))
  /\ (extractBrand productTitle = None ->
      forall b, In b brandKeywords -> ~ occurs b (toLowerCase productTitle))
  /\ ((exists b, In b brandKeywords /\ occurs b (toLowerCase productTitle)) ->
      extractBrand productTitle <> None)
  /\ Forall (fun b => extractBrand b = Some b) brandKeywords.
Proof.
  unfold extractBrand. cbv zeta.
  split; [| split; [| split]].
  - intros brand F.
    destruct (find_first _ _ _ F) as [Hb [earlier [later [E Hearlier]]]].
    split; [apply includes_spec; exact Hb |].
    exists earlier, later. split; [exact E |].
    intros b Hin Hocc. apply includes_spec in Hocc.
    rewrite (Hearlier b Hin) in Hocc. discriminate Hocc.
  - intros F b Hin Hocc. apply includes_spec in Hocc.
    rewrite (find_none _ _ F b Hin) in Hocc. discriminate Hocc.
  - intros [b [Hin Hocc]] F. apply includes_spec in Hocc.
    rewrite (find_none _ _ F b Hin) in Hocc. discriminate Hocc.
  - unfold brandKeywords. repeat (constructor; [vm_compute; reflexivity |]). constructor.
Qed.

Lemma extractBrand_first_keyword_witness :
  occurs (js "apple") (toLowerCase (js "Apple iPhone 13"))
  /\ exists earlier later,
       brandKeywords = earlier ++ js "apple" :: later
       /\ forall b, In b earlier -> ~ occurs b (toLowerCase (js "Apple iPhone 13")).
Proof.
  refine (proj1 (extractBrand_first_keyword (js "Apple iPhone 13")) (js "apple") _).
  vm_compute. reflexivity.
Defined.

(** **** What a match of a pattern looks like *)

Lemma backtrack_found (continue : nat -> option nat) (lo k r : nat) :
  backtrack continue lo k = Some r ->
  exists j n, (lo <= j <= k)%nat /\ continue j = Some n /\ r = (j + n)%nat.
Proof.
  induction k as [|k IH]; cbn [backtrack].
  - destruct (0 <? lo)%nat eqn:L; [discriminate |].
    apply Nat.ltb_ge in L.
    destruct (continue 0%nat) as [n|] eqn:C; [| discriminate].
    intros [= <-]. exists 0%nat, n. repeat split; [exact L | lia | exact C].
  - destruct (S k <? lo)%nat eqn:L; [discriminate |].
    apply Nat.ltb_ge in L.
    destruct (continue (S k)) as [n|] eqn:C.
    + intros [= <-]. exists (S k), n. repeat split; [exact L | lia | exact C].
    + intros H. destruct (IH H) as [j [n [Hj [Hc ->]]]].
      exists j, n. repeat split; [lia | lia | exact Hc].
Qed.

Lemma run_length_class (class : N -> bool) (s : jsstring) (k : nat) :
  (k <= run_length class s)%nat ->
  forallb class (firstn k s) = true /\ (k <= List.length s)%nat.
Proof.
  revert k. induction s as [|c s IH]; intros k; cbn [run_length].
  - intros H. replace k with 0%nat by lia. split; [reflexivity | lia].
  - destruct (class c) eqn:C.
    + destruct k as [|k]; [intros _; split; [reflexivity | cbn; lia] |].
      intros H. destruct (IH k ltac:(lia)) as [Hf Hl].
      cbn [firstn forallb List.length]. rewrite C, Hf. split; [reflexivity | lia].
    + intros H. replace k with 0%nat by lia. split; [reflexivity | cbn; lia].
Qed.

Lemma firstn_plus {A : Type} (j n : nat) (s : list A) :
  firstn (j + n) s = firstn j s ++ firstn n (skipn j s).
Proof.
  revert s. induction j as [|j IH]; intros s; [reflexivity |].
  destruct s as [|x s]; cbn [Nat.add firstn skipn app].
  - destruct n; reflexivity.
  - f_equal. apply IH.
Qed.

Lemma match_atoms_shaped (atoms : list atom) (prev : option N) (s : jsstring) (n : nat) :
  match_atoms atoms prev s = Some n ->
  (n <= List.length s)%nat /\ shaped atoms (firstn n s).
Proof.
  revert prev s n. induction atoms as [|a atoms IH]; intros prev s n; cbn [match_atoms].
  - intros [= <-]. split; [lia | constructor].
  - destruct a as [|class lo hi].
    + destruct (xorb _ _); [| discriminate]. intros H.
      destruct (IH _ _ _ H) as [Hn Hs]. split; [exact Hn | constructor; exact Hs].
    + intros H. apply backtrack_found in H. destruct H as [j [r [Hj [Hc ->]]]].
      assert (Hrun : (j <= run_length class s)%nat).
      { destruct hi as [h|]; lia. }
      destruct (run_length_class class s j Hrun) as [Hclass Hlen].
      destruct (IH _ _ _ Hc) as [Hr Hs].
      rewrite length_skipn in Hr. split; [lia |].
      rewrite firstn_plus. constructor; [exact Hclass | | exact Hs].
      rewrite length_firstn. lia.
Qed.

Lemma first_match_shaped (atoms : list atom) (prev : option N) (s m : jsstring) :
  first_match atoms prev s = Some m -> occurs m s /\ shaped atoms m.
Proof.
  revert prev. induction s as [|c s IH]; intros prev; cbn [first_match].
  - destruct (match_atoms atoms prev []) as [n|] eqn:E; [| discriminate].
    intros [= <-]. destruct (match_atoms_shaped _ _ _ _ E) as [_ Hs].
    split; [| exact Hs]. exists [], []. destruct n; reflexivity.
  - destruct (match_atoms atoms prev (c :: s)) as [n|] eqn:E.
    + intros [= <-]. destruct (match_atoms_shaped _ _ _ _ E) as [_ Hs].
      split; [| exact Hs]. exists [], (skipn n (c :: s)).
      symmetry. apply (firstn_skipn n (c :: s)).
    + intros H. destruct (IH _ H) as [[pre [post ->]] Hs].
      split; [| exact Hs]. exists (c :: pre), post. reflexivity.
Qed.

Lemma forallb_weaken {A : Type} (f g : A -> bool) (l : list A) :
  (forall x, f x = true -> g x = true) -> forallb f l = true -> forallb g l = true.
Proof.
  intros H. induction l as [|x l IH]; cbn [forallb]; [reflexivity |].
  rewrite !andb_true_iff. intros [Hx Hl]. split; [exact (H x Hx) | exact (IH Hl)].
Qed.

Lemma model_unit_digit c : is_digit c = true -> model_unit c = true.
Proof. unfold model_unit. intros ->. reflexivity. Qed.
Lemma model_unit_lower c : is_lower c = true -> model_unit c = true.
Proof. unfold model_unit. intros ->. destruct (is_digit c); reflexivity. Qed.
Lemma model_unit_space c : is_space c = true -> model_unit c = true.
Proof. unfold model_unit. intros ->. apply orb_true_r. Qed.

Lemma digits_has_digit (seg : jsstring) :
  forallb is_digit seg = true -> (1 <= List.length seg)%nat -> existsb is_digit seg = true.
Proof.
  destruct seg as [|c seg]; cbn [forallb existsb List.length]; [lia |].
  rewrite andb_true_iff. intros [-> _] _. reflexivity.
Qed.

Lemma shaped_model (pattern : list atom) (m : jsstring) :
  In pattern modelPatterns -> shaped pattern m ->
  m <> [] /\ existsb is_digit m = true /\ forallb model_unit m = true.
Proof.
  intros Hin Hs.
  assert (Hne : existsb is_digit m = true -> m <> []).
  { intros H ->. discriminate H. }
  cut (existsb is_digit m = true /\ forallb model_unit m = true).
  { intros [Hd Hu]. split; [exact (Hne Hd) | split; assumption]. }
  destruct Hin as [<- | [<- | [<- | []]]].
  - inversion Hs as [| ? ? H0 |]; subst; clear Hs.
    inversion H0 as [| | ? ? ? ? d m1 Hd Ld H1]; subst; clear H0.
    inversion H1 as [| | ? ? ? ? l m2 Hl Ll H2]; subst; clear H1.
    inversion H2 as [| ? ? H3 |]; subst; clear H2.
    inversion H3; subst; clear H3.
    rewrite !existsb_app, !forallb_app, (digits_has_digit d Hd Ld).
    rewrite (forallb_weaken _ _ d model_unit_digit Hd),
            (forallb_weaken _ _ l model_unit_lower Hl).
    split; reflexivity.
  - inversion Hs as [| ? ? H0 |]; subst; clear Hs.
    inversion H0 as [| | ? ? ? ? l m1 Hl Ll H1]; subst; clear H0.
    inversion H1 as [| | ? ? ? ? w m2 Hw Lw H2]; subst; clear H1.
    inversion H2 as [| | ? ? ? ? d m3 Hd Ld H3]; subst; clear H2.
    inversion H3 as [| | ? ? ? ? l' m4 Hl' Ll' H4]; subst; clear H3.
    inversion H4 as [| ? ? H5 |]; subst; clear H4.
    inversion H5; subst; clear H5.
    rewrite !existsb_app, !forallb_app, (digits_has_digit d Hd Ld).
    rewrite (forallb_weaken _ _ d model_unit_digit Hd),
            (forallb_weaken _ _ l model_unit_lower Hl),
            (forallb_weaken _ _ l' model_unit_lower Hl'),
            (forallb_weaken _ _ w model_unit_space Hw).
    rewrite !orb_true_r. split; reflexivity.
  - inversion Hs as [| ? ? H0 |]; subst; clear Hs.
    inversion H0 as [| | ? ? ? ? d m1 Hd Ld H1]; subst; clear H0.
    inversion H1 as [| | ? ? ? ? w m2 Hw Lw H2]; subst; clear H1.
    inversion H2 as [| | ? ? ? ? l m3 Hl Ll H3]; subst; clear H2.
    inversion H3 as [| ? ? H4 |]; subst; clear H3.
    inversion H4; subst; clear H4.
    rewrite !existsb_app, !forallb_app, (digits_has_digit d Hd Ld).
    rewrite (forallb_weaken _ _ d model_unit_digit Hd),
            (forallb_weaken _ _ l model_unit_lower Hl),
            (forallb_weaken _ _ w model_unit_space Hw).
    split; reflexivity.
Qed.

(** Lowering a string neither adds nor removes a digit. *)
Lemma simple_lowercase_digit (rows : list (N * N * N * N)) (p : N) :
  forallb (fun r => (57 <? fst (fst (fst r))) && (57 <? snd r)) rows = true ->
  is_digit (simple_lowercase rows p) = is_digit p.
Proof.
  induction rows as [|[[[first last] step] target] rows IH]; [reflexivity |].
  cbn [forallb fst snd simple_lowercase]. rewrite !andb_true_iff, !N.ltb_lt.
  intros [[Hf Ht] Hrows].
  destruct ((first <=? p) && (p <=? last) && ((p - first) mod step =? 0)) eqn:E;
    [| exact (IH Hrows)].
  rewrite !andb_true_iff, !N.leb_le in E. destruct E as [[E1 E2] _].
  unfold is_digit.
  destruct (N.leb_spec (target + (p - first)) 57); [exfalso; lia |].
  destruct (N.leb_spec p 57); [exfalso; lia |]. rewrite !andb_false_r. reflexivity.
Qed.

Lemma lowercase_rows_above_digits :
  forallb (fun r => (57 <? fst (fst (fst r))) && (57 <? snd r)) lowercase_rows = true.
Proof. vm_compute. reflexivity. Qed.

Lemma emit_code_point_digit (p : N) :
  existsb is_digit (emit_code_point p) = is_digit p.
Proof.
  unfold emit_code_point, is_digit. destruct (N.ltb_spec p 65536).
  - cbn [existsb]. apply orb_false_r.
  - cbn [existsb].
    generalize ((p - 65536) / 1024), ((p - 65536) mod 1024). intros q r.
    destruct (N.leb_spec (55296 + q) 57); [exfalso; lia |].
    destruct (N.leb_spec (56320 + r) 57); [exfalso; lia |].
    destruct (N.leb_spec p 57); [exfalso; lia |]. rewrite !andb_false_r. reflexivity.
Qed.

Lemma lowercase_points_digit (after_cased : bool) (ps : list N) :
  existsb is_digit (flat_map emit_code_point (lowercase_points after_cased ps))
  = existsb is_digit ps.
Proof.
  revert after_cased. induction ps as [|p ps IH]; intros b; [reflexivity |].
  cbn [lowercase_points existsb]. rewrite flat_map_app, existsb_app, IH. f_equal.
  destruct (N.eqb_spec p 931) as [-> | _].
  { destruct (b && negb (cased_follows ps)); reflexivity. }
  destruct (N.eqb_spec p 304) as [-> | _]; [reflexivity |].
  cbn [flat_map]. rewrite app_nil_r, emit_code_point_digit.
  apply simple_lowercase_digit. exact lowercase_rows_above_digits.
Qed.

Lemma code_points_digit (s : jsstring) :
  existsb is_digit (code_points s) = existsb is_digit s.
Proof.
  cut (existsb is_digit (code_points s) = existsb is_digit s
       /\ forall c, existsb is_digit (code_points (c :: s)) = existsb is_digit (c :: s)).
  { intros [H _]. exact H. }
  induction s as [|d s [IH1 IH2]].
  - split; [reflexivity |]. intros c. reflexivity.
  - split; [apply IH2 |]. intros c.
    change (code_points (c :: d :: s))
      with (if is_lead c && is_trail d
            then (65536 + (c - 55296) * 1024 + (d - 56320)) :: code_points s
            else c :: code_points (d :: s)).
    destruct (is_lead c && is_trail d) eqn:E.
    + apply andb_true_iff in E. destruct E as [Ec Ed].
      unfold is_lead in Ec. unfold is_trail in Ed.
      rewrite !andb_true_iff, !N.leb_le in Ec, Ed.
      cbn [existsb]. rewrite IH1. unfold is_digit at 1 3 4.
      destruct (N.leb_spec (65536 + (c - 55296) * 1024 + (d - 56320)) 57); [exfalso; lia |].
      destruct (N.leb_spec c 57); [exfalso; lia |]. destruct (N.leb_spec d 57); [exfalso; lia |].
      rewrite !andb_false_r. reflexivity.
    + cbn [existsb]. rewrite (IH2 d). reflexivity.
Qed.

Lemma toLowerCase_digit (s : jsstring) :
  existsb is_digit (toLowerCase s) = existsb is_digit s.
Proof.
  unfold toLowerCase. rewrite lowercase_points_digit. apply code_points_digit.
Qed.

Lemma extractModel_found (productTitle m : jsstring) :
  extractModel productTitle = Some m ->
  exists pattern,
    In pattern modelPatterns /\ first_match pattern None (toLowerCase productTitle) = Some m.
Proof.
  unfold extractModel. cbv zeta. generalize modelPatterns.
  induction l as [|p l IH]; cbn [fold_right]; [discriminate |].
  destruct (first_match p None (toLowerCase productTitle)) as [m'|] eqn:E.
  - intros [= <-]. exists p. split; [left; reflexivity | exact E].
  - intros H. destruct (IH H) as [q [Hq Eq]]. exists q. split; [right; exact Hq | exact Eq].
Qed.

(** X2.  What [extractModel] returns is a stretch of the title in lower
    case that is not empty, holds a digit, and is made of digits, small
    letters a-z and white space only; a title without a digit has no
    model. *)
Theorem extractModel_has_digit (productTitle : jsstring) :
  (forall m,
      extractModel productTitle = Some m ->
      m <> []
      /\ occurs m (toLowerCase productTitle)
      /\ existsb is_digit m = true
      /\ forallb (fun c => is_digit c || is_lower c || is_space c) m = true)
  /\ (existsb is_digit productTitle = false -> extractModel productTitle = None).
Proof.
  assert (H : forall m, extractModel productTitle = Some m ->
            m <> [] /\ occurs m (toLowerCase productTitle)
            /\ existsb is_digit m = true /\ forallb model_unit m = true).
  { intros m E. destruct (extractModel_found _ _ E) as [pattern [Hin F]].
    destruct (first_match_shaped _ _ _ _ F) as [Hocc Hs].
    destruct (shaped_model pattern m Hin Hs) as [Hne [Hd Hu]].
    repeat split; assumption. }
  split; [exact H |].
  intros Hno. destruct (extractModel productTitle) as [m|] eqn:E; [| reflexivity].
  exfalso.
  destruct (H m eq_refl) as [_ [[pre [post Eo]] [Hd _]]].
  rewrite <- toLowerCase_digit, Eo, !existsb_app, Hd in Hno.
  rewrite orb_true_r in Hno. discriminate Hno.
Qed.

Lemma extractModel_has_digit_witness :
  extractModel (js "Kablosuz Kulaklık") = None
  /\ existsb is_digit (js "s23") = true.
Proof.
  split.
  - refine (proj2 (extractModel_has_digit (js "Kablosuz Kulaklık")) _).
    vm_compute. reflexivity.
  - refine (proj1 (proj2 (proj2 (proj1 (extractModel_has_digit (js "Galaxy S23"))
                                       (js "s23") _)))).
    vm_compute. reflexivity.
Defined.

(** The second pattern is reached only when the first finds nothing,
    and a run of more than two digits that stands alone is found by no
    pattern. *)
Example extractModel_samples :
  extractModel (js "iPhone 13 Pro") = Some (js "13")
  /\ extractModel (js "Galaxy S23") = Some (js "s23")
  /\ extractModel (js "Sony WH-1000XM4") = None
  /\ extractModel (js "1234") = None.
Proof. repeat split; vm_compute; reflexivity. Qed.

End ProductTitles.

(* ----------------------------------------------------------------- *)
(** *** The suggestion line of the smart search *)

Section SmartSearchLine.
Import JS Catalog SmartSearch.






(** With a colour selected the line still lists every name that begins
    with the input, displayed or not. *)
Example on_input_suggestions_mavi :
  product_suggestions
    (on_input {| controls := loaded (js "K") (js "mavi") [] None [];
                 product_suggestions := [] |})
  = js "Kulaklık, Klavye, Kamera"
  /\ product_list
       (controls (on_input {| controls := loaded (js "K") (js "mavi") [] None [];
                              product_suggestions := [] |}))
     = Some [].
Proof. split; vm_compute; reflexivity. Qed.

End SmartSearchLine.

(* ----------------------------------------------------------------- *)
(** *** Theme preference *)

Section ThemePreference.
Import JS Prefs.

Lemma replace_nth_length {A : Type} (i : nat) (x : A) (l : list A) :
  List.length (replace_nth i x l) = List.length l.
Proof.
  revert i. induction l as [|y l IH]; intros [|i]; cbn [replace_nth List.length];
    try reflexivity. rewrite IH. reflexivity.
Qed.

Lemma map_const_length {A B : Type} (b : B) (l l' : list A) :
  List.length l = List.length l' -> map (fun _ => b) l = map (fun _ => b) l'.
Proof.
  revert l'. induction l as [|x l IH]; intros [|y l'] H; try discriminate H;
    [reflexivity |]. cbn [map]. f_equal. apply IH. injection H as H. exact H.
Qed.

(** The theme a switch asks for when it is clicked. *)
Lemma click_switch_changeTheme (i : nat) (p : prefs) (this : theme_switch) :
  nth_error (switches p) i = Some this ->
  click_switch i p
  = changeTheme (match dataset_theme this with
                 | Some t => if str_eqb t (js "light") then js "dark" else js "light"
                 | None => js "light"
                 end) p.
Proof.
  intros H. unfold click_switch. rewrite H. unfold changeTheme. cbn [switches].
  f_equal. apply map_const_length. apply replace_nth_length.
Qed.

Lemma changeTheme_twice (t u : jsstring) (p : prefs) :
  changeTheme t (changeTheme u p) = changeTheme t p.
Proof.
  unfold changeTheme. cbn [switches]. f_equal. rewrite map_map. reflexivity.
Qed.

(** X6.  A click on a theme switch is [changeTheme] with the theme the
    switch did not show: dark when its [data-theme] was light, light
    otherwise.  Afterwards the current theme is light or dark, every
    switch shows it and is active exactly when it is dark; one more
    click, on any switch, changes the theme, and two more clicks give
    back the page of the first. *)
Theorem click_switch_toggles (i : nat) (p : prefs) (this : theme_switch) :
  nth_error (switches p) i = Some this ->
  click_switch i p
  = changeTheme (match dataset_theme this with
                 | Some t => if str_eqb t (js "light") then js "dark" else js "light"
                 | None => js "light"
                 end) p
  /\ (currentTheme (click_switch i p) = js "light"
      \/ currentTheme (click_switch i p) = js "dark")
  /\ Forall (fun sw => dataset_theme sw = Some (currentTheme (click_switch i p))
                       /\ active sw = str_eqb (currentTheme (click_switch i p)) (js "dark"))
            (switches (click_switch i p))
  /\ (forall j k, (j < List.length (switches p))%nat -> (k < List.length (switches p))%nat ->
        currentTheme (click_switch j (click_switch i p)) <> currentTheme (click_switch i p)
        /\ click_switch k (click_switch j (click_switch i p)) = click_switch i p).
Proof.
  intros H. pose proof (click_switch_changeTheme i p this H) as E.
  split; [exact E |].
  set (t := match dataset_theme this with
            | Some t => if str_eqb t (js "light") then js "dark" else js "light"
            | None => js "light"
            end) in *.
  assert (Ht : t = js "light" \/ t = js "dark").
  { subst t. destruct (dataset_theme this) as [u|]; [| left; reflexivity].
    destruct (str_eqb u (js "light")); [right | left]; reflexivity. }
  rewrite E. split; [exact Ht |]. split.
  { cbn [changeTheme currentTheme switches]. apply Forall_forall.
    intros sw Hin. apply in_map_iff in Hin. destruct Hin as [x [<- _]].
    split; reflexivity. }
  intros j k Hj Hk.
  assert (S1 : forall (u : jsstring) (q : prefs) (n : nat),
            (n < List.length (switches q))%nat ->
            nth_error (switches (changeTheme u q)) n
            = Some {| dataset_theme := Some u; active := str_eqb u (js "dark") |}).
  { intros u q n Hn. cbn [changeTheme switches].
    rewrite nth_error_map. destruct (nth_error (switches q) n) eqn:N; [reflexivity |].
    apply nth_error_None in N. lia. }
  assert (L : forall (u : jsstring) (q : prefs),
            List.length (switches (changeTheme u q)) = List.length (switches q)).
  { intros u q. cbn [changeTheme switches]. apply length_map. }
  rewrite (click_switch_changeTheme j _ _ (S1 t p j Hj)). cbn [dataset_theme].
  rewrite changeTheme_twice.
  assert (Hk' : (k < List.length
                       (switches (changeTheme
                          (if str_eqb t (js "light") then js "dark" else js "light") p)))%nat)
    by (rewrite L; exact Hk).
  rewrite (click_switch_changeTheme k _ _ (S1 _ p k Hk)). cbn [dataset_theme].
  rewrite changeTheme_twice.
  destruct Ht as [-> | ->]; split; try reflexivity; cbn [changeTheme currentTheme];
    intros D; vm_compute in D; discriminate D.
Qed.

Lemma click_switch_toggles_witness :
  currentTheme
    (click_switch 0 {| currentTheme := js "light"; data_theme := None;
                       switches := [{| dataset_theme := Some (js "light"); active := false |}];
                       stored := None |})
  = js "dark".
Proof.
  rewrite (proj1 (click_switch_toggles 0
    {| currentTheme := js "light"; data_theme := None;
       switches := [{| dataset_theme := Some (js "light"); active := false |}];
       stored := None |}
    {| dataset_theme := Some (js "light"); active := false |} eq_refl)).
  reflexivity.
Defined.

(** X7.  A theme set by [changeTheme] or by a click on a switch is the
    theme of the page after a reload, whatever the markup of the
    reloaded document: [window.onload] reads it from [localStorage] and
    sets the attribute and every switch from it.  An empty saved theme,
    and a storage without the entry, give the light theme. *)
Theorem theme_survives_reload (attribute : option jsstring) (markup : list theme_switch)
    (p : prefs) :
  (forall theme, theme <> [] ->
     currentTheme (reloaded attribute markup (changeTheme theme p)) = theme
     /\ data_theme (reloaded attribute markup (changeTheme theme p)) = Some theme
     /\ Forall (fun sw => dataset_theme sw = Some theme
                          /\ active sw = str_eqb theme (js "dark"))
               (switches (reloaded attribute markup (changeTheme theme p))))
  /\ (forall i, (i < List.length (switches p))%nat ->
        currentTheme (reloaded attribute markup (click_switch i p))
        = currentTheme (click_switch i p))
  /\ currentTheme (reloaded attribute markup (changeTheme [] p)) = js "light"
  /\ (stored p = None -> currentTheme (reloaded attribute markup p) = js "light").
Proof.
  split.
  { intros theme Hne. destruct theme as [|c theme]; [contradiction |].
    split; [reflexivity |]. split; [reflexivity |].
    apply Forall_forall. intros sw Hin. cbn in Hin.
    apply in_map_iff in Hin. destruct Hin as [x [<- _]]. split; reflexivity. }
  split.
  { intros i Hi. destruct (nth_error (switches p) i) as [this|] eqn:N.
    - rewrite (click_switch_changeTheme i p this N).
      destruct (dataset_theme this) as [t|]; [| reflexivity].
      destruct (str_eqb t (js "light")); reflexivity.
    - apply nth_error_None in N. lia. }
  split; [reflexivity |].
  intros H. unfold reloaded, restoreTheme. cbn [stored]. rewrite H. reflexivity.
Qed.

Lemma theme_survives_reload_witness :
  currentTheme
    (reloaded None [{| dataset_theme := None; active := false |}]
       (changeTheme (js "dark")
          {| currentTheme := js "light"; data_theme := None; switches := [];
             stored := None |}))
  = js "dark".
Proof.
  apply (proj1 (theme_survives_reload None [{| dataset_theme := None; active := false |}]
                  {| currentTheme := js "light"; data_theme := None; switches := [];
                     stored := None |})
               (js "dark")).
  discriminate.
Defined.

End ThemePreference.

(* ----------------------------------------------------------------- *)
(** *** What the suggestion lookup returns, whatever the query *)

Section SuggestionLookup.
Import JS Suggest.

Lemma first_by_text_In (x : suggestion) (l : list suggestion) :
  In x (first_by_text l) -> In x l.
Proof.
  induction l as [|y l IH]; cbn [first_by_text]; [intros [] |].
  intros [<- | H]; [left; reflexivity |].
  right. apply IH. apply filter_In in H. apply H.
Qed.

Lemma firstn_In {A : Type} (n : nat) (x : A) (l : list A) :
  In x (firstn n l) -> In x l.
Proof.
  revert l. induction n as [|n IH]; intros [|y l]; cbn [firstn In]; try contradiction.
  intros [<- | H]; [left; reflexivity | right; exact (IH l H)].
Qed.

(** The two loops collect, without repeating a display text, the
    suggestions under the keys the first pattern accepts and then the
    suggestions whose text the second pattern accepts. *)
Lemma collect_by_patterns (keyRegex textRegex : list term) :
  collect_by_text textRegex (collect_by_key keyRegex [])
  = first_by_text
      (flat_map (fun e => if test keyRegex (fst e) then snd e else [])
                autocompleteSuggestions
       ++ filter (fun s => test textRegex (text s))
                 (List.concat (values autocompleteSuggestions))).
Proof.
  unfold collect_by_key, collect_by_text.
  rewrite (fold_keys (test keyRegex) autocompleteSuggestions autocompleteSuggestions []).
  2: { apply Forall_forall. exact lookup_own. }
  rewrite (fold_values (fun s => test textRegex (text s))).
  rewrite <- fold_left_app. apply first_by_text_collects.
Qed.

Lemma getAutocompleteSuggestions_returns (query : jsstring) (l : list suggestion) :
  getAutocompleteSuggestions query = Returns l ->
  l = [] \/ exists keyRegex textRegex,
      l = firstn 8 (collect_by_text textRegex (collect_by_key keyRegex [])).
Proof.
  unfold getAutocompleteSuggestions.
  destruct (negb (truthy_str query)); [intros [= <-]; left; reflexivity |].
  destruct (RegExp (94%N :: query)) as [keyRegex | |]; try discriminate.
  destruct (RegExp query) as [textRegex | |]; try discriminate.
  intros [= <-]. right. exists keyRegex, textRegex. reflexivity.
Qed.

(** Whatever the two patterns, the first eight suggestions collected
    are at most eight, have distinct display texts and come from the
    table. *)
Lemma collected_within (keyRegex textRegex : list term) :
  (List.length (firstn 8 (collect_by_text textRegex (collect_by_key keyRegex []))) <= 8)%nat
  /\ NoDup (map text (firstn 8 (collect_by_text textRegex (collect_by_key keyRegex []))))
  /\ Forall from_table (firstn 8 (collect_by_text textRegex (collect_by_key keyRegex []))).
Proof.
  rewrite collect_by_patterns. split; [apply firstn_le_length |]. split.
  - rewrite <- firstn_map. apply NoDup_firstn. apply first_by_text_NoDup.
  - apply Forall_forall. intros x Hx.
    apply firstn_In, first_by_text_In, in_app_or in Hx.
    unfold from_table, values. destruct Hx as [Hx | Hx].
    + apply in_flat_map in Hx. destruct Hx as [e [He Hx]].
      apply in_concat. exists (snd e). split; [apply in_map; exact He |].
      destruct (test keyRegex (fst e)); [exact Hx | contradiction].
    + apply filter_In in Hx. apply Hx.
Qed.



(** Every display text of the table is what [trim] leaves of it, and
    none is empty. *)
Lemma table_texts (s : suggestion) :
  from_table s -> trim (text s) = text s /\ text s <> [].
Proof.
  intros H.
  assert (B : forallb (fun s => str_eqb (trim (text s)) (text s) && truthy_str (text s))
                      (List.concat (values autocompleteSuggestions)) = true)
    by (vm_compute; reflexivity).
  pose proof (proj1 (forallb_forall _ _) B s H) as E.
  apply andb_true_iff in E. destruct E as [E1 E2].
  split; [apply str_eqb_eq; exact E1 |].
  destruct (text s); [discriminate E2 | discriminate].
Qed.

End SuggestionLookup.

(* ----------------------------------------------------------------- *)
(** *** Submitting a query *)

Section QuerySubmission.
Import JS Flow.

Lemma trim_start_suffix (s : jsstring) :
  exists pre, s = pre ++ trim_start s /\ forallb is_space pre = true.
Proof.
  induction s as [|c s [pre [E Hp]]]; [exists []; split; reflexivity |].
  cbn [trim_start]. destruct (is_space c) eqn:C.
  - exists (c :: pre). cbn [app forallb]. rewrite C, Hp, <- E. split; reflexivity.
  - exists []. split; reflexivity.
Qed.

Lemma trim_start_head (s : jsstring) (c : N) (rest : jsstring) :
  trim_start s = c :: rest -> is_space c = false.
Proof.
  induction s as [|d s IH]; cbn [trim_start]; [discriminate |].
  destruct (is_space d) eqn:D; [exact IH |]. intros [= <- _]. exact D.
Qed.

Lemma trim_start_blank (s : jsstring) :
  forallb is_space s = true -> trim_start s = [].
Proof.
  induction s as [|c s IH]; cbn [forallb trim_start]; [reflexivity |].
  destruct (is_space c); [exact IH | discriminate].
Qed.

Lemma last_app_cons {A : Type} (l : list A) (x d : A) : last (l ++ [x]) d = x.
Proof.
  induction l as [|y l IH]; [reflexivity |].
  cbn [app]. destruct (l ++ [x]) eqn:E; [destruct l; discriminate E |].
  cbn [last]. exact IH.
Qed.

(** What [trim] leaves has no white space at either end, and is empty
    when the string is all white space. *)
Lemma trim_ends (s : jsstring) :
  (forall c rest, trim s = c :: rest ->
     is_space c = false /\ is_space (last (c :: rest) c) = false)
  /\ (forallb is_space s = true -> trim s = []).
Proof.
  unfold trim. split.
  - intros c rest E.
    destruct (trim_start (rev (trim_start s))) as [|u us] eqn:U; [discriminate E |].
    pose proof (trim_start_head _ _ _ U) as Hu.
    destruct (trim_start_suffix (rev (trim_start s))) as [pre [Er Hp]].
    rewrite U in Er.
    assert (Et : trim_start s = rev (u :: us) ++ rev pre).
    { rewrite <- rev_app_distr, <- Er, rev_involutive. reflexivity. }
    rewrite E in Et. cbn [app] in Et.
    split.
    + exact (trim_start_head _ _ _ Et).
    + cbn [rev] in E. rewrite <- E. rewrite last_app_cons. exact Hu.
  - intros H. rewrite (trim_start_blank s H). reflexivity.
Qed.

Lemma trim_start_all_space (s : jsstring) :
  trim_start s = [] -> forallb is_space s = true.
Proof.
  induction s as [|c s IH]; cbn [trim_start forallb]; [reflexivity |].
  destruct (is_space c); [exact IH | discriminate].
Qed.

(** [trim] leaves nothing exactly of the strings that are all white
    space. *)
Lemma trim_blank (s : jsstring) : trim s = [] <-> forallb is_space s = true.
Proof.
  split; [| exact (proj2 (trim_ends s))].
  unfold trim. intros H.
  assert (H1 : trim_start (rev (trim_start s)) = []).
  { destruct (trim_start (rev (trim_start s))); [reflexivity |].
    apply (f_equal (@List.length N)) in H. rewrite length_rev in H. discriminate H. }
  apply trim_start_all_space in H1.
  destruct (trim_start s) as [|c r] eqn:E.
  - apply trim_start_all_space. exact E.
  - pose proof (proj1 (forallb_forall _ _) H1 c) as Hc.
    rewrite (trim_start_head s c r E) in Hc.
    assert (F : false = true); [| discriminate F].
    apply Hc. apply -> in_rev. left. reflexivity.
Qed.

(** X3.  On a search box that is empty or all white space,
    [handleChatboxEntry] only alerts: the page is as it was and nothing
    is sent.  Otherwise it leaves with the browser exactly one more
    request, to [/detect_category], for the text of the box without the
    white space at its ends; it puts up the creation overlay and leaves
    the session variables, the displayed content and the search box as
    they were. *)
Theorem handleChatboxEntry_blank_or_trimmed (s : page) :
  (forallb is_space (chatbox_input (ui s)) = true ->
   final (handleChatboxEntry s) = s
   /\ exists alertMsg, trace (handleChatboxEntry s) = [Alert alertMsg])
  /\ (forallb is_space (chatbox_input (ui s)) = false ->
      fetches (env (final (handleChatboxEntry s)))
      = fetches (env s)
        ++ [(next_fetch (env s), FetchDetect (trim (chatbox_input (ui s))))]
      /\ next_fetch (env (final (handleChatboxEntry s))) = S (next_fetch (env s))
      /\ ai_creation_screen (scr (final (handleChatboxEntry s))) = DisplayFlex
      /\ var (final (handleChatboxEntry s)) = var s
      /\ doc (final (handleChatboxEntry s)) = doc s
      /\ ui (final (handleChatboxEntry s)) = ui s
      /\ exists c rest,
           trim (chatbox_input (ui s)) = c :: rest
           /\ is_space c = false /\ is_space (last (c :: rest) c) = false).
Proof.
  split.
  - intros B. apply trim_blank in B.
    unfold handleChatboxEntry, bind, gets, localized, bind, gets, ret, emit.
    rewrite B. cbn [truthy_str negb]. split; [reflexivity |]. eexists. reflexivity.
  - intros B.
    destruct (trim (chatbox_input (ui s))) as [|c rest] eqn:E.
    { apply trim_blank in E. rewrite E in B. discriminate B. }
    unfold handleChatboxEntry, bind, gets. rewrite E. cbn [truthy_str negb].
    do 6 (split; [reflexivity |]).
    exists c, rest. split; [reflexivity |].
    exact (proj1 (trim_ends (chatbox_input (ui s))) c rest E).
Qed.

Lemma handleChatboxEntry_blank_or_trimmed_witness :
  final (handleChatboxEntry (on_ui (set_chatbox_input (js "   ")) Sample.start))
  = on_ui (set_chatbox_input (js "   ")) Sample.start
  /\ fetches (env (final (handleChatboxEntry
                            (on_ui (set_chatbox_input (js " kulaklık ")) Sample.start))))
     = [(0%nat, FetchDetect (js "kulaklık"))].
Proof.
  split.
  - refine (proj1 (proj1 (handleChatboxEntry_blank_or_trimmed
                            (on_ui (set_chatbox_input (js "   ")) Sample.start)) _)).
    reflexivity.
  - refine (proj1 (proj2 (handleChatboxEntry_blank_or_trimmed
                            (on_ui (set_chatbox_input (js " kulaklık ")) Sample.start)) _)).
    reflexivity.
Defined.

End QuerySubmission.

(* ----------------------------------------------------------------- *)
(** *** The search box *)

Section SearchBox.
Import JS Suggest Flow Search.

(** **** Highlighting *)

Lemma select_nth_suggestions (n : nat) (l : list entry) :
  map entry_suggestion (select_nth n l) = map entry_suggestion l.
Proof.
  revert n. induction l as [|e l IH]; intros [|n]; cbn [select_nth map];
    try reflexivity. rewrite IH. reflexivity.
Qed.

Lemma select_nth_length (n : nat) (l : list entry) :
  List.length (select_nth n l) = List.length l.
Proof.
  rewrite <- (length_map entry_suggestion), select_nth_suggestions.
  apply length_map.
Qed.

Lemma unselect_suggestions (l : list entry) :
  map entry_suggestion (map unselect l) = map entry_suggestion l.
Proof. rewrite map_map. reflexivity. Qed.

Lemma unselected (l : list entry) (i : nat) (e : entry) :
  nth_error (map unselect l) i = Some e -> entry_selected e = false.
Proof.
  rewrite nth_error_map. destruct (nth_error l i); [| discriminate].
  intros [= <-]. reflexivity.
Qed.

Lemma select_nth_highlight (n : nat) (l : list entry) (i : nat) (e : entry) :
  (n < List.length l)%nat ->
  nth_error (select_nth n (map unselect l)) i = Some e ->
  (entry_selected e = true <-> i = n).
Proof.
  revert n i. induction l as [|x l IH]; intros n i Hn; [cbn in Hn; lia |].
  destruct n as [|n]; cbn [map select_nth].
  - destruct i as [|i]; cbn [nth_error].
    + intros [= <-]. cbn. split; reflexivity.
    + intros H. rewrite (unselected l i e H). split; [discriminate | lia].
  - destruct i as [|i]; cbn [nth_error].
    + intros [= <-]. cbn. split; [discriminate | lia].
    + intros H. cbn [List.length] in Hn.
      rewrite (IH n i ltac:(lia) H). lia.
Qed.

(** **** Each handler keeps the dropdown in order *)

Lemma in_order_hideAutocomplete (b : box) :
  in_order b -> in_order (hideAutocomplete b).
Proof.
  intros [H1 [H2 [H3 [H4 H5]]]]. unfold in_order. cbn.
  split; [exact H1 |]. split; [lia |]. split; [intros C; contradiction |].
  split; assumption.
Qed.

Lemma in_order_showAutocompleteSuggestions (suggestions : list suggestion) (b : box) :
  Forall from_table suggestions -> (List.length suggestions <= 8)%nat ->
  in_order (showAutocompleteSuggestions suggestions b).
Proof.
  intros Ht Hl. unfold in_order. cbn.
  split; [rewrite map_map; apply map_id |]. split; [lia |].
  split; [| split; assumption].
  intros _ i e H. rewrite nth_error_map in H.
  destruct (nth_error suggestions i); [| discriminate]. injection H as <-.
  cbn. split; [discriminate | lia].
Qed.

Lemma in_order_selectAutocompleteIndex (index : Z) (b : box) :
  map entry_suggestion (entries b) = autocompleteData b ->
  Forall from_table (autocompleteData b) ->
  (List.length (autocompleteData b) <= 8)%nat ->
  (0 <= index < Z.of_nat (List.length (entries b)))%Z
  \/ selectedAutocompleteIndex b = (-1)%Z ->
  in_order (selectAutocompleteIndex index b).
Proof.
  intros H1 H4 H5 Hi. unfold selectAutocompleteIndex. cbn zeta.
  cbn [set_entries entries]. rewrite length_map.
  destruct ((0 <=? index)%Z && (index <? Z.of_nat (List.length (entries b)))%Z) eqn:R.
  - apply andb_true_iff in R. destruct R as [R1 R2].
    apply Z.leb_le in R1. apply Z.ltb_lt in R2.
    unfold in_order. cbn.
    rewrite select_nth_suggestions, unselect_suggestions, select_nth_length, length_map.
    split; [exact H1 |]. split; [lia |]. split; [| split; assumption].
    intros _ i e H.
    rewrite (select_nth_highlight (Z.to_nat index) (entries b) i e ltac:(lia) H). lia.
  - assert (Hs : selectedAutocompleteIndex b = (-1)%Z).
    { destruct Hi as [[Hi1 Hi2] | Hi]; [| exact Hi].
      apply andb_false_iff in R. destruct R as [R | R];
        [apply Z.leb_gt in R | apply Z.ltb_ge in R]; lia. }
    unfold in_order. cbn. rewrite unselect_suggestions, length_map.
    split; [exact H1 |]. split; [lia |]. split; [| split; assumption].
    intros _ i e H. rewrite (unselected _ i e H), Hs. split; [discriminate | lia].
Qed.

Lemma in_order_in_flow (m : M unit) (b : box) :
  in_order b -> in_order (fst (in_flow m b)).
Proof. intros H. exact H. Qed.

Lemma in_order_retyped (value : jsstring) (b : box) :
  in_order b -> in_order (retyped value b).
Proof. intros H. exact H. Qed.

Lemma in_order_selectAutocompleteItem (suggestion0 : suggestion) (b : box) :
  in_order b -> in_order (fst (selectAutocompleteItem suggestion0 b)).
Proof.
  intros H. unfold selectAutocompleteItem. cbn zeta.
  apply in_order_in_flow, in_order_hideAutocomplete. exact H.
Qed.

Lemma in_order_handleAutocompleteKeydown (key : jsstring) (b : box) :
  in_order b -> in_order (fst (handleAutocompleteKeydown key b)).
Proof.
  intros H. pose proof H as [H1 [H2 [H3 [H4 H5]]]].
  unfold handleAutocompleteKeydown.
  destruct (dropdown_display b); [exact H | | | |];
    (destruct (str_eqb key (js "ArrowDown"));
     [ cbn zeta; cbn [fst]; apply in_order_selectAutocompleteIndex;
       cbn [set_selectedAutocompleteIndex entries autocompleteData
            selectedAutocompleteIndex]; try assumption; lia
     | destruct (str_eqb key (js "ArrowUp"));
       [ cbn zeta; cbn [fst]; apply in_order_selectAutocompleteIndex;
         cbn [set_selectedAutocompleteIndex entries autocompleteData
              selectedAutocompleteIndex]; try assumption; lia
       | destruct (str_eqb key (js "Enter"));
         [ destruct ((0 <=? selectedAutocompleteIndex b)%Z && _);
           [ destruct (nth_error (autocompleteData b) _);
             [apply in_order_selectAutocompleteItem; exact H | exact H]
           | apply in_order_in_flow; exact H ]
         | destruct (str_eqb key (js "Escape"));
           [apply in_order_hideAutocomplete; exact H | exact H] ] ] ]).
Qed.

Lemma in_order_each_listener (n : nat) (key : jsstring) (b : box) :
  in_order b -> in_order (fst (each_listener n (on_enter key) b)).
Proof.
  revert b. induction n as [|n IH]; intros b H; [exact H |].
  cbn [each_listener].
  destruct (on_enter key b) as [b1 e1] eqn:E1.
  assert (H1 : in_order b1).
  { replace b1 with (fst (on_enter key b)) by (rewrite E1; reflexivity).
    unfold on_enter. destruct (str_eqb key (js "Enter")); exact H. }
  specialize (IH b1 H1).
  destruct (each_listener n (on_enter key) b1) as [b2 e2]. exact IH.
Qed.

Lemma in_order_keydown (key : jsstring) (b : box) :
  in_order b -> in_order (fst (keydown key b)).
Proof.
  intros H. unfold keydown.
  pose proof (in_order_handleAutocompleteKeydown key b H) as H1.
  destruct (handleAutocompleteKeydown key b) as [b1 e1]. cbn [fst] in H1.
  pose proof (in_order_each_listener (enter_listeners b1) key b1 H1) as H2.
  destruct (each_listener (enter_listeners b1) (on_enter key) b1) as [b2 e2].
  exact H2.
Qed.

Lemma in_order_mousedown (index : nat) (b : box) :
  in_order b -> in_order (fst (mousedown index b)).
Proof.
  intros H. unfold mousedown. destruct (nth_error (entries b) index);
    [apply in_order_selectAutocompleteItem |]; exact H.
Qed.

Lemma in_order_mouseenter (index : nat) (b : box) :
  in_order b -> in_order (mouseenter index b).
Proof.
  intros H. pose proof H as [H1 [H2 [H3 [H4 H5]]]]. unfold mouseenter.
  destruct (nth_error (entries b) index) eqn:N; [| exact H].
  apply in_order_selectAutocompleteIndex; try assumption.
  left. assert (index < List.length (entries b))%nat; [| lia].
  apply nth_error_Some. rewrite N. discriminate.
Qed.

Lemma in_order_handleAutocomplete (b b' : box) :
  in_order b -> handleAutocomplete b = Returns b' -> in_order b'.
Proof.
  intros H. unfold handleAutocomplete. cbn zeta.
  destruct (List.length _ <? 1)%nat.
  - intros [= <-]. apply in_order_hideAutocomplete. exact H.
  - destruct (getAutocompleteSuggestions _) as [suggestions | |] eqn:G; try discriminate.
    destruct (getAutocompleteSuggestions_returns _ _ G) as [-> | [keyRegex [textRegex ->]]].
    + intros [= <-]. apply in_order_hideAutocomplete. exact H.
    + destruct (collected_within keyRegex textRegex) as [Hl [_ Ht]].
      destruct (0 <? List.length _)%nat; intros [= <-].
      * apply in_order_showAutocompleteSuggestions; assumption.
      * apply in_order_hideAutocomplete. exact H.
Qed.

Lemma in_order_step (b b' : box) (es : list event) :
  step b es b' -> in_order b -> in_order b'.
Proof.
  intros S H. destruct S as [value b b' E | value b E | value b E
                             | value suggestions b E Ht Hl | key b | b | index b
                             | index b | i b].
  - exact (in_order_handleAutocomplete _ _ (in_order_retyped value b H) E).
  - exact H.
  - exact H.
  - destruct (0 <? List.length suggestions)%nat.
    + apply in_order_showAutocompleteSuggestions; assumption.
    + apply in_order_hideAutocomplete. exact H.
  - apply in_order_keydown. exact H.
  - apply in_order_hideAutocomplete. exact H.
  - apply in_order_mousedown. exact H.
  - apply in_order_mouseenter. exact H.
  - exact H.
Qed.

(** X8.  The dropdown stays in order whatever happens to the search
    box: after any sequence of edits, key presses, blurs, mouse presses
    and mouse moves over entries, and handlers of the flow controller,
    started on a dropdown in order, the dropdown is in order; and while
    it is not hidden, the entry at [selectedAutocompleteIndex], and no
    other, is highlighted, and the entry number [i] was built from
    [autocompleteData[i]]. *)
Theorem in_order_steps (b b' : box) (es : list event) :
  in_order b -> steps b es b' ->
  in_order b'
  /\ (dropdown_display b' <> DisplayNone ->
      forall i e, nth_error (entries b') i = Some e ->
        (entry_selected e = true <-> Z.of_nat i = selectedAutocompleteIndex b')
        /\ nth_error (autocompleteData b') i = Some (entry_suggestion e)).
Proof.
  intros H S.
  assert (H' : in_order b').
  { induction S as [b | b es b' es' b'' S1 S2 IH]; [exact H |].
    apply IH. exact (in_order_step _ _ _ S1 H). }
  split; [exact H' |].
  destruct H' as [H1 [_ [H3 _]]]. intros D i e N.
  split; [exact (H3 D i e N) |].
  rewrite <- H1, nth_error_map, N. reflexivity.
Qed.

Lemma in_order_loaded_box (specs : list (jsstring * nat)) : in_order (loaded_box specs).
Proof.
  unfold in_order. cbn. split; [reflexivity |]. split; [lia |].
  split; [intros _ [|i] e N; discriminate N |]. split; [constructor | lia].
Qed.

Lemma in_order_steps_witness :
  in_order
    (fst (keydown (js "ArrowDown")
       (fst (keydown (js "ArrowDown")
          (showAutocompleteSuggestions [sg "Kulaklık" "fas fa-headphones" "Headphones"]
             (loaded_box [])))))).
Proof.
  refine (proj1 (in_order_steps
    (showAutocompleteSuggestions [sg "Kulaklık" "fas fa-headphones" "Headphones"]
       (loaded_box []))
    _ _ _ _)).
  - apply in_order_showAutocompleteSuggestions; [| cbn; lia].
    repeat constructor; unfold from_table; vm_compute; tauto.
  - eapply steps_next; [apply (step_keydown (js "ArrowDown")) |].
    eapply steps_next; [apply (step_keydown (js "ArrowDown")) |].
    apply steps_done.
Defined.

(** **** Arrow keys *)

Lemma each_listener_other_key (n : nat) (key : jsstring) (b : box) :
  str_eqb key (js "Enter") = false ->
  each_listener n (on_enter key) b = (b, []).
Proof.
  intros H. induction n as [|n IH]; [reflexivity |].
  cbn [each_listener]. unfold on_enter at 1. rewrite H, IH. reflexivity.
Qed.

Lemma keydown_ArrowDown (b : box) :
  dropdown_display b <> DisplayNone ->
  keydown (js "ArrowDown") b
  = (selectAutocompleteIndex
       (Z.min (selectedAutocompleteIndex b + 1) (Z.of_nat (List.length (entries b)) - 1))
       (set_selectedAutocompleteIndex
          (Z.min (selectedAutocompleteIndex b + 1) (Z.of_nat (List.length (entries b)) - 1))
          b),
     []).
Proof.
  intros D. unfold keydown, handleAutocompleteKeydown.
  change (str_eqb (js "ArrowDown") (js "ArrowDown")) with true. cbv iota zeta.
  cbn [set_selectedAutocompleteIndex selectedAutocompleteIndex].
  destruct (dropdown_display b); try contradiction;
    rewrite each_listener_other_key by reflexivity; reflexivity.
Qed.

Lemma keydown_ArrowUp (b : box) :
  dropdown_display b <> DisplayNone ->
  keydown (js "ArrowUp") b
  = (selectAutocompleteIndex
       (Z.max (selectedAutocompleteIndex b - 1) (-1))
       (set_selectedAutocompleteIndex (Z.max (selectedAutocompleteIndex b - 1) (-1)) b),
     []).
Proof.
  intros D. unfold keydown, handleAutocompleteKeydown.
  change (str_eqb (js "ArrowUp") (js "ArrowDown")) with false.
  change (str_eqb (js "ArrowUp") (js "ArrowUp")) with true. cbv iota zeta.
  cbn [set_selectedAutocompleteIndex selectedAutocompleteIndex].
  destruct (dropdown_display b); try contradiction;
    rewrite each_listener_other_key by reflexivity; reflexivity.
Qed.

(** What [selectAutocompleteIndex] leaves alone, and the index it
    leaves when the index it is given is the one already set. *)
Lemma selectAutocompleteIndex_frame (index : Z) (b : box) :
  selectedAutocompleteIndex b = index ->
  selectedAutocompleteIndex (selectAutocompleteIndex index b) = index
  /\ dropdown_display (selectAutocompleteIndex index b) = dropdown_display b
  /\ autocompleteData (selectAutocompleteIndex index b) = autocompleteData b
  /\ flow (selectAutocompleteIndex index b) = flow b
  /\ enter_listeners (selectAutocompleteIndex index b) = enter_listeners b
  /\ List.length (entries (selectAutocompleteIndex index b)) = List.length (entries b).
Proof.
  intros E. unfold selectAutocompleteIndex. cbn zeta.
  destruct (_ && _)%bool; cbn; rewrite ?select_nth_length, ?length_map;
    repeat split; try reflexivity; exact E.
Qed.

Lemma keydown_ArrowDown_frame (b : box) :
  in_order b -> dropdown_display b <> DisplayNone ->
  in_order (fst (keydown (js "ArrowDown") b))
  /\ dropdown_display (fst (keydown (js "ArrowDown") b)) = dropdown_display b
  /\ autocompleteData (fst (keydown (js "ArrowDown") b)) = autocompleteData b
  /\ flow (fst (keydown (js "ArrowDown") b)) = flow b
  /\ List.length (entries (fst (keydown (js "ArrowDown") b))) = List.length (entries b)
  /\ selectedAutocompleteIndex (fst (keydown (js "ArrowDown") b))
     = Z.min (selectedAutocompleteIndex b + 1) (Z.of_nat (List.length (entries b)) - 1).
Proof.
  intros H D. split; [apply in_order_keydown; exact H |].
  rewrite (keydown_ArrowDown b D). cbn [fst].
  destruct (selectAutocompleteIndex_frame
              (Z.min (selectedAutocompleteIndex b + 1)
                     (Z.of_nat (List.length (entries b)) - 1))
              (set_selectedAutocompleteIndex
                 (Z.min (selectedAutocompleteIndex b + 1)
                        (Z.of_nat (List.length (entries b)) - 1)) b) eq_refl)
    as [Es [Ed [Ea [Ef [_ El]]]]].
  repeat split; assumption.
Qed.

Lemma keydown_ArrowUp_frame (b : box) :
  in_order b -> dropdown_display b <> DisplayNone ->
  in_order (fst (keydown (js "ArrowUp") b))
  /\ dropdown_display (fst (keydown (js "ArrowUp") b)) = dropdown_display b
  /\ autocompleteData (fst (keydown (js "ArrowUp") b)) = autocompleteData b
  /\ flow (fst (keydown (js "ArrowUp") b)) = flow b
  /\ List.length (entries (fst (keydown (js "ArrowUp") b))) = List.length (entries b)
  /\ selectedAutocompleteIndex (fst (keydown (js "ArrowUp") b))
     = Z.max (selectedAutocompleteIndex b - 1) (-1).
Proof.
  intros H D. split; [apply in_order_keydown; exact H |].
  rewrite (keydown_ArrowUp b D). cbn [fst].
  destruct (selectAutocompleteIndex_frame
              (Z.max (selectedAutocompleteIndex b - 1) (-1))
              (set_selectedAutocompleteIndex
                 (Z.max (selectedAutocompleteIndex b - 1) (-1)) b) eq_refl)
    as [Es [Ed [Ea [Ef [_ El]]]]].
  repeat split; assumption.
Qed.

Lemma presses_ArrowDown (n : nat) (b : box) :
  in_order b -> dropdown_display b <> DisplayNone ->
  in_order (presses n (js "ArrowDown") b)
  /\ dropdown_display (presses n (js "ArrowDown") b) = dropdown_display b
  /\ autocompleteData (presses n (js "ArrowDown") b) = autocompleteData b
  /\ flow (presses n (js "ArrowDown") b) = flow b
  /\ selectedAutocompleteIndex (presses n (js "ArrowDown") b)
     = Z.min (selectedAutocompleteIndex b + Z.of_nat n)
             (Z.of_nat (List.length (entries b)) - 1).
Proof.
  revert b. induction n as [|n IH]; intros b H D.
  - pose proof H as [_ [H2 _]]. cbn [presses]. split; [exact H |]. repeat split; lia.
  - pose proof H as [_ [H2 _]]. cbn [presses].
    destruct (keydown_ArrowDown_frame b H D) as [H' [Ed [Ea [Ef [El Es]]]]].
    destruct (IH _ H' ltac:(rewrite Ed; exact D)) as [I0 [Id [Ia [If Is]]]].
    rewrite Id, Ia, If, Is, Ed, Ea, Ef, El, Es. split; [exact I0 |]. repeat split; lia.
Qed.

Lemma presses_ArrowUp (n : nat) (b : box) :
  in_order b -> dropdown_display b <> DisplayNone ->
  in_order (presses n (js "ArrowUp") b)
  /\ dropdown_display (presses n (js "ArrowUp") b) = dropdown_display b
  /\ autocompleteData (presses n (js "ArrowUp") b) = autocompleteData b
  /\ flow (presses n (js "ArrowUp") b) = flow b
  /\ selectedAutocompleteIndex (presses n (js "ArrowUp") b)
     = Z.max (selectedAutocompleteIndex b - Z.of_nat n) (-1).
Proof.
  revert b. induction n as [|n IH]; intros b H D.
  - pose proof H as [_ [H2 _]]. cbn [presses]. split; [exact H |]. repeat split; lia.
  - pose proof H as [_ [H2 _]]. cbn [presses].
    destruct (keydown_ArrowUp_frame b H D) as [H' [Ed [Ea [Ef [El Es]]]]].
    destruct (IH _ H' ltac:(rewrite Ed; exact D)) as [I0 [Id [Ia [If Is]]]].
    rewrite Id, Ia, If, Is, Ed, Ea, Ef, Es. split; [exact I0 |]. repeat split; lia.
Qed.

(** X9.  On a dropdown just filled with [suggestions] (at most eight,
    from the table), [n] presses of ArrowDown leave the index at
    [min(n, length) - 1]: the highlight stops at the last entry and does
    not wrap.  [m] presses of ArrowUp after them take it down by [m] and
    stop at -1.  The arrow keys change neither the page of the flow
    controller nor [autocompleteData]. *)
Theorem arrow_keys (n : nat) (suggestions : list suggestion) (b : box) :
  Forall from_table suggestions -> (List.length suggestions <= 8)%nat ->
  selectedAutocompleteIndex
    (presses n (js "ArrowDown") (showAutocompleteSuggestions suggestions b))
  = (Z.min (Z.of_nat n) (Z.of_nat (List.length suggestions)) - 1)%Z
  /\ (forall m,
        selectedAutocompleteIndex
          (presses m (js "ArrowUp")
             (presses n (js "ArrowDown") (showAutocompleteSuggestions suggestions b)))
        = Z.max (Z.min (Z.of_nat n) (Z.of_nat (List.length suggestions)) - 1 - Z.of_nat m)
                (-1)
        /\ flow (presses m (js "ArrowUp")
                   (presses n (js "ArrowDown") (showAutocompleteSuggestions suggestions b)))
           = flow b
        /\ autocompleteData
             (presses m (js "ArrowUp")
                (presses n (js "ArrowDown") (showAutocompleteSuggestions suggestions b)))
           = suggestions).
Proof.
  intros Ht Hl.
  pose proof (in_order_showAutocompleteSuggestions suggestions b Ht Hl) as H0.
  assert (D0 : dropdown_display (showAutocompleteSuggestions suggestions b) <> DisplayNone)
    by discriminate.
  destruct (presses_ArrowDown n _ H0 D0) as [Hn [Dn [An [Fn Sn]]]].
  cbn [showAutocompleteSuggestions set_selectedAutocompleteIndex set_dropdown_display
       set_entries set_autocompleteData selectedAutocompleteIndex entries
       autocompleteData flow dropdown_display] in Dn, An, Fn, Sn.
  rewrite length_map in Sn.
  split; [rewrite Sn; lia |].
  intros m.
  destruct (presses_ArrowUp m _ Hn ltac:(rewrite Dn; discriminate)) as [_ [_ [Am [Fm Sm]]]].
  rewrite Sm, Am, Fm, Sn, An, Fn. repeat split; lia.
Qed.

Lemma arrow_keys_witness :
  selectedAutocompleteIndex
    (presses 3 (js "ArrowDown")
       (showAutocompleteSuggestions
          [sg "Klima" "fas fa-snowflake" "Air Conditioner"; sg "Klavye" "fas fa-keyboard" "Keyboard"]
          (loaded_box [])))
  = 1%Z.
Proof.
  refine (proj1 (arrow_keys 3
    [sg "Klima" "fas fa-snowflake" "Air Conditioner"; sg "Klavye" "fas fa-keyboard" "Keyboard"]
    (loaded_box []) _ _)).
  - repeat constructor; unfold from_table; vm_compute; tauto.
  - cbn. lia.
Defined.

(** **** Submitting the query *)

(** With text in the search box [handleChatboxEntry] leaves one more
    request, for the trimmed text, and leaves the session variables, the
    search box and the listeners alone. *)
Lemma handleChatboxEntry_sends (s : page) :
  trim (chatbox_input (ui s)) <> [] ->
  fetches (env (final (handleChatboxEntry s)))
  = fetches (env s) ++ detections (next_fetch (env s)) 1 (trim (chatbox_input (ui s)))
  /\ next_fetch (env (final (handleChatboxEntry s))) = S (next_fetch (env s))
  /\ listeners_added (trace (handleChatboxEntry s)) = 0%nat
  /\ ui (final (handleChatboxEntry s)) = ui s
  /\ var (final (handleChatboxEntry s)) = var s.
Proof.
  intros H. unfold handleChatboxEntry, bind, gets.
  destruct (trim (chatbox_input (ui s))) as [|c q] eqn:E; [contradiction |].
  cbn [truthy_str negb]. repeat split; reflexivity.
Qed.

Lemma in_flow_handleChatboxEntry (b : box) :
  trim (chatbox_input (ui (flow b))) <> [] ->
  fetches (env (flow (fst (in_flow handleChatboxEntry b))))
  = fetches (env (flow b))
    ++ detections (next_fetch (env (flow b))) 1 (trim (chatbox_input (ui (flow b))))
  /\ next_fetch (env (flow (fst (in_flow handleChatboxEntry b))))
     = S (next_fetch (env (flow b)))
  /\ ui (flow (fst (in_flow handleChatboxEntry b))) = ui (flow b)
  /\ var (flow (fst (in_flow handleChatboxEntry b))) = var (flow b)
  /\ enter_listeners (fst (in_flow handleChatboxEntry b)) = enter_listeners b
  /\ dropdown_display (fst (in_flow handleChatboxEntry b)) = dropdown_display b
  /\ selectedAutocompleteIndex (fst (in_flow handleChatboxEntry b))
     = selectedAutocompleteIndex b.
Proof.
  intros H. destruct (handleChatboxEntry_sends (flow b) H) as [R [X [L [U V]]]].
  unfold in_flow. cbn [fst snd set_enter_listeners set_flow flow enter_listeners
                       dropdown_display selectedAutocompleteIndex].
  rewrite L, Nat.add_0_r. repeat split; assumption.
Qed.

Lemma each_listener_enter (n : nat) (b : box) :
  trim (chatbox_input (ui (flow b))) <> [] ->
  fetches (env (flow (fst (each_listener n (on_enter (js "Enter")) b))))
  = fetches (env (flow b))
    ++ detections (next_fetch (env (flow b))) n (trim (chatbox_input (ui (flow b))))
  /\ next_fetch (env (flow (fst (each_listener n (on_enter (js "Enter")) b))))
     = (next_fetch (env (flow b)) + n)%nat
  /\ ui (flow (fst (each_listener n (on_enter (js "Enter")) b))) = ui (flow b)
  /\ var (flow (fst (each_listener n (on_enter (js "Enter")) b))) = var (flow b)
  /\ dropdown_display (fst (each_listener n (on_enter (js "Enter")) b))
     = dropdown_display b
  /\ selectedAutocompleteIndex (fst (each_listener n (on_enter (js "Enter")) b))
     = selectedAutocompleteIndex b.
Proof.
  revert b. induction n as [|n IH]; intros b H.
  { cbn [each_listener fst]. unfold detections. cbn [seq map].
    rewrite app_nil_r, Nat.add_0_r. repeat split; reflexivity. }
  cbn [each_listener].
  replace (on_enter (js "Enter") b) with (in_flow handleChatboxEntry b) by reflexivity.
  destruct (in_flow_handleChatboxEntry b H) as [R [X [U [V [L [D S]]]]]].
  destruct (in_flow handleChatboxEntry b) as [b1 e1]. cbn [fst snd] in *.
  destruct (IH b1 ltac:(rewrite U; exact H)) as [R' [X' [U' [V' [D' S']]]]].
  destruct (each_listener n (on_enter (js "Enter")) b1) as [b2 e2]. cbn [fst snd] in *.
  rewrite R', X', U', V', D', S', R, X, U, V, D, S, <- app_assoc.
  repeat split; try reflexivity. lia.
Qed.

Lemma in_order_entry (b : box) (i : nat) (e : entry) :
  in_order b -> nth_error (entries b) i = Some e ->
  nth_error (autocompleteData b) i = Some (entry_suggestion e)
  /\ trim (text (entry_suggestion e)) = text (entry_suggestion e)
  /\ text (entry_suggestion e) <> [].
Proof.
  intros [H1 [_ [_ [H4 _]]]] N.
  assert (A : nth_error (autocompleteData b) i = Some (entry_suggestion e)).
  { rewrite <- H1, nth_error_map, N. reflexivity. }
  split; [exact A |]. apply table_texts.
  exact (proj1 (Forall_forall _ _) H4 _ (nth_error_In _ _ A)).
Qed.

Lemma selectAutocompleteItem_searches (suggestion0 : suggestion) (b : box) :
  trim (text suggestion0) = text suggestion0 -> text suggestion0 <> [] ->
  fetches (env (flow (fst (selectAutocompleteItem suggestion0 b))))
  = fetches (env (flow b)) ++ detections (next_fetch (env (flow b))) 1 (text suggestion0)
  /\ next_fetch (env (flow (fst (selectAutocompleteItem suggestion0 b))))
     = S (next_fetch (env (flow b)))
  /\ chatbox_input (ui (flow (fst (selectAutocompleteItem suggestion0 b))))
     = text suggestion0
  /\ var (flow (fst (selectAutocompleteItem suggestion0 b))) = var (flow b)
  /\ dropdown_display (fst (selectAutocompleteItem suggestion0 b)) = DisplayNone
  /\ selectedAutocompleteIndex (fst (selectAutocompleteItem suggestion0 b)) = (-1)%Z
  /\ enter_listeners (fst (selectAutocompleteItem suggestion0 b)) = enter_listeners b.
Proof.
  intros Ht Hne. unfold selectAutocompleteItem. cbn zeta.
  set (b1 := hideAutocomplete
               (set_flow (on_ui (set_chatbox_input (text suggestion0)) (flow b)) b)).
  assert (I : chatbox_input (ui (flow b1)) = text suggestion0) by reflexivity.
  destruct (in_flow_handleChatboxEntry b1 ltac:(rewrite I, Ht; exact Hne))
    as [R [X [U [V [L [D S]]]]]].
  rewrite R, X, U, V, L, D, S, I, Ht. repeat split; reflexivity.
Qed.

(** X10.  On a dropdown in order, pressing the mouse on an entry puts the
    entry's display text in the search box, hides the dropdown, resets
    the index to -1 and leaves with the browser exactly one more request
    to [/detect_category], for that display text as it stands; the
    session variables are as they were. *)
Theorem mousedown_searches (index : nat) (b : box) (e : entry) :
  in_order b -> nth_error (entries b) index = Some e ->
  fetches (env (flow (fst (mousedown index b))))
  = fetches (env (flow b))
    ++ [(next_fetch (env (flow b)), FetchDetect (text (entry_suggestion e)))]
  /\ chatbox_input (ui (flow (fst (mousedown index b)))) = text (entry_suggestion e)
  /\ dropdown_display (fst (mousedown index b)) = DisplayNone
  /\ selectedAutocompleteIndex (fst (mousedown index b)) = (-1)%Z
  /\ var (flow (fst (mousedown index b))) = var (flow b).
Proof.
  intros H N. destruct (in_order_entry b index e H N) as [_ [Ht Hne]].
  unfold mousedown. rewrite N.
  destruct (selectAutocompleteItem_searches (entry_suggestion e) b Ht Hne)
    as [R [_ [I [V [D [S _]]]]]].
  repeat split; assumption.
Qed.

Lemma mousedown_searches_witness :
  fetches (env (flow
    (fst (mousedown 0
            (showAutocompleteSuggestions [sg "Kulaklık" "fas fa-headphones" "Headphones"]
               (retyped (js "ku") (loaded_box [])))))))
  = [(0%nat, FetchDetect (js "Kulaklık"))].
Proof.
  refine (proj1 (mousedown_searches 0
    (showAutocompleteSuggestions [sg "Kulaklık" "fas fa-headphones" "Headphones"]
       (retyped (js "ku") (loaded_box [])))
    {| entry_suggestion := sg "Kulaklık" "fas fa-headphones" "Headphones";
       entry_selected := false |} _ eq_refl)).
  apply in_order_showAutocompleteSuggestions; [| cbn; lia].
  repeat constructor; unfold from_table; vm_compute; tauto.
Defined.

Lemma keydown_Enter_hidden (b : box) :
  dropdown_display b = DisplayNone ->
  keydown (js "Enter") b = each_listener (enter_listeners b) (on_enter (js "Enter")) b.
Proof.
  intros D. unfold keydown, handleAutocompleteKeydown. rewrite D.
  destruct (each_listener (enter_listeners b) (on_enter (js "Enter")) b). reflexivity.
Qed.

Lemma handleAutocompleteKeydown_Enter (b : box) :
  dropdown_display b <> DisplayNone ->
  handleAutocompleteKeydown (js "Enter") b
  = if ((0 <=? selectedAutocompleteIndex b)
        && (selectedAutocompleteIndex b <? Z.of_nat (List.length (entries b))))%Z
    then
      match nth_error (autocompleteData b) (Z.to_nat (selectedAutocompleteIndex b)) with
      | Some suggestion0 => selectAutocompleteItem suggestion0 b
      | None => (b, [])
      end
    else in_flow handleChatboxEntry b.
Proof.
  intros D. unfold handleAutocompleteKeydown.
  change (str_eqb (js "Enter") (js "ArrowDown")) with false.
  change (str_eqb (js "Enter") (js "ArrowUp")) with false.
  change (str_eqb (js "Enter") (js "Enter")) with true. cbv iota.
  destruct (dropdown_display b); [contradiction | | | |]; reflexivity.
Qed.

(** X11.  One press of Enter in the search box sends the query once for
    every [keydown] listener that answers it.  On a dropdown in order:
    with the dropdown hidden and text in the box, the browser is left
    with one more request to [/detect_category] for each anonymous
    listener, all for the trimmed text; with the dropdown not hidden
    and no entry highlighted, with one more than that, the first from
    [handleAutocompleteKeydown]; with an entry highlighted, the box
    takes the entry's display text, the dropdown is hidden, and the
    requests, one more than the anonymous listeners, are for that
    text. *)
Theorem keydown_Enter_requests (b : box) :
  in_order b ->
  (dropdown_display b = DisplayNone ->
   trim (chatbox_input (ui (flow b))) <> [] ->
   fetches (env (flow (fst (keydown (js "Enter") b))))
   = fetches (env (flow b))
     ++ detections (next_fetch (env (flow b))) (enter_listeners b)
          (trim (chatbox_input (ui (flow b)))))
  /\ (dropdown_display b <> DisplayNone ->
      selectedAutocompleteIndex b = (-1)%Z ->
      trim (chatbox_input (ui (flow b))) <> [] ->
      fetches (env (flow (fst (keydown (js "Enter") b))))
      = fetches (env (flow b))
        ++ detections (next_fetch (env (flow b))) (S (enter_listeners b))
             (trim (chatbox_input (ui (flow b)))))
  /\ (dropdown_display b <> DisplayNone ->
      forall i e,
        Z.of_nat i = selectedAutocompleteIndex b ->
        nth_error (entries b) i = Some e ->
        fetches (env (flow (fst (keydown (js "Enter") b))))
        = fetches (env (flow b))
          ++ detections (next_fetch (env (flow b))) (S (enter_listeners b))
               (text (entry_suggestion e))
        /\ chatbox_input (ui (flow (fst (keydown (js "Enter") b))))
           = text (entry_suggestion e)
        /\ dropdown_display (fst (keydown (js "Enter") b)) = DisplayNone).
Proof.
  intros H. split; [| split].
  - intros D Hq. rewrite (keydown_Enter_hidden b D).
    exact (proj1 (each_listener_enter (enter_listeners b) b Hq)).
  - intros D Hs Hq. unfold keydown. rewrite (handleAutocompleteKeydown_Enter b D), Hs.
    cbn [Z.leb Z.compare andb].
    destruct (in_flow_handleChatboxEntry b Hq) as [R [X [U [V [L _]]]]].
    destruct (in_flow handleChatboxEntry b) as [b1 e1]. cbn [fst snd] in *.
    destruct (each_listener_enter (enter_listeners b1) b1 ltac:(rewrite U; exact Hq))
      as [R' _].
    destruct (each_listener (enter_listeners b1) (on_enter (js "Enter")) b1) as [b2 e2].
    cbn [fst snd] in *.
    rewrite R', R, X, U, L, <- app_assoc. reflexivity.
  - intros D i e Hi N.
    destruct (in_order_entry b i e H N) as [A [Ht Hne]].
    assert (Hlt : (i < List.length (entries b))%nat).
    { apply nth_error_Some. rewrite N. discriminate. }
    unfold keydown. rewrite (handleAutocompleteKeydown_Enter b D), <- Hi.
    replace ((0 <=? Z.of_nat i)%Z && (Z.of_nat i <? Z.of_nat (List.length (entries b)))%Z)
      with true
      by (symmetry; apply andb_true_iff; split; [apply Z.leb_le | apply Z.ltb_lt]; lia).
    rewrite Znat.Nat2Z.id, A.
    destruct (selectAutocompleteItem_searches (entry_suggestion e) b Ht Hne)
      as [R [X [I [_ [Dn [_ L]]]]]].
    destruct (selectAutocompleteItem (entry_suggestion e) b) as [b1 e1]. cbn [fst snd] in *.
    destruct (each_listener_enter (enter_listeners b1) b1 ltac:(rewrite I, Ht; exact Hne))
      as [R' [_ [U' [_ [D' _]]]]].
    destruct (each_listener (enter_listeners b1) (on_enter (js "Enter")) b1) as [b2 e2].
    cbn [fst snd] in *.
    rewrite R', R, X, U', D', I, Ht, L, Dn, <- app_assoc.
    repeat split; reflexivity.
Qed.

Lemma keydown_Enter_requests_witness :
  fetches (env (flow
    (fst (keydown (js "Enter")
            (showAutocompleteSuggestions [sg "Kulaklık" "fas fa-headphones" "Headphones"]
               (retyped (js "ku") (loaded_box [])))))))
  = [(0%nat, FetchDetect (js "ku")); (1%nat, FetchDetect (js "ku"));
     (2%nat, FetchDetect (js "ku"))].
Proof.
  refine (proj1 (proj2 (keydown_Enter_requests
    (showAutocompleteSuggestions [sg "Kulaklık" "fas fa-headphones" "Headphones"]
       (retyped (js "ku") (loaded_box []))) _)) _ eq_refl _).
  - apply in_order_showAutocompleteSuggestions; [| cbn; lia].
    repeat constructor; unfold from_table; vm_compute; tauto.
  - discriminate.
  - vm_compute. discriminate.
Defined.

End SearchBox.
